(** * MonitoringService: role change with Azure AD synchronisation

    A shallow embedding of the role-change engine of the API functions
    ([shared/services/changeUserRole/changeUserRoleService.ts]), of the
    validation rules it runs ([changeUserRoleValidationRules.ts]), of the
    Microsoft Graph helpers it calls ([graphService.ts]), of the audit
    writer ([auditService.ts]) and of
    [UserRoleManagementService.removeAllAppRolesFromUser].

    Asynchronous functions are embedded in a state-and-exception monad over
    a [World] (local user table, audit table, directory role assignments,
    history of the calls made on collaborators).  What a collaborator
    answers, and whether a call on it fails, is read from an [Env].  A
    [while] loop over the pages of a listing takes fuel, and diverges when
    it runs out of it.  The message of a plain [Error] is kept without the
    values the code splices into it (HTTP status, response body). *)

From Stdlib Require Import NArith String Ascii List Bool Lia.
From stdpp Require Import base option list gmap strings pretty.

Local Open Scope string_scope.
Local Open Scope N_scope.

(** ** Prisma model *)

(** [enum UserRole] of the Prisma client. *)
Inductive UserRole : Set :=
  | SuperAdmin | Admin | Supervisor | ContactManager | Employee.

#[global] Instance UserRole_eq_dec : EqDecision UserRole.
Proof. solve_decision. Defined.

(** [a === b] on roles. *)
Definition role_eqb (a b : UserRole) : bool := bool_decide (a = b).

(** [a === b] on a value of type [UserRole | null]. *)
Definition orole_eqb (a b : option UserRole) : bool := bool_decide (a = b).

(** The name of a role, which is the key the role has in a JS object. *)
Definition roleName (r : UserRole) : string :=
  match r with
  | SuperAdmin => "SuperAdmin"
  | Admin => "Admin"
  | Supervisor => "Supervisor"
  | ContactManager => "ContactManager"
  | Employee => "Employee"
  end.

Module User.
(** The fields of the Prisma [User] row that the engine reads or writes. *)
Record t : Set := mk {
  id : string;
  azureAdObjectId : string;
  email : string;
  fullName : string;
  role : UserRole;
  roleChangedAt : N
}.
End User.

(** ** Errors *)

(** What a [throw] carries: an [ExpectedError] of the error-handling
    middleware (message and HTTP status), or a plain [Error]. *)
Inductive Exn : Set :=
  | ExpectedError (message : string) (statusCode : N)
  | Error (message : string).

(** ** changeUserRoleMessages.ts *)

Module ChangeUserRoleMessages.
Definition CALLER_NOT_FOUND := "Caller not found".
Definition INSUFFICIENT_PERMISSIONS := "Only Admin or Supervisor may change roles".
Definition SUPERVISOR_LIMITED_ACCESS := "Supervisors may only assign Employee role".
Definition CANNOT_CHANGE_OWN_ROLE := "Cannot change own role".
Definition CANNOT_CHANGE_SUPERADMIN := "Cannot change SuperAdmin role".
Definition USER_NOT_FOUND_AZURE := "User not found in Azure AD".
Definition AZURE_AD_UPDATE_FAILED := "Failed to update Azure AD roles".
Definition ROLE_CHANGED_SUCCESSFULLY := "User role changed successfully".
Definition USER_DELETED_SUCCESSFULLY := "User deleted successfully".
End ChangeUserRoleMessages.

Inductive ChangeUserRoleStatus : Set :=
  | SUCCESS | FAILED | ROLLBACK_REQUIRED.

Module AzureADRetryStatus.
Inductive t : Set := SUCCESS | FAILED | MAX_RETRIES_EXCEEDED.
End AzureADRetryStatus.

(** ** changeUserRoleValidationRules.ts

    A rule returns [None] when it returns normally and [Some e] when it
    throws [e]. *)

Module ChangeUserRoleValidationRules.
Import ChangeUserRoleMessages.

(** [if (currentUser.email === targetEmail) throw ...] *)
Definition validateNotSelfChange (currentUser : User.t) (targetEmail : string)
  : option Exn :=
  if String.eqb (User.email currentUser) targetEmail
  then Some (ExpectedError CANNOT_CHANGE_OWN_ROLE 400)
  else None.

Definition validateNotSuperAdminChange (targetUser : User.t) : option Exn :=
  if role_eqb (User.role targetUser) SuperAdmin
  then Some (ExpectedError CANNOT_CHANGE_SUPERADMIN 400)
  else None.

Definition validateSupervisorRoleAssignment
    (callerRole : UserRole) (newRole : option UserRole) : option Exn :=
  if role_eqb callerRole Supervisor && negb (orole_eqb newRole (Some Employee))
  then Some (ExpectedError SUPERVISOR_LIMITED_ACCESS 403)
  else None.

Definition validateCallerPermissions
    (callerRole targetRole : UserRole) (newRole : option UserRole) : option Exn :=
  if role_eqb callerRole SuperAdmin then None
  else if role_eqb callerRole Admin then
    if role_eqb targetRole SuperAdmin
    then Some (ExpectedError CANNOT_CHANGE_SUPERADMIN 403)
    else None
  else if role_eqb callerRole Supervisor then
    if negb (orole_eqb newRole (Some Employee))
    then Some (ExpectedError SUPERVISOR_LIMITED_ACCESS 403)
    else None
  else Some (ExpectedError INSUFFICIENT_PERMISSIONS 403).

Definition validateRoleChange
    (currentRole : UserRole) (newRole : option UserRole) : option Exn :=
  if orole_eqb (Some currentRole) newRole
  then Some (ExpectedError "User already has this role" 400)
  else if role_eqb currentRole SuperAdmin
  then Some (ExpectedError CANNOT_CHANGE_SUPERADMIN 400)
  else None.
End ChangeUserRoleValidationRules.

(** ** Strings the way JavaScript sees them *)

(** [!!s] for a string. *)
Definition truthy (s : string) : bool := negb (String.eqb s "").

(** [!!s] for a value of type [string | undefined]. *)
Definition otruthy (s : option string) : bool :=
  match s with Some s => truthy s | None => false end.

(** [a || b] on values of type [string | undefined]. *)
Definition or_else (a b : option string) : option string :=
  if otruthy a then a else b.

Definition lowerAscii (c : ascii) : ascii :=
  let n := N_of_ascii c in
  if (65 <=? n) && (n <=? 90) then ascii_of_N (n + 32) else c.

(** [s.toLowerCase()], on the ASCII letters. *)
Fixpoint toLowerCase (s : string) : string :=
  match s with
  | EmptyString => EmptyString
  | String c r => String (lowerAscii c) (toLowerCase r)
  end.

(** ** auditService.ts: entries and rows *)

Inductive AuditAction : Set :=
  | CREATE | UPDATE | DELETE | ROLE_CHANGE | SUPERVISOR_CHANGE
  | STREAM_START | STREAM_STOP.

Inductive AuditEntity : Set :=
  | USER | COMMAND | RECORDING | SNAPSHOT | CHAT | CONTACT_MANAGER.

(** A property of type [T | null] that may be left out: [undefined],
    [null] or a value. *)
Inductive Nullable (A : Type) : Type :=
  | Undefined
  | Null
  | Val (a : A).
Arguments Undefined {A}.
Arguments Null {A}.
Arguments Val {A} a.

(** [targetUser] (of type [User | null]) given as a property. *)
Definition of_nullable {A} (o : option A) : Nullable A :=
  match o with Some a => Val a | None => Null end.

Module AuditEntry.
(** [interface AuditEntry<T>], at [T = User]. *)
Record t : Type := mk {
  entity : AuditEntity;
  entityId : string;
  action : AuditAction;
  changedById : string;
  dataBefore : Nullable User.t;
  dataAfter : Nullable User.t
}.
End AuditEntry.

(** A JSON column in a [Prisma.AuditLogCreateInput]: the key left out (the
    column stays SQL NULL), [Prisma.JsonNull], or a value. *)
Inductive JsonInput (A : Type) : Type :=
  | Omitted
  | JsonNull
  | Json (a : A).
Arguments Omitted {A}.
Arguments JsonNull {A}.
Arguments Json {A} a.

Module AuditLog.
(** The [data] given to [prisma.auditLog.create]. *)
Record t : Type := mk {
  entity : AuditEntity;
  entityId : string;
  action : AuditAction;
  changedBy : string;
  dataBefore : JsonInput User.t;
  dataAfter : JsonInput User.t
}.
End AuditLog.

(** A JSON column that holds no value. *)
Definition json_is_null {A} (j : JsonInput A) : Prop :=
  match j with Json _ => False | _ => True end.

(** ** The directory: app-role assignments of the service principal *)

Module Assignment.
(** An element of [value] in an [appRoleAssignedTo] listing; the same
    record is what the directory stores. *)
Record t : Set := mk {
  id : option string;
  principalId : option string;
  appRoleId : option string
}.
End Assignment.

#[global] Instance Assignment_eq_dec : EqDecision Assignment.t.
Proof. solve_decision. Defined.

Module ListResponse.
(** The answer to the GET of a listing: [resp.status], [resp.data.value]
    and [resp.data["@odata.nextLink"]]. *)
Record t : Set := mk {
  status : N;
  value : option (list Assignment.t);
  nextLink : option string
}.
End ListResponse.

(** ** Calls on collaborators *)

Inductive Call : Type :=
  | DbFindUser (email : string)
  | DbUpsertUser (email adId fullName : string) (role : UserRole)
  | DbDeleteUser (email : string)
  | DbAuditCreate (data : AuditLog.t)
  | PresenceOffline (email : string)
  | TokenPost (tenantId : string)
  | GraphGetUser (key : string)
  | GraphSearchUser (mail : string)
  | GraphGetDisplayName (adId : string)
  | GraphGetServicePrincipal (clientId : option string)
  | GraphGet (url : string)
  | GraphDeleteAssignment (collection assignmentId : string)
  | GraphPostAssignment (spObjectId principalId : string) (appRoleId : option string)
  | Sleep (ms : N).

(** A call that writes to the local user table. *)
Definition is_user_write (c : Call) : bool :=
  match c with DbUpsertUser _ _ _ _ | DbDeleteUser _ => true | _ => false end.

Definition is_assignment_post (c : Call) : bool :=
  match c with GraphPostAssignment _ _ _ => true | _ => false end.

(** ** World and environment *)

Record World : Type := mkWorld {
  users : gmap string User.t;       (* local user table, by lower-cased email *)
  auditLog : list AuditLog.t;       (* audit table, oldest first *)
  assignments : list Assignment.t;  (* appRoleAssignedTo of the service principal *)
  offline : list string;            (* users marked offline, latest first *)
  history : list Call;              (* calls made so far, oldest first *)
  now : N                           (* clock, in ms *)
}.

Record Env : Type := mkEnv {
  processEnv : gmap string string;            (* process.env *)
  azureTenantId : option string;              (* config.azureTenantId *)
  azureClientId : option string;
  azureClientSecret : option string;
  fails : list Call -> Call -> bool;          (* the call is rejected, given the calls before it *)
  accessToken : option string;                (* resp.data?.access_token *)
  servicePrincipals : option string -> N * option (list string);
  directoryUser : string -> string;           (* resp.data.id of GET /users/{key} *)
  directorySearch : string -> option (list string);
  displayNameOf : string -> option string;
  listing : string -> ListResponse.t;         (* the answer to the GET of a listing URL *)
  freshId : World -> string                   (* identifier given to a created row *)
}.

(** ** The monad of asynchronous functions *)

Inductive Res (A : Type) : Type :=
  | Ok (a : A)
  | Throw (e : Exn)
  | Diverge.
Arguments Ok {A} a.
Arguments Throw {A} e.
Arguments Diverge {A}.

Definition M (A : Type) : Type := World -> Res A * World.

#[global] Instance M_ret : MRet M := fun A a w => (Ok a, w).

#[global] Instance M_bind : MBind M := fun A B k m w =>
  match m w with
  | (Ok a, w') => k a w'
  | (Throw e, w') => (Throw e, w')
  | (Diverge, w') => (Diverge, w')
  end.

Definition throw {A} (e : Exn) : M A := fun w => (Throw e, w).

Definition diverge {A} : M A := fun w => (Diverge, w).

(** [try { m } catch (err) { h err }] *)
Definition try_catch {A} (m : M A) (h : Exn -> M A) : M A := fun w =>
  match m w with
  | (Throw e, w') => h e w'
  | r => r
  end.

(** Running a synchronous rule. *)
Definition guard (c : option Exn) : M unit :=
  match c with Some e => throw e | None => mret tt end.

Definition get_world : M World := fun w => (Ok w, w).

Definition modify (f : World -> World) : M unit := fun w => (Ok tt, f w).

Definition record_call (c : Call) (w : World) : World :=
  mkWorld (users w) (auditLog w) (assignments w) (offline w)
          (history w ++ [c]) (now w).

Definition set_users (u : gmap string User.t) (w : World) : World :=
  mkWorld u (auditLog w) (assignments w) (offline w) (history w) (now w).

Definition set_auditLog (l : list AuditLog.t) (w : World) : World :=
  mkWorld (users w) l (assignments w) (offline w) (history w) (now w).

Definition set_assignments (l : list Assignment.t) (w : World) : World :=
  mkWorld (users w) (auditLog w) l (offline w) (history w) (now w).

Definition set_offline (l : list string) (w : World) : World :=
  mkWorld (users w) (auditLog w) (assignments w) l (history w) (now w).

Definition set_now (t : N) (w : World) : World :=
  mkWorld (users w) (auditLog w) (assignments w) (offline w) (history w) t.

(** What a rejected call throws. *)
Definition rejected : Exn := Error "Request failed".

Module ChangeUserRoleRequest.
Record t : Set := mk {
  userEmail : string;
  newRole : option UserRole          (* [null] removes the user *)
}.
End ChangeUserRoleRequest.

Module ChangeUserRoleResult.
Record t : Set := mk {
  message : string;
  status : ChangeUserRoleStatus;
  userEmail : string;
  previousRole : option UserRole;    (* [targetUser?.role] *)
  newRole : option UserRole;
  azureADUpdated : bool;
  rollbackRequired : bool
}.
End ChangeUserRoleResult.

Section Engine.

Variable env : Env.

(** A call on a collaborator: it enters the history, and is rejected
    when the environment says so. *)
Definition call (c : Call) : M unit := fun w =>
  let w' := record_call c w in
  if fails env (history w) c then (Throw rejected, w') else (Ok tt, w').

(** [await new Promise(resolve => setTimeout(resolve, ms))] *)
Definition sleep (ms : N) : M unit := fun w =>
  (Ok tt, set_now (now w + ms) (record_call (Sleep ms) w)).

(** *** graphService.ts *)

Definition getGraphToken : M string :=
  let tenantId := azureTenantId env in
  let clientId := azureClientId env in
  let clientSecret := azureClientSecret env in
  if negb (otruthy tenantId) || negb (otruthy clientId)
     || negb (otruthy clientSecret)
  then throw (Error
    "Missing Azure AD config: azureTenantId, azureClientId, or azureClientSecret")
  else
    try_catch
      (call (TokenPost (default "" tenantId));;
       let accessToken := accessToken env in
       if negb (otruthy accessToken)
       then throw (Error "Token response did not contain access_token")
       else mret (default "" accessToken))
      (fun err => throw (Error "Failed to acquire Graph token")).

Definition getServicePrincipalObjectId
    (token : string) (clientId : option string) : M string :=
  try_catch
    (call (GraphGetServicePrincipal clientId);;
     let resp := servicePrincipals env clientId in
     if negb (resp.1 =? 200)
     then throw (Error "Error fetching servicePrincipal")
     else match resp.2 with
          | Some (id :: _) => mret id
          | _ => throw (Error "ServicePrincipal for appId not found")
          end)
    (fun err => throw (Error "Error fetching servicePrincipal")).

(** The body of [while (url)] in [fetchAppRoleMemberIds]; the inner
    [for] is the fold. *)
Fixpoint fetchAppRoleMemberIds_loop (fuel : nat) (appRoleId url : string)
    (memberIds : gset string) : M (gset string) :=
  if negb (truthy url) then mret memberIds
  else match fuel with
  | O => diverge
  | S fuel =>
    call (GraphGet url);;
    let resp := listing env url in
    if negb (ListResponse.status resp =? 200)
    then throw (Error "Graph failed")
    else
      let memberIds :=
        foldl (fun (ids : gset string) assignment =>
                 if bool_decide (Assignment.appRoleId assignment = Some appRoleId)
                    && otruthy (Assignment.principalId assignment)
                 then {[ default "" (Assignment.principalId assignment) ]} ∪ ids
                 else ids)
              memberIds (default [] (ListResponse.value resp)) in
      fetchAppRoleMemberIds_loop fuel appRoleId
        (default "" (ListResponse.nextLink resp)) memberIds
  end.

Definition fetchAppRoleMemberIds (fuel : nat)
    (token servicePrincipalId appRoleId : string) : M (gset string) :=
  if negb (truthy servicePrincipalId)
  then throw (Error "servicePrincipalId is required")
  else if negb (truthy appRoleId)
  then throw (Error "appRoleId is required")
  else
    fetchAppRoleMemberIds_loop fuel appRoleId
      ("https://graph.microsoft.com/v1.0/servicePrincipals/"
         +:+ servicePrincipalId +:+ "/appRoleAssignedTo?$top=100") ∅.

(** What the directory does with an accepted POST on
    [appRoleAssignedTo]: the assignment exists from then on. *)
Definition add_assignment (principalId : string) (appRoleId : option string)
    (w : World) : World :=
  set_assignments
    (assignments w ++
       [Assignment.mk (Some (freshId env w)) (Some principalId) appRoleId]) w.

Definition assignAppRoleToPrincipal
    (token spObjectId principalId : string) (appRoleId : option string)
    : M unit :=
  call (GraphPostAssignment spObjectId principalId appRoleId);;
  modify (add_assignment principalId appRoleId).

(** What the directory does with an accepted DELETE of an assignment. *)
Definition drop_assignment (assignmentId : string) (w : World) : World :=
  set_assignments
    (filter (fun a => Assignment.id a ≠ Some assignmentId) (assignments w)) w.

Definition axios_delete (collection assignmentId : string) : M unit :=
  call (GraphDeleteAssignment collection assignmentId);;
  modify (drop_assignment assignmentId).

(** [for (const a of page)] in [removeAllAppRolesFromPrincipalOnSp]. *)
Fixpoint removeAllAppRolesFromPrincipalOnSp_page (base principalId : string)
    (page : list Assignment.t) (removed : N) : M N :=
  match page with
  | [] => mret removed
  | a :: page =>
    if negb (otruthy (Assignment.id a))
    then removeAllAppRolesFromPrincipalOnSp_page base principalId page removed
    else if negb (bool_decide (Assignment.principalId a = Some principalId))
    then removeAllAppRolesFromPrincipalOnSp_page base principalId page removed
    else
      let id := default "" (Assignment.id a) in
      try_catch (axios_delete base id)
        (fun err =>
           throw (Error ("Failed to delete appRoleAssignedTo " +:+ id)));;
      removeAllAppRolesFromPrincipalOnSp_page base principalId page (removed + 1)
  end.

(** [while (url)] in [removeAllAppRolesFromPrincipalOnSp]. *)
Fixpoint removeAllAppRolesFromPrincipalOnSp_loop (fuel : nat)
    (base principalId url : string) (removed : N) : M N :=
  if negb (truthy url) then mret removed
  else match fuel with
  | O => diverge
  | S fuel =>
    call (GraphGet url);;
    let resp := listing env url in
    if negb (ListResponse.status resp =? 200)
    then throw (Error "Failed to list appRoleAssignedTo")
    else
      removed ← removeAllAppRolesFromPrincipalOnSp_page base principalId
                  (default [] (ListResponse.value resp)) removed;
      removeAllAppRolesFromPrincipalOnSp_loop fuel base principalId
        (default "" (ListResponse.nextLink resp)) removed
  end.

Definition removeAllAppRolesFromPrincipalOnSp (fuel : nat)
    (token spObjectId principalId : string) : M N :=
  let base := "https://graph.microsoft.com/v1.0/servicePrincipals/"
                +:+ spObjectId +:+ "/appRoleAssignedTo" in
  removeAllAppRolesFromPrincipalOnSp_loop fuel base principalId
    (base +:+ "?$top=100") 0.

(** *** userRoleManagementService.ts *)

(** [for (const { id: assignmentId } of assignments)] in
    [removeAllAppRolesFromUser]; an [undefined] identifier is spliced
    into the URL as the text [undefined]. *)
Fixpoint removeAllAppRolesFromUser_each (collection : string)
    (assignments : list Assignment.t) : M unit :=
  match assignments with
  | [] => mret tt
  | a :: assignments =>
    let assignmentId := default "undefined" (Assignment.id a) in
    try_catch (axios_delete collection assignmentId)
      (fun err => throw err);;
    removeAllAppRolesFromUser_each collection assignments
  end.

Definition removeAllAppRolesFromUser
    (token servicePrincipalObjectId userObjectId : string) : M unit :=
  let baseUrl := "https://graph.microsoft.com/v1.0" in
  let collection := baseUrl +:+ "/users/" +:+ userObjectId
                      +:+ "/appRoleAssignments" in
  let listUrl := collection +:+ "?$filter=resourceId eq "
                   +:+ servicePrincipalObjectId in
  assignments ←
    try_catch
      (call (GraphGet listUrl);;
       mret (default [] (ListResponse.value (listing env listUrl))))
      (fun err => throw err);
  removeAllAppRolesFromUser_each collection assignments.

(** *** auditService.ts *)

Definition json_input (v : Nullable User.t) : JsonInput User.t :=
  match v with
  | Undefined => Omitted
  | Null => JsonNull
  | Val a => Json a
  end.

Definition logAudit (entry : AuditEntry.t) : M unit :=
  let data :=
    AuditLog.mk (AuditEntry.entity entry) (AuditEntry.entityId entry)
      (AuditEntry.action entry) (AuditEntry.changedById entry)
      (json_input (AuditEntry.dataBefore entry))
      (json_input (AuditEntry.dataAfter entry)) in
  call (DbAuditCreate data);;
  modify (fun w => set_auditLog (auditLog w ++ [data]) w).

(** *** userService.ts and presenceService.ts *)

(** Modelled from the spec: [getUserByEmail] of [userService.ts] is not
    among the sources.  It is [findByEmail(email) -> Principal | None] of
    the Local Role Store, the email being unique and case-insensitive. *)
Definition getUserByEmail (email : string) : M (option User.t) :=
  call (DbFindUser email);;
  w ← get_world;
  mret (users w !! toLowerCase email).

(** Modelled from the spec: [upsertUserRole] of [userService.ts] is not
    among the sources.  It is [upsertRole(email, directoryId, displayName,
    role) -> Principal]: creates if absent, else updates [role] and
    [roleChangedAt]. *)
Definition upsertUserRole (email azureAdObjectId fullName : string)
    (role : UserRole) : M User.t :=
  call (DbUpsertUser email azureAdObjectId fullName role);;
  w ← get_world;
  let key := toLowerCase email in
  let user :=
    match users w !! key with
    | Some u =>
      User.mk (User.id u) (User.azureAdObjectId u) (User.email u)
              (User.fullName u) role (now w)
    | None =>
      User.mk (freshId env w) azureAdObjectId key fullName role (now w)
    end in
  modify (set_users (<[key := user]> (users w)));;
  mret user.

(** Modelled from the spec: [deleteUserByEmail] of [userService.ts] is not
    among the sources.  It is [removePrincipal(email) -> void]:
    idempotent, removing an absent principal is not an error. *)
Definition deleteUserByEmail (email : string) : M unit :=
  call (DbDeleteUser email);;
  modify (fun w => set_users (delete (toLowerCase email) (users w)) w).

(** Modelled from the spec: [setUserOffline] of [presenceService.ts] is
    not among the sources.  It notifies presence tracking that the
    user's session is stale. *)
Definition setUserOffline (email : string) : M unit :=
  call (PresenceOffline email);;
  modify (fun w => set_offline (email :: offline w) w).

(** *** userSyncService.ts *)

Definition validateUserExists (userEmail : string) : M string :=
  try_catch
    (graphToken ← getGraphToken;
     try_catch
       (call (GraphGetUser userEmail);;
        mret (directoryUser env userEmail))
       (fun _ =>
          call (GraphSearchUser userEmail);;
          match directorySearch env userEmail with
          | Some (id :: _) => mret id
          | _ => throw (Error "User not found")
          end))
    (fun error =>
       throw (Error ("User " +:+ userEmail +:+ " not found in Azure AD"))).

Definition getUserDisplayName (userAdId graphToken : string) : M string :=
  try_catch
    (call (GraphGetDisplayName userAdId);;
     mret (default "" (displayNameOf env userAdId)))
    (fun _ => mret "").

(** *** changeUserRoleService.ts *)

(** [roleIdMap] of [updateAzureADWithRetry]: four keys, each with the
    value of an environment variable, which may be [undefined]. *)
Definition roleIdMap : gmap string (option string) :=
  <[roleName ContactManager := processEnv env !! "CONTACT_MANAGER_GROUP_ID"]>
  (<[roleName Employee := processEnv env !! "EMPLOYEES_GROUP_ID"]>
  (<[roleName Admin := processEnv env !! "ADMINS_GROUP_ID"]>
  (<[roleName Supervisor := processEnv env !! "SUPERVISORS_GROUP_ID"]> ∅))).

(** [for (let attempt = 1; attempt <= maxRetries; attempt++)], with the
    [return] that follows the loop; [fuel] counts the iterations left. *)
Fixpoint updateAzureADWithRetry_loop (fuel : nat)
    (graphToken spId targetAdId : string) (roleId : option string)
    (maxRetries attempt : nat) : M AzureADRetryStatus.t :=
  match fuel with
  | O => mret AzureADRetryStatus.MAX_RETRIES_EXCEEDED
  | S fuel =>
    if negb (attempt <=? maxRetries)%nat
    then mret AzureADRetryStatus.MAX_RETRIES_EXCEEDED
    else
      try_catch
        (assignAppRoleToPrincipal graphToken spId targetAdId roleId;;
         mret AzureADRetryStatus.SUCCESS)
        (fun error =>
           if (attempt =? maxRetries)%nat
           then mret AzureADRetryStatus.MAX_RETRIES_EXCEEDED
           else
             sleep (1000 * N.of_nat attempt);;
             updateAzureADWithRetry_loop fuel graphToken spId targetAdId
               roleId maxRetries (S attempt))
  end.

Definition updateAzureADWithRetry
    (graphToken spId targetAdId : string) (newRole : UserRole)
    (maxRetries : nat) : M AzureADRetryStatus.t :=
  let roleId := mjoin (roleIdMap !! roleName newRole) in
  updateAzureADWithRetry_loop maxRetries graphToken spId targetAdId roleId
    maxRetries 1.

Definition changeUserRole (fuel : nat)
    (request : ChangeUserRoleRequest.t) (currentUser : User.t)
    : M ChangeUserRoleResult.t :=
  let userEmail := ChangeUserRoleRequest.userEmail request in
  let newRole := ChangeUserRoleRequest.newRole request in
  (* 1. Validate business rules *)
  guard (ChangeUserRoleValidationRules.validateNotSelfChange
           currentUser userEmail);;
  guard (ChangeUserRoleValidationRules.validateSupervisorRoleAssignment
           (User.role currentUser) newRole);;
  (* 2. Get target user and validate *)
  targetUser ← getUserByEmail userEmail;
  match targetUser with
  | Some targetUser =>
    guard (ChangeUserRoleValidationRules.validateNotSuperAdminChange
             targetUser);;
    guard (ChangeUserRoleValidationRules.validateCallerPermissions
             (User.role currentUser) (User.role targetUser) newRole);;
    guard (ChangeUserRoleValidationRules.validateRoleChange
             (User.role targetUser) newRole)
  | None => mret tt
  end;;
  (* 3. Validate user exists in Azure AD *)
  targetAdId ← validateUserExists userEmail;
  (* 4. Get Azure AD token and service principal *)
  graphToken ← getGraphToken;
  let clientId := or_else (processEnv env !! "APP_CLIENT_ID")
                          (processEnv env !! "AZURE_CLIENT_ID") in
  spId ← getServicePrincipalObjectId graphToken clientId;
  (* 5. Remove existing app roles from Azure AD *)
  removeAllAppRolesFromPrincipalOnSp fuel graphToken spId targetAdId;;
  match newRole with
  | None =>
    (* 6. Handle user deletion *)
    match targetUser with
    | Some targetUser =>
      deleteUserByEmail userEmail;;
      logAudit (AuditEntry.mk USER (User.id targetUser) DELETE
                  (User.id currentUser) (Val targetUser) Undefined)
    | None => mret tt
    end;;
    mret (ChangeUserRoleResult.mk
            ChangeUserRoleMessages.USER_DELETED_SUCCESSFULLY SUCCESS
            userEmail (User.role <$> targetUser) None true false)
  | Some newRole =>
    (* 7. Update database first (source of truth) *)
    displayName ← getUserDisplayName targetAdId graphToken;
    updatedUser ← upsertUserRole userEmail targetAdId displayName newRole;
    (* 8. Update Azure AD with retry logic *)
    azureADResult ←
      updateAzureADWithRetry graphToken spId targetAdId newRole 2;
    match azureADResult with
    | AzureADRetryStatus.MAX_RETRIES_EXCEEDED =>
      (* 9. Handle rollback if Azure AD update failed *)
      match targetUser with
      | Some targetUser =>
        upsertUserRole userEmail targetAdId displayName
          (User.role targetUser);;
        mret tt
      | None => deleteUserByEmail userEmail
      end;;
      mret (ChangeUserRoleResult.mk
              ChangeUserRoleMessages.AZURE_AD_UPDATE_FAILED ROLLBACK_REQUIRED
              userEmail (User.role <$> targetUser) (Some newRole)
              false true)
    | _ =>
      (* 10. Log audit *)
      logAudit (AuditEntry.mk USER (User.id updatedUser) ROLE_CHANGE
                  (User.id currentUser) (of_nullable targetUser)
                  (Val updatedUser));;
      (* 11. Mark user offline (all users) *)
      setUserOffline userEmail;;
      mret (ChangeUserRoleResult.mk
              ChangeUserRoleMessages.ROLE_CHANGED_SUCCESSFULLY SUCCESS
              userEmail (User.role <$> targetUser) (Some newRole)
              true false)
    end
  end.

(** Steps 1 to 4 of [changeUserRole], as a computation of their own:
    the rules and the lookups that come before any change.  It returns
    [targetUser], [targetAdId], [graphToken] and [spId]. *)
Definition changeUserRole_lookups
    (request : ChangeUserRoleRequest.t) (currentUser : User.t)
    : M (option User.t * string * string * string) :=
  let userEmail := ChangeUserRoleRequest.userEmail request in
  let newRole := ChangeUserRoleRequest.newRole request in
  guard (ChangeUserRoleValidationRules.validateNotSelfChange
           currentUser userEmail);;
  guard (ChangeUserRoleValidationRules.validateSupervisorRoleAssignment
           (User.role currentUser) newRole);;
  targetUser ← getUserByEmail userEmail;
  match targetUser with
  | Some targetUser =>
    guard (ChangeUserRoleValidationRules.validateNotSuperAdminChange
             targetUser);;
    guard (ChangeUserRoleValidationRules.validateCallerPermissions
             (User.role currentUser) (User.role targetUser) newRole);;
    guard (ChangeUserRoleValidationRules.validateRoleChange
             (User.role targetUser) newRole)
  | None => mret tt
  end;;
  targetAdId ← validateUserExists userEmail;
  graphToken ← getGraphToken;
  let clientId := or_else (processEnv env !! "APP_CLIENT_ID")
                          (processEnv env !! "AZURE_CLIENT_ID") in
  spId ← getServicePrincipalObjectId graphToken clientId;
  mret (targetUser, targetAdId, graphToken, spId).

(** Steps 6 to 11 of [changeUserRole], as a computation of their own:
    what follows the clearing of the directory's assignments. *)
Definition changeUserRole_changes
    (request : ChangeUserRoleRequest.t) (currentUser : User.t)
    (targetUser : option User.t) (targetAdId graphToken spId : string)
    : M ChangeUserRoleResult.t :=
  let userEmail := ChangeUserRoleRequest.userEmail request in
  let newRole := ChangeUserRoleRequest.newRole request in
  match newRole with
  | None =>
    match targetUser with
    | Some targetUser =>
      deleteUserByEmail userEmail;;
      logAudit (AuditEntry.mk USER (User.id targetUser) DELETE
                  (User.id currentUser) (Val targetUser) Undefined)
    | None => mret tt
    end;;
    mret (ChangeUserRoleResult.mk
            ChangeUserRoleMessages.USER_DELETED_SUCCESSFULLY SUCCESS
            userEmail (User.role <$> targetUser) None true false)
  | Some newRole =>
    displayName ← getUserDisplayName targetAdId graphToken;
    updatedUser ← upsertUserRole userEmail targetAdId displayName newRole;
    azureADResult ←
      updateAzureADWithRetry graphToken spId targetAdId newRole 2;
    match azureADResult with
    | AzureADRetryStatus.MAX_RETRIES_EXCEEDED =>
      match targetUser with
      | Some targetUser =>
        upsertUserRole userEmail targetAdId displayName
          (User.role targetUser);;
        mret tt
      | None => deleteUserByEmail userEmail
      end;;
      mret (ChangeUserRoleResult.mk
              ChangeUserRoleMessages.AZURE_AD_UPDATE_FAILED ROLLBACK_REQUIRED
              userEmail (User.role <$> targetUser) (Some newRole)
              false true)
    | _ =>
      logAudit (AuditEntry.mk USER (User.id updatedUser) ROLE_CHANGE
                  (User.id currentUser) (of_nullable targetUser)
                  (Val updatedUser));;
      setUserOffline userEmail;;
      mret (ChangeUserRoleResult.mk
              ChangeUserRoleMessages.ROLE_CHANGED_SUCCESSFULLY SUCCESS
              userEmail (User.role <$> targetUser) (Some newRole)
              true false)
    end
  end.

End Engine.

(** ** Further services and rules *)

Module GraphUser.
(** [interface GraphUser]. *)
Record t : Set := mk {
  id : string;
  displayName : option string;
  mail : option string;
  userPrincipalName : option string;
  accountEnabled : option bool
}.
End GraphUser.

Module UsersResponse.
(** The answer to the GET of a page of [/users]: [resp.status],
    [resp.data.value] when it is an array, and
    [resp.data["@odata.nextLink"]]. *)
Record t : Set := mk {
  status : N;
  value : option (list GraphUser.t);
  nextLink : option string
}.
End UsersResponse.

Module AppRoleConfig.
(** The fields of [config] that [assignAzureADRole] reads. *)
Record t : Set := mk {
  servicePrincipalObjectId : option string;
  contactManagerAppRoleId : option string;
  superAdminAppRoleId : option string
}.
End AppRoleConfig.

Module ContactManagerFormValidationRules.

(** [if (imageBase64 && imageBase64.length === 0) throw ...] *)
Definition validateImageData (imageBase64 : option string) : option Exn :=
  if otruthy imageBase64
     && (String.length (default "" imageBase64) =? 0)%nat
  then Some (ExpectedError "Invalid image data provided" 400)
  else None.

End ContactManagerFormValidationRules.

Section Services.

Variable env : Env.

(** *** userRoleManagementService.ts, continued *)

Definition getUserAzureAdId (email token : string) : M string :=
  try_catch
    (call env (GraphGetUser email);;
     mret (directoryUser env email))
    (fun _ =>
       call env (GraphSearchUser email);;
       match directorySearch env email with
       | Some (id :: _) => mret id
       | _ => throw (Error ("User " +:+ email +:+ " not found"))
       end).

Definition assignRoleToUser (token spId userAdId roleId : string) : M unit :=
  call env (GraphPostAssignment spId userAdId (Some roleId));;
  modify (add_assignment env userAdId (Some roleId)).

(** [for (const email of userEmails)] in [bulkAssignRole]. *)
Fixpoint bulkAssignRole_each (token spId roleId : string)
    (userEmails : list string) (successCount : N) : M N :=
  match userEmails with
  | [] => mret successCount
  | email :: userEmails =>
    successCount ←
      try_catch
        (userAdId ← getUserAzureAdId email token;
         assignRoleToUser token spId userAdId roleId;;
         mret (successCount + 1))
        (fun error => mret successCount);
    bulkAssignRole_each token spId roleId userEmails successCount
  end.

Definition bulkAssignRole (userEmails : list string) (roleId : string) : M N :=
  token ← getGraphToken env;
  let clientId := or_else (processEnv env !! "APP_CLIENT_ID")
                          (processEnv env !! "AZURE_CLIENT_ID") in
  spId ← getServicePrincipalObjectId env token clientId;
  bulkAssignRole_each token spId roleId userEmails 0.

(** *** userManagementRepo.ts *)

Variable config : AppRoleConfig.t.

(** [roleIdMap] of [assignAzureADRole]: two keys. *)
Definition appRoleIdMap : gmap string (option string) :=
  <[roleName SuperAdmin := AppRoleConfig.superAdminAppRoleId config]>
  (<[roleName ContactManager := AppRoleConfig.contactManagerAppRoleId config]>
   ∅).

(** [config.servicePrincipalObjectId!] as it is spliced into a URL: the
    text [undefined] when it is not set. *)
Definition assignAzureADRole (fuel : nat) (user : User.t) (role : UserRole)
    : M unit :=
  token ← getGraphToken env;
  let spId :=
    default "undefined" (AppRoleConfig.servicePrincipalObjectId config) in
  let roleId := mjoin (appRoleIdMap !! roleName role) in
  if negb (otruthy roleId)
  then throw (Error ("No app role ID configured for role: " +:+ roleName role))
  else
    removeAllAppRolesFromPrincipalOnSp env fuel token spId
      (User.azureAdObjectId user);;
    assignAppRoleToPrincipal env token spId (User.azureAdObjectId user) roleId.

(** *** userSyncService.ts, continued *)

Variable usersListing : string → UsersResponse.t.

(** [while (url)] in [fetchAllUsers]. *)
Fixpoint fetchAllUsers_loop (fuel : nat) (url : string)
    (users : list GraphUser.t) : M (list GraphUser.t) :=
  if negb (truthy url) then mret users
  else match fuel with
  | O => diverge
  | S fuel =>
    step ←
      try_catch
        (call env (GraphGet url);;
         let resp := usersListing url in
         if negb (UsersResponse.status resp =? 200)
         then throw (Error "Graph /users returned status")
         else mret ((users ++ default [] (UsersResponse.value resp))%list,
                    default "" (UsersResponse.nextLink resp)))
        (fun err => throw (Error "Error fetching users"));
    fetchAllUsers_loop fuel step.2 step.1
  end.

Definition fetchAllUsers (fuel : nat) (token : string) : M (list GraphUser.t) :=
  fetchAllUsers_loop fuel
    ("https://graph.microsoft.com/v1.0/users?$select="
       +:+ "id,displayName,mail,userPrincipalName,accountEnabled&$top=100")
    [].

End Services.

(** ** What the local store is given *)

(** The row [upsertUserRole] writes. *)
Definition upserted env (email adId fullName : string) (role : UserRole)
    (w : World) : User.t :=
  match users w !! toLowerCase email with
  | Some u =>
    User.mk (User.id u) (User.azureAdObjectId u) (User.email u)
            (User.fullName u) role (now w)
  | None =>
    User.mk (freshId env (record_call (DbUpsertUser email adId fullName role) w))
            adId (toLowerCase email) fullName role (now w)
  end.

(** The row [logAudit] creates for an entry. *)
Definition audit_row (entry : AuditEntry.t) : AuditLog.t :=
  AuditLog.mk (AuditEntry.entity entry) (AuditEntry.entityId entry)
    (AuditEntry.action entry) (AuditEntry.changedById entry)
    (json_input (AuditEntry.dataBefore entry))
    (json_input (AuditEntry.dataAfter entry)).

(** ** Properties of runs *)

(** Every run of [m] relates the world before to the world after,
    whatever the run returns or throws. *)
Definition preserves {A} (P : relation World) (m : M A) : Prop :=
  ∀ w r w', m w = (r, w') → P w w'.

(** Every run of [m] returns or throws: the fuel is enough. *)
Definition terminates {A} (m : M A) : Prop :=
  ∀ w, (m w).1 ≠ Diverge.

(** The local database and the presence marks are untouched. *)
Definition same_local : relation World := fun w w' =>
  users w' = users w ∧ auditLog w' = auditLog w ∧ offline w' = offline w.

(** The directory's assignments are untouched. *)
Definition same_directory : relation World := fun w w' =>
  assignments w' = assignments w.

(** The calls made since [w] all satisfy [ok]. *)
Definition calls_since (ok : Call → bool) : relation World := fun w w' =>
  ∃ l : list Call,
    history w' = (history w ++ l)%list ∧ Forall (fun c => ok c = true) l.

(** The directory gained no assignment: it has what it had, or part of
    it, in the same order. *)
Definition only_lost : relation World := fun w w' =>
  assignments w' `sublist_of` assignments w.

(** Every assignment the directory gained has [undefined] as its
    [appRoleId]. *)
Definition gained_without_role : relation World := fun w w' =>
  ∀ a, a ∈ assignments w' →
       a ∈ assignments w ∨ Assignment.appRoleId a = None.

(** A POST of an assignment carries no [appRoleId]; any other call
    qualifies. *)
Definition post_without_role (c : Call) : bool :=
  match c with
  | GraphPostAssignment _ _ appRoleId => bool_decide (appRoleId = None)
  | _ => true
  end.

(** Comparing emails without regard to case, as the data model has it. *)
Definition same_email (a b : string) : Prop := toLowerCase a = toLowerCase b.


(** The pages of a listing, as linked by [@odata.nextLink] from [url]. *)
Inductive pages_from (env : Env) : string → list ListResponse.t → Prop :=
  | pages_end : pages_from env "" []
  | pages_next url rest :
      truthy url = true →
      pages_from env (default "" (ListResponse.nextLink (listing env url))) rest →
      pages_from env url (listing env url :: rest).

(** The assignments a listing shows, over all its pages. *)
Definition listed (pages : list ListResponse.t) : list Assignment.t :=
  concat (map (fun p => default [] (ListResponse.value p)) pages).

(** The assignments of [principalId] among those listed, which are the
    ones [removeAllAppRolesFromPrincipalOnSp] deletes. *)
Definition to_clear (principalId : string) (l : list Assignment.t)
    : list Assignment.t :=
  filter (fun a => otruthy (Assignment.id a) = true
                   ∧ Assignment.principalId a = Some principalId) l.

(** The directory's assignments once those of [gone] are deleted, by
    identifier. *)
Definition without (gone : list Assignment.t) (l : list Assignment.t)
    : list Assignment.t :=
  foldl (fun l a => filter (fun b => Assignment.id b ≠ Assignment.id a) l)
        l gone.

(** A GET of a listing or a DELETE of an assignment. *)
Definition is_list_or_delete (c : Call) : bool :=
  match c with
  | GraphGet _ | GraphDeleteAssignment _ _ => true
  | _ => false
  end.

(** Every error that [m] throws satisfies [P]. *)
Definition throws_only {A} (P : Exn → Prop) (m : M A) : Prop :=
  ∀ w e w', m w = (Throw e, w') → P e.

(** A plain [Error], as opposed to an [ExpectedError] of the rules. *)
Definition is_plain_error (e : Exn) : Prop :=
  match e with Error _ => True | ExpectedError _ _ => False end.

(** The denials of [changeUserRole]: the [ExpectedError]s its rules
    throw. *)
Definition denials : list Exn :=
  [ExpectedError ChangeUserRoleMessages.CANNOT_CHANGE_OWN_ROLE 400;
   ExpectedError ChangeUserRoleMessages.SUPERVISOR_LIMITED_ACCESS 403;
   ExpectedError ChangeUserRoleMessages.CANNOT_CHANGE_SUPERADMIN 400;
   ExpectedError ChangeUserRoleMessages.INSUFFICIENT_PERMISSIONS 403;
   ExpectedError "User already has this role" 400].

(** The first page [removeAllAppRolesFromPrincipalOnSp] asks for. *)
Definition appRoleAssignedTo_url (spObjectId : string) : string :=
  ("https://graph.microsoft.com/v1.0/servicePrincipals/"
     +:+ spObjectId +:+ "/appRoleAssignedTo") +:+ "?$top=100".

(** The pages show every assignment that [principalId] has in the
    directory of [w], each with an identifier. *)
Definition shows_all_of (principalId : string) (pages : list ListResponse.t)
    (w : World) : Prop :=
  ∀ a, a ∈ assignments w →
    Assignment.principalId a = Some principalId →
    otruthy (Assignment.id a) = true ∧ a ∈ listed pages.

(** An identifier that the pages show is, in the directory of [w], the
    identifier of assignments of the same principal only. *)
Definition identifiers_agree (pages : list ListResponse.t) (w : World)
    : Prop :=
  ∀ a b, a ∈ listed pages → b ∈ assignments w →
    Assignment.id a = Assignment.id b →
    Assignment.principalId b = Assignment.principalId a.

(** The assignments of a principal. *)
Definition assignments_of (principalId : string) (l : list Assignment.t)
    : list Assignment.t :=
  filter (fun a => Assignment.principalId a = Some principalId) l.

(** The assignments of the other principals. *)
Definition assignments_of_others (principalId : string)
    (l : list Assignment.t) : list Assignment.t :=
  filter (fun a => Assignment.principalId a ≠ Some principalId) l.

(** The directory account that [validateUserExists] and
    [getUserAzureAdId] resolve an email to: the one the direct lookup
    gives, or the first that the search by [mail] gives. *)
Definition resolves_to (env : Env) (email adId : string) : Prop :=
  adId = directoryUser env email
  ∨ ∃ rest, directorySearch env email = Some (adId :: rest).

(** [config] has the tenant, the client identifier and the secret. *)
Definition configured (env : Env) : bool :=
  otruthy (azureTenantId env) && otruthy (azureClientId env)
  && otruthy (azureClientSecret env).

(** The rows of the local table other than the one of [email] are
    untouched. *)
Definition same_other_rows (email : string) : relation World := fun w w' =>
  ∀ k, k ≠ toLowerCase email → users w' !! k = users w !! k.

(** The assignment that an accepted POST for [principalId] and
    [appRoleId] creates, whatever identifier the directory gives it. *)
Definition created (principalId : string) (appRoleId : option string)
    (l : list Assignment.t) : Prop :=
  ∃ id, l = [Assignment.mk (Some id) (Some principalId) appRoleId].


(** The errors of the two lookups that [changeUserRole] and
    [bulkAssignRole] make before anything else in the directory. *)
Definition lookup_errors : list Exn :=
  [Error
     "Missing Azure AD config: azureTenantId, azureClientId, or azureClientSecret";
   Error "Failed to acquire Graph token";
   Error "Error fetching servicePrincipal"].

(** An assignment of the application role [roleId] to the account of one
    of the [emails]. *)
Definition assigned_to_one_of (env : Env) (emails : list string)
    (roleId : string) (a : Assignment.t) : Prop :=
  Assignment.appRoleId a = Some roleId
  ∧ ∃ email adId, email ∈ emails ∧ resolves_to env email adId
                  ∧ Assignment.principalId a = Some adId.


(** The pages of the listing of [/users], as linked by
    [@odata.nextLink] from [url]. *)
Inductive user_pages_from (usersListing : string → UsersResponse.t)
    : string → list UsersResponse.t → Prop :=
  | user_pages_end : user_pages_from usersListing "" []
  | user_pages_next url rest :
      truthy url = true →
      user_pages_from usersListing
        (default "" (UsersResponse.nextLink (usersListing url))) rest →
      user_pages_from usersListing url (usersListing url :: rest).

(** The principal of an assignment of the application role
    [appRoleId] that the pages show. *)
Definition member_shown (appRoleId : string) (pages : list ListResponse.t)
    (principalId : string) : Prop :=
  truthy principalId = true
  ∧ ∃ a, a ∈ listed pages
         ∧ Assignment.appRoleId a = Some appRoleId
         ∧ Assignment.principalId a = Some principalId.

(** The errors of [fetchAppRoleMemberIds]. *)
Definition member_errors : list Exn :=
  [Error "servicePrincipalId is required"; Error "appRoleId is required";
   Error "Graph failed"; rejected].


(** ** Scenarios *)

Module Scenario.

Definition vars : gmap string string :=
  list_to_map
    [("APP_CLIENT_ID", "app-1");
     ("SUPERVISORS_GROUP_ID", "role-supervisor");
     ("ADMINS_GROUP_ID", "role-admin");
     ("EMPLOYEES_GROUP_ID", "role-employee");
     ("CONTACT_MANAGER_GROUP_ID", "role-contact-manager")].

Definition root := User.mk "u0" "ad-root" "root@x.com" "Root" SuperAdmin 0.
Definition alice := User.mk "u1" "ad-alice" "b@x.com" "Alice" Admin 0.
Definition sam := User.mk "u2" "ad-sam" "s@x.com" "Sam" Supervisor 0.
Definition dana := User.mk "u3" "ad-dana" "d@x.com" "Dana" Employee 0.

Definition grant (id principalId appRoleId : string) : Assignment.t :=
  Assignment.mk (Some id) (Some principalId) (Some appRoleId).

Definition granted : list Assignment.t :=
  [grant "a0" "ad-root" "role-super-admin";
   grant "a1" "ad-dana" "role-employee";
   grant "a2" "ad-dana" "role-contact-manager";
   grant "a3" "ad-alice" "role-admin"].

Definition w0 : World :=
  mkWorld
    (<["root@x.com" := root]> (<["b@x.com" := alice]>
      (<["s@x.com" := sam]> (<["d@x.com" := dana]> ∅))))
    [] granted [] [] 0.

(** The directory account of an email. *)
Definition account (email : string) : string :=
  if String.eqb (toLowerCase email) "root@x.com" then "ad-root"
  else if String.eqb (toLowerCase email) "b@x.com" then "ad-alice"
  else if String.eqb (toLowerCase email) "s@x.com" then "ad-sam"
  else if String.eqb (toLowerCase email) "d@x.com" then "ad-dana"
  else "ad-new".

(** A listing served in one page. *)
Definition one_page (l : list Assignment.t) (url : string) : ListResponse.t :=
  ListResponse.mk 200 (Some l) None.

(** A listing served in two pages, the first linking to the second. *)
Definition two_pages (first second : list Assignment.t) (url : string)
    : ListResponse.t :=
  if String.eqb url "next"
  then ListResponse.mk 200 (Some second) None
  else ListResponse.mk 200 (Some first) (Some "next").

Definition env_with (fails : list Call → Call → bool)
    (listing : string → ListResponse.t) : Env :=
  mkEnv vars (Some "tenant") (Some "client") (Some "secret") fails
    (Some "token") (fun _ => (200, Some ["sp-1"])) account (fun _ => None)
    (fun _ => Some "Name") listing
    (fun w => "new-" +:+ pretty (length (history w))).

Definition never : list Call → Call → bool := fun _ _ => false.

(** Only the calls that satisfy [p] are rejected. *)
Definition rejecting (p : Call → bool) : list Call → Call → bool :=
  fun _ c => p c.

Definition is_audit_create (c : Call) : bool :=
  match c with DbAuditCreate _ => true | _ => false end.

Definition is_delete_of (id : string) (c : Call) : bool :=
  match c with
  | GraphDeleteAssignment _ i => String.eqb i id
  | _ => false
  end.

Definition request (email : string) (newRole : option UserRole) :=
  ChangeUserRoleRequest.mk email newRole.

(** The directory rejects every POST of an assignment. *)
Definition env_posts_rejected : Env :=
  env_with (rejecting is_assignment_post) (one_page granted).

(** Nothing is rejected. *)
Definition env_fine : Env := env_with never (one_page granted).

(** The audit table rejects every row. *)
Definition env_audit_rejected : Env :=
  env_with (rejecting is_audit_create) (one_page granted).

(** The directory rejects the DELETE of the assignment [a2]. *)
Definition env_delete_rejected : Env :=
  env_with (rejecting (is_delete_of "a2")) (one_page granted).

(** The listings are served in two pages: the first shows the
    assignment [a1] and links to the second, which shows [a2]. *)
Definition env_two_pages : Env :=
  env_with never
    (two_pages [grant "a1" "ad-dana" "role-employee"]
               [grant "a2" "ad-dana" "role-contact-manager"]).

(** The listing [removeAllAppRolesFromUser] asks for. *)
Definition dana_assignments_url : string :=
  "https://graph.microsoft.com/v1.0/users/ad-dana/appRoleAssignments"
    +:+ "?$filter=resourceId eq sp-1".

(** An Employee, and the same user with the role SuperAdmin. *)
Definition eve := User.mk "u4" "ad-eve" "e@x.com" "Eve" Employee 0.
Definition eve_as_superadmin :=
  User.mk "u4" "ad-eve" "e@x.com" "Eve" SuperAdmin 0.


(** The configuration lacks the tenant. *)
Definition env_unconfigured : Env :=
  mkEnv vars None (Some "client") (Some "secret") never
    (Some "token") (fun _ => (200, Some ["sp-1"])) account (fun _ => None)
    (fun _ => Some "Name") (one_page granted) (fun _ => "new").

(** The application roles of [config]. *)
Definition app_roles : AppRoleConfig.t :=
  AppRoleConfig.mk (Some "sp-1") (Some "role-contact-manager")
    (Some "role-super-admin").






End Scenario.

(** ** Running the monad *)

Lemma bind_ok {A B} (m : M A) (k : A → M B) w a w1 :
  m w = (Ok a, w1) → (m ≫= k) w = k a w1.
Proof. intros H. unfold mbind, M_bind. by rewrite H. Qed.

Lemma bind_throw {A B} (m : M A) (k : A → M B) w e w1 :
  m w = (Throw e, w1) → (m ≫= k) w = (Throw e, w1).
Proof. intros H. unfold mbind, M_bind. by rewrite H. Qed.

Lemma bind_diverge {A B} (m : M A) (k : A → M B) w w1 :
  m w = (Diverge, w1) → (m ≫= k) w = (Diverge, w1).
Proof. intros H. unfold mbind, M_bind. by rewrite H. Qed.

Lemma bind_inv_ok {A B} (m : M A) (k : A → M B) w b w' :
  (m ≫= k) w = (Ok b, w') →
  ∃ a w1, m w = (Ok a, w1) ∧ k a w1 = (Ok b, w').
Proof.
  unfold mbind, M_bind. destruct (m w) as [[a|e|] w1]; intros H;
    [eauto | discriminate | discriminate].
Qed.

Lemma try_catch_ok {A} (m : M A) h w a w1 :
  m w = (Ok a, w1) → try_catch m h w = (Ok a, w1).
Proof. intros H. unfold try_catch. by rewrite H. Qed.

Lemma try_catch_throw {A} (m : M A) h w e w1 :
  m w = (Throw e, w1) → try_catch m h w = h e w1.
Proof. intros H. unfold try_catch. by rewrite H. Qed.

Lemma guard_inv_ok c w w' : guard c w = (Ok tt, w') → c = None ∧ w' = w.
Proof. destruct c; cbv; intros H; by simplify_eq. Qed.


Lemma call_accepted env c w :
  fails env (history w) c = false → call env c w = (Ok tt, record_call c w).
Proof. intros H. unfold call. by rewrite H. Qed.

Lemma call_rejected env c w :
  fails env (history w) c = true →
  call env c w = (Throw rejected, record_call c w).
Proof. intros H. unfold call. by rewrite H. Qed.

(** ** Relations that every run of a computation keeps *)

Section Preserves.

Context (P : relation World) `{!PreOrder P}.

Lemma preserves_ret {A} (a : A) : preserves P (mret a).
Proof. intros w r w' H. cbv in H. by simplify_eq. Qed.

Lemma preserves_throw {A} e : preserves P (@throw A e).
Proof. intros w r w' H. cbv in H. by simplify_eq. Qed.

Lemma preserves_diverge {A} : preserves P (@diverge A).
Proof. intros w r w' H. cbv in H. by simplify_eq. Qed.

Lemma preserves_get_world : preserves P get_world.
Proof. intros w r w' H. cbv in H. by simplify_eq. Qed.

Lemma preserves_guard c : preserves P (guard c).
Proof. destruct c; [apply preserves_throw | apply preserves_ret]. Qed.

Lemma preserves_bind {A B} (m : M A) (k : A → M B) :
  preserves P m → (∀ a, preserves P (k a)) → preserves P (m ≫= k).
Proof.
  intros Hm Hk w r w'. unfold mbind, M_bind.
  destruct (m w) as [[a|e|] w1] eqn:E; intros H; apply Hm in E.
  - etrans; [exact E | by eapply Hk].
  - by simplify_eq.
  - by simplify_eq.
Qed.

Lemma preserves_try_catch {A} (m : M A) h :
  preserves P m → (∀ e, preserves P (h e)) → preserves P (try_catch m h).
Proof.
  intros Hm Hh w r w'. unfold try_catch.
  destruct (m w) as [[a|e|] w1] eqn:E; intros H; apply Hm in E.
  - by simplify_eq.
  - etrans; [exact E | by eapply Hh].
  - by simplify_eq.
Qed.

Lemma preserves_modify f : (∀ w, P w (f w)) → preserves P (modify f).
Proof. intros Hf w r w' H. cbv [modify] in H. simplify_eq. apply Hf. Qed.

Lemma preserves_call env c :
  (∀ w, P w (record_call c w)) → preserves P (call env c).
Proof.
  intros Hc w r w'. unfold call. destruct (fails _ _ _); intros H;
    simplify_eq; apply Hc.
Qed.

Lemma preserves_sleep ms :
  (∀ w, P w (set_now (now w + ms) (record_call (Sleep ms) w))) →
  preserves P (sleep ms).
Proof. intros Hs w r w' H. cbv [sleep] in H. simplify_eq. apply Hs. Qed.

End Preserves.

#[global] Instance same_local_preorder : PreOrder same_local.
Proof.
  split.
  - by intros w.
  - intros w1 w2 w3 (?&?&?) (?&?&?). unfold same_local. by repeat split; etrans.
Qed.

#[global] Instance same_directory_preorder : PreOrder same_directory.
Proof.
  split; [by intros w|]. intros w1 w2 w3. unfold same_directory. congruence.
Qed.

#[global] Instance calls_since_preorder ok : PreOrder (calls_since ok).
Proof.
  split.
  - intros w. exists []. by rewrite app_nil_r.
  - intros w1 w2 w3 (l1 & E1 & F1) (l2 & E2 & F2). exists (l1 ++ l2)%list.
    split; [by rewrite E2, E1, app_assoc | by apply Forall_app].
Qed.

#[global] Instance gained_without_role_preorder : PreOrder gained_without_role.
Proof.
  split; [by left|]. intros w1 w2 w3 H12 H23 a Ha.
  destruct (H23 a Ha) as [Hin|?]; [by apply H12 | by right].
Qed.

#[global] Instance only_lost_preorder : PreOrder only_lost.
Proof.
  split; [intros w; by unfold only_lost|].
  intros w1 w2 w3 H12 H23. unfold only_lost in *. by etrans.
Qed.

(** Applies the rule of the construct at the head of the computation. *)
Ltac preserves_step :=
  lazymatch goal with
  | |- preserves ?P (mret _) => apply (preserves_ret P)
  | |- preserves ?P (throw _) => apply (preserves_throw P)
  | |- preserves ?P diverge => apply (preserves_diverge P)
  | |- preserves ?P get_world => apply (preserves_get_world P)
  | |- preserves ?P (guard _) => apply (preserves_guard P)
  | |- preserves ?P (_ ≫= _) => apply (preserves_bind P); [|intros ?]
  | |- preserves ?P (try_catch _ _) =>
      apply (preserves_try_catch P); [|intros ?]
  | |- preserves ?P (modify _) => apply (preserves_modify P); intros ?
  | |- preserves ?P (call _ _) => apply (preserves_call P); intros ?
  | |- preserves ?P (sleep _) => apply (preserves_sleep P); intros ?
  | |- preserves _ (if ?b then _ else _) => destruct b
  | |- preserves _ (match ?x with _ => _ end) => destruct x
  | |- preserves _ (let _ := _ in _) => cbv zeta
  end.

(** ** The retry loop *)


Lemma assignAppRoleToPrincipal_accepted env token sp p r w :
  fails env (history w) (GraphPostAssignment sp p r) = false →
  assignAppRoleToPrincipal env token sp p r w
  = (Ok tt, add_assignment env p r (record_call (GraphPostAssignment sp p r) w)).
Proof.
  intros H. unfold assignAppRoleToPrincipal.
  erewrite bind_ok by (by apply call_accepted). reflexivity.
Qed.

Lemma assignAppRoleToPrincipal_rejected env token sp p r w :
  fails env (history w) (GraphPostAssignment sp p r) = true →
  assignAppRoleToPrincipal env token sp p r w
  = (Throw rejected, record_call (GraphPostAssignment sp p r) w).
Proof.
  intros H. unfold assignAppRoleToPrincipal.
  erewrite bind_throw by (by apply call_rejected). reflexivity.
Qed.



(** ** What each function leaves untouched *)

Create HintDb preserves discriminated.

(** Decomposes the computation, using the lemmas of [preserves] for the
    functions it calls. *)
Ltac preserves_auto :=
  repeat first [ preserves_step | solve [auto with preserves] ].

(** *** The local database *)

Lemma getGraphToken_local env : preserves same_local (getGraphToken env).
Proof. unfold getGraphToken. preserves_auto; done. Qed.

Lemma getServicePrincipalObjectId_local env token clientId :
  preserves same_local (getServicePrincipalObjectId env token clientId).
Proof. unfold getServicePrincipalObjectId. preserves_auto; done. Qed.

#[global] Hint Resolve getGraphToken_local getServicePrincipalObjectId_local
  : preserves.

Lemma validateUserExists_local env userEmail :
  preserves same_local (validateUserExists env userEmail).
Proof. unfold validateUserExists. preserves_auto; done. Qed.

Lemma getUserDisplayName_local env adId token :
  preserves same_local (getUserDisplayName env adId token).
Proof. unfold getUserDisplayName. preserves_auto; done. Qed.

Lemma getUserByEmail_local env email :
  preserves same_local (getUserByEmail env email).
Proof. unfold getUserByEmail. preserves_auto; done. Qed.

Lemma axios_delete_local env collection id :
  preserves same_local (axios_delete env collection id).
Proof. unfold axios_delete. preserves_auto; done. Qed.

Lemma assignAppRoleToPrincipal_local env token sp p r :
  preserves same_local (assignAppRoleToPrincipal env token sp p r).
Proof. unfold assignAppRoleToPrincipal. preserves_auto; done. Qed.

#[global] Hint Resolve validateUserExists_local getUserDisplayName_local
  getUserByEmail_local axios_delete_local assignAppRoleToPrincipal_local
  : preserves.

Lemma removeAllAppRolesFromPrincipalOnSp_page_local env base p page :
  ∀ removed,
    preserves same_local
      (removeAllAppRolesFromPrincipalOnSp_page env base p page removed).
Proof.
  induction page as [|a page IH]; intros removed;
    cbn [removeAllAppRolesFromPrincipalOnSp_page]; preserves_auto; done.
Qed.

#[global] Hint Resolve removeAllAppRolesFromPrincipalOnSp_page_local
  : preserves.

Lemma removeAllAppRolesFromPrincipalOnSp_loop_local env base p fuel :
  ∀ url removed,
    preserves same_local
      (removeAllAppRolesFromPrincipalOnSp_loop env fuel base p url removed).
Proof.
  induction fuel as [|fuel IH]; intros url removed;
    cbn [removeAllAppRolesFromPrincipalOnSp_loop]; preserves_auto; done.
Qed.

Lemma removeAllAppRolesFromPrincipalOnSp_local env fuel token sp p :
  preserves same_local (removeAllAppRolesFromPrincipalOnSp env fuel token sp p).
Proof.
  unfold removeAllAppRolesFromPrincipalOnSp.
  apply removeAllAppRolesFromPrincipalOnSp_loop_local.
Qed.

Lemma updateAzureADWithRetry_local env token sp p newRole maxRetries :
  preserves same_local (updateAzureADWithRetry env token sp p newRole maxRetries).
Proof.
  unfold updateAzureADWithRetry.
  generalize 1%nat as attempt. generalize maxRetries at 1 as fuel.
  induction fuel as [|fuel IH]; intros attempt;
    cbn [updateAzureADWithRetry_loop]; preserves_auto; done.
Qed.

#[global] Hint Resolve removeAllAppRolesFromPrincipalOnSp_local
  updateAzureADWithRetry_local : preserves.

(** *** The directory *)

Lemma getGraphToken_directory env : preserves same_directory (getGraphToken env).
Proof. unfold getGraphToken. preserves_auto; done. Qed.

Lemma getServicePrincipalObjectId_directory env token clientId :
  preserves same_directory (getServicePrincipalObjectId env token clientId).
Proof. unfold getServicePrincipalObjectId. preserves_auto; done. Qed.

#[global] Hint Resolve getGraphToken_directory
  getServicePrincipalObjectId_directory : preserves.

Lemma validateUserExists_directory env userEmail :
  preserves same_directory (validateUserExists env userEmail).
Proof. unfold validateUserExists. preserves_auto; done. Qed.

Lemma getUserByEmail_directory env email :
  preserves same_directory (getUserByEmail env email).
Proof. unfold getUserByEmail. preserves_auto; done. Qed.

#[global] Hint Resolve validateUserExists_directory getUserByEmail_directory
  : preserves.

Lemma changeUserRole_lookups_directory env request currentUser :
  preserves same_directory (changeUserRole_lookups env request currentUser).
Proof. unfold changeUserRole_lookups. preserves_auto; done. Qed.

Lemma changeUserRole_lookups_local env request currentUser :
  preserves same_local (changeUserRole_lookups env request currentUser).
Proof. unfold changeUserRole_lookups. preserves_auto; done. Qed.

(** Clearing the directory's assignments of a principal adds none. *)
Lemma axios_delete_only_lost env collection id :
  preserves only_lost (axios_delete env collection id).
Proof.
  unfold axios_delete. preserves_auto; unfold only_lost; cbn; [done|].
  apply sublist_filter.
Qed.

#[global] Hint Resolve axios_delete_only_lost : preserves.

Lemma removeAllAppRolesFromPrincipalOnSp_page_only_lost env base p page :
  ∀ removed,
    preserves only_lost
      (removeAllAppRolesFromPrincipalOnSp_page env base p page removed).
Proof.
  induction page as [|a page IH]; intros removed;
    cbn [removeAllAppRolesFromPrincipalOnSp_page]; preserves_auto; done.
Qed.

#[global] Hint Resolve removeAllAppRolesFromPrincipalOnSp_page_only_lost
  : preserves.

Lemma removeAllAppRolesFromPrincipalOnSp_loop_only_lost env base p fuel :
  ∀ url removed,
    preserves only_lost
      (removeAllAppRolesFromPrincipalOnSp_loop env fuel base p url removed).
Proof.
  induction fuel as [|fuel IH]; intros url removed;
    cbn [removeAllAppRolesFromPrincipalOnSp_loop]; preserves_auto;
    by unfold only_lost.
Qed.

Lemma removeAllAppRolesFromPrincipalOnSp_only_lost env fuel token sp p :
  preserves only_lost (removeAllAppRolesFromPrincipalOnSp env fuel token sp p).
Proof.
  unfold removeAllAppRolesFromPrincipalOnSp.
  apply removeAllAppRolesFromPrincipalOnSp_loop_only_lost.
Qed.

(** *** The calls made *)

Lemma calls_since_record ok c w :
  ok c = true → calls_since ok w (record_call c w).
Proof. intros H. exists [c]. split; [done | by constructor]. Qed.

Lemma calls_since_same ok w w' : history w' = history w → calls_since ok w w'.
Proof. intros H. exists []. by rewrite app_nil_r. Qed.

Section CallsSince.

(** A condition that every call meets, except perhaps a write to the
    local user table or a POST of an assignment. *)
Context (ok : Call → bool).
Hypothesis ok_other :
  ∀ c, is_user_write c = false → is_assignment_post c = false → ok c = true.

Ltac side :=
  first [ apply calls_since_record; by apply ok_other
        | by apply calls_since_same ].

Lemma getGraphToken_calls env : preserves (calls_since ok) (getGraphToken env).
Proof. unfold getGraphToken. preserves_auto; side. Qed.

Lemma getServicePrincipalObjectId_calls env token clientId :
  preserves (calls_since ok) (getServicePrincipalObjectId env token clientId).
Proof. unfold getServicePrincipalObjectId. preserves_auto; side. Qed.

Hint Resolve getGraphToken_calls getServicePrincipalObjectId_calls
  : preserves.

Lemma validateUserExists_calls env userEmail :
  preserves (calls_since ok) (validateUserExists env userEmail).
Proof. unfold validateUserExists. preserves_auto; side. Qed.

Lemma getUserByEmail_calls env email :
  preserves (calls_since ok) (getUserByEmail env email).
Proof. unfold getUserByEmail. preserves_auto; side. Qed.

Lemma getUserDisplayName_calls env adId token :
  preserves (calls_since ok) (getUserDisplayName env adId token).
Proof. unfold getUserDisplayName. preserves_auto; side. Qed.

Lemma axios_delete_calls env collection id :
  preserves (calls_since ok) (axios_delete env collection id).
Proof. unfold axios_delete. preserves_auto; side. Qed.

Lemma logAudit_calls env entry : preserves (calls_since ok) (logAudit env entry).
Proof. unfold logAudit. preserves_auto; side. Qed.

Lemma setUserOffline_calls env email :
  preserves (calls_since ok) (setUserOffline env email).
Proof. unfold setUserOffline. preserves_auto; side. Qed.

Hint Resolve validateUserExists_calls getUserByEmail_calls
  getUserDisplayName_calls axios_delete_calls logAudit_calls
  setUserOffline_calls : preserves.

Lemma changeUserRole_lookups_calls env request currentUser :
  preserves (calls_since ok) (changeUserRole_lookups env request currentUser).
Proof. unfold changeUserRole_lookups. preserves_auto; side. Qed.

Lemma removeAllAppRolesFromPrincipalOnSp_page_calls env base p page :
  ∀ removed,
    preserves (calls_since ok)
      (removeAllAppRolesFromPrincipalOnSp_page env base p page removed).
Proof.
  induction page as [|a page IH]; intros removed;
    cbn [removeAllAppRolesFromPrincipalOnSp_page]; preserves_auto; side.
Qed.

Hint Resolve removeAllAppRolesFromPrincipalOnSp_page_calls : preserves.

Lemma removeAllAppRolesFromPrincipalOnSp_loop_calls env base p fuel :
  ∀ url removed,
    preserves (calls_since ok)
      (removeAllAppRolesFromPrincipalOnSp_loop env fuel base p url removed).
Proof.
  induction fuel as [|fuel IH]; intros url removed;
    cbn [removeAllAppRolesFromPrincipalOnSp_loop]; preserves_auto; side.
Qed.

Lemma removeAllAppRolesFromPrincipalOnSp_calls env fuel token sp p :
  preserves (calls_since ok)
    (removeAllAppRolesFromPrincipalOnSp env fuel token sp p).
Proof.
  unfold removeAllAppRolesFromPrincipalOnSp.
  apply removeAllAppRolesFromPrincipalOnSp_loop_calls.
Qed.

End CallsSince.

(** ** The steps of [changeUserRole] *)

(** [changeUserRole] is its lookups, then the clearing of the directory's
    assignments, then its changes. *)
Lemma changeUserRole_steps env fuel request currentUser w :
  changeUserRole env fuel request currentUser w
  = ('(targetUser, targetAdId, graphToken, spId) ←
       changeUserRole_lookups env request currentUser;
     removeAllAppRolesFromPrincipalOnSp env fuel graphToken spId targetAdId;;
     changeUserRole_changes env request currentUser targetUser targetAdId
       graphToken spId) w.
Proof.
  unfold changeUserRole, changeUserRole_lookups, changeUserRole_changes.
  unfold mbind, M_bind.
  repeat (case_match; simplify_eq; try reflexivity).
Qed.

(** ** The local store and the side channels, call by call *)

Lemma upsertUserRole_accepted env email adId fullName role w :
  fails env (history w) (DbUpsertUser email adId fullName role) = false →
  upsertUserRole env email adId fullName role w
  = (Ok (upserted env email adId fullName role w),
     set_users (<[toLowerCase email := upserted env email adId fullName role w]>
                  (users w))
               (record_call (DbUpsertUser email adId fullName role) w)).
Proof.
  intros H. unfold upsertUserRole, upserted.
  erewrite bind_ok by (by apply call_accepted).
  cbv [mbind M_bind get_world modify mret M_ret]. cbn [users now record_call].
  by destruct (users w !! toLowerCase email).
Qed.

Lemma upsertUserRole_rejected env email adId fullName role w :
  fails env (history w) (DbUpsertUser email adId fullName role) = true →
  upsertUserRole env email adId fullName role w
  = (Throw rejected, record_call (DbUpsertUser email adId fullName role) w).
Proof.
  intros H. unfold upsertUserRole. by erewrite bind_throw by (by apply call_rejected).
Qed.

Lemma deleteUserByEmail_accepted env email w :
  fails env (history w) (DbDeleteUser email) = false →
  deleteUserByEmail env email w
  = (Ok tt, set_users (delete (toLowerCase email) (users w))
                      (record_call (DbDeleteUser email) w)).
Proof.
  intros H. unfold deleteUserByEmail.
  by erewrite bind_ok by (by apply call_accepted).
Qed.

Lemma deleteUserByEmail_rejected env email w :
  fails env (history w) (DbDeleteUser email) = true →
  deleteUserByEmail env email w
  = (Throw rejected, record_call (DbDeleteUser email) w).
Proof.
  intros H. unfold deleteUserByEmail.
  by erewrite bind_throw by (by apply call_rejected).
Qed.

Lemma logAudit_accepted env entry w :
  fails env (history w) (DbAuditCreate (audit_row entry)) = false →
  logAudit env entry w
  = (Ok tt, set_auditLog (auditLog w ++ [audit_row entry])
              (record_call (DbAuditCreate (audit_row entry)) w)).
Proof.
  intros H. unfold logAudit. cbv zeta.
  by erewrite bind_ok by (by apply call_accepted).
Qed.

Lemma logAudit_rejected env entry w :
  fails env (history w) (DbAuditCreate (audit_row entry)) = true →
  logAudit env entry w
  = (Throw rejected, record_call (DbAuditCreate (audit_row entry)) w).
Proof.
  intros H. unfold logAudit. cbv zeta.
  by erewrite bind_throw by (by apply call_rejected).
Qed.

Lemma setUserOffline_accepted env email w :
  fails env (history w) (PresenceOffline email) = false →
  setUserOffline env email w
  = (Ok tt, set_offline (email :: offline w)
              (record_call (PresenceOffline email) w)).
Proof.
  intros H. unfold setUserOffline.
  by erewrite bind_ok by (by apply call_accepted).
Qed.

Lemma setUserOffline_rejected env email w :
  fails env (history w) (PresenceOffline email) = true →
  setUserOffline env email w
  = (Throw rejected, record_call (PresenceOffline email) w).
Proof.
  intros H. unfold setUserOffline.
  by erewrite bind_throw by (by apply call_rejected).
Qed.

(** [getUserDisplayName] always returns: a rejected request gives the
    empty name. *)
Lemma getUserDisplayName_returns env adId token w :
  ∃ name,
    getUserDisplayName env adId token w
    = (Ok name, record_call (GraphGetDisplayName adId) w).
Proof.
  unfold getUserDisplayName, try_catch, mbind, M_bind, call.
  destruct (fails _ _ _); eauto.
Qed.

(** When its lookups return, [changeUserRole] has found [targetUser] in
    the local table, has let every rule pass, and has changed nothing. *)
Lemma changeUserRole_lookups_inv env request currentUser w
    targetUser targetAdId graphToken spId w1 :
  changeUserRole_lookups env request currentUser w
    = (Ok (targetUser, targetAdId, graphToken, spId), w1) →
  let userEmail := ChangeUserRoleRequest.userEmail request in
  let newRole := ChangeUserRoleRequest.newRole request in
  targetUser = users w !! toLowerCase userEmail ∧
  ChangeUserRoleValidationRules.validateNotSelfChange currentUser userEmail
    = None ∧
  ChangeUserRoleValidationRules.validateSupervisorRoleAssignment
    (User.role currentUser) newRole = None ∧
  (∀ t, targetUser = Some t →
     ChangeUserRoleValidationRules.validateNotSuperAdminChange t = None ∧
     ChangeUserRoleValidationRules.validateCallerPermissions
       (User.role currentUser) (User.role t) newRole = None ∧
     ChangeUserRoleValidationRules.validateRoleChange (User.role t) newRole
       = None) ∧
  same_local w w1 ∧ same_directory w w1.
Proof.
  intros H userEmail newRole. unfold changeUserRole_lookups in H.
  fold userEmail newRole in H.
  apply bind_inv_ok in H as ([] & w_a & Hself & H).
  apply guard_inv_ok in Hself as [Hself ->].
  apply bind_inv_ok in H as ([] & w_b & Hsup & H).
  apply guard_inv_ok in Hsup as [Hsup ->].
  apply bind_inv_ok in H as (t & w_c & Hfind & H).
  apply bind_inv_ok in H as ([] & w_d & Hrules & H).
  apply bind_inv_ok in H as (ad & w_e & Had & H).
  apply bind_inv_ok in H as (tok & w_f & Htok & H).
  apply bind_inv_ok in H as (sp & w_g & Hsp & H).
  cbv [mret M_ret] in H. simplify_eq.
  assert (targetUser = users w !! toLowerCase userEmail ∧ same_local w w_c
          ∧ same_directory w w_c) as (Ht & Hl_c & Hd_c).
  { unfold getUserByEmail in Hfind.
    apply bind_inv_ok in Hfind as ([] & w_x & Hcall & Hfind).
    cbv [mbind M_bind get_world mret M_ret] in Hfind. simplify_eq.
    unfold call in Hcall. destruct (fails _ _ _); by simplify_eq. }
  assert (w_d = w_c ∧
          ∀ t, targetUser = Some t →
            ChangeUserRoleValidationRules.validateNotSuperAdminChange t = None ∧
            ChangeUserRoleValidationRules.validateCallerPermissions
              (User.role currentUser) (User.role t) newRole = None ∧
            ChangeUserRoleValidationRules.validateRoleChange (User.role t)
              newRole = None) as [-> Hrules'].
  { destruct targetUser as [t|].
    - apply bind_inv_ok in Hrules as ([] & w_x & H1 & Hrules).
      apply guard_inv_ok in H1 as [H1 ->].
      apply bind_inv_ok in Hrules as ([] & w_y & H2 & Hrules).
      apply guard_inv_ok in H2 as [H2 ->].
      apply guard_inv_ok in Hrules as [H3 ->].
      split; [done|]. intros t' [= <-]. done.
    - cbv [mret M_ret] in Hrules. simplify_eq. split; [done|]. by intros t' [=]. }
  split_and!; try done.
  - etrans; [exact Hl_c|]. etrans; [by eapply validateUserExists_local|].
    etrans; [by eapply getGraphToken_local|].
    by eapply getServicePrincipalObjectId_local.
  - etrans; [exact Hd_c|]. etrans; [by eapply validateUserExists_directory|].
    etrans; [by eapply getGraphToken_directory|].
    by eapply getServicePrincipalObjectId_directory.
Qed.

(** ** Rollback *)


Lemma upsertUserRole_inv_ok env email adId fullName role w user w' :
  upsertUserRole env email adId fullName role w = (Ok user, w') →
  users w' = <[toLowerCase email := user]> (users w)
  ∧ User.role user = role
  ∧ auditLog w' = auditLog w
  ∧ user = upserted env email adId fullName role w.
Proof.
  intros H. destruct (fails env (history w)
                        (DbUpsertUser email adId fullName role)) eqn:Hf.
  - rewrite upsertUserRole_rejected in H by done. discriminate.
  - rewrite upsertUserRole_accepted in H by done. simplify_eq.
    split_and!; try done. unfold upserted. by destruct (users w !! _).
Qed.




(** ** Failures after the local update *)

(** C2, as the code has it.  Once the local table holds the new role,
    only the exhaustion of the directory retries is turned into a result
    (ROLLBACK_REQUIRED, when the local store takes the compensating
    write).  A rejected compensating write, a rejected audit row and a
    rejected presence call are thrown to the caller as they are, the local
    table still holding the new role; the success result is returned only
    when the audit row and the presence call are both accepted. *)
Theorem failures_after_local_update
    env fuel request currentUser w newRole
    targetUser targetAdId graphToken spId w1 removed w2
    displayName w3 updatedUser w4 azureADResult w5 :
  let userEmail := ChangeUserRoleRequest.userEmail request in
  ChangeUserRoleRequest.newRole request = Some newRole →
  changeUserRole_lookups env request currentUser w
    = (Ok (targetUser, targetAdId, graphToken, spId), w1) →
  removeAllAppRolesFromPrincipalOnSp env fuel graphToken spId targetAdId w1
    = (Ok removed, w2) →
  getUserDisplayName env targetAdId graphToken w2 = (Ok displayName, w3) →
  upsertUserRole env userEmail targetAdId displayName newRole w3
    = (Ok updatedUser, w4) →
  updateAzureADWithRetry env graphToken spId targetAdId newRole 2 w4
    = (Ok azureADResult, w5) →
  let run := changeUserRole env fuel request currentUser w in
  let compensation :=
    match targetUser with
    | Some t => DbUpsertUser userEmail targetAdId displayName (User.role t)
    | None => DbDeleteUser userEmail
    end in
  let row :=
    audit_row (AuditEntry.mk USER (User.id updatedUser) ROLE_CHANGE
                 (User.id currentUser) (of_nullable targetUser)
                 (Val updatedUser)) in
  users w5 !! toLowerCase userEmail = Some updatedUser
  ∧ User.role updatedUser = newRole
  ∧ match azureADResult with
    | AzureADRetryStatus.MAX_RETRIES_EXCEEDED =>
      if fails env (history w5) compensation
      then run = (Throw rejected, record_call compensation w5)
      else ∃ w',
        run = (Ok (ChangeUserRoleResult.mk
                     ChangeUserRoleMessages.AZURE_AD_UPDATE_FAILED
                     ROLLBACK_REQUIRED userEmail (User.role <$> targetUser)
                     (Some newRole) false true), w')
    | _ =>
      if fails env (history w5) (DbAuditCreate row)
      then run = (Throw rejected, record_call (DbAuditCreate row) w5)
      else if fails env (history w5 ++ [DbAuditCreate row])
                (PresenceOffline userEmail)
      then ∃ w', run = (Throw rejected, w')
                 ∧ users w' = users w5
                 ∧ auditLog w' = (auditLog w5 ++ [row])%list
      else ∃ w',
        run = (Ok (ChangeUserRoleResult.mk
                     ChangeUserRoleMessages.ROLE_CHANGED_SUCCESSFULLY SUCCESS
                     userEmail (User.role <$> targetUser) (Some newRole)
                     true false), w')
    end.
Proof.
  intros userEmail HnewRole Hlookups Hclear Hname Hupsert Hretry
    run compensation row.
  apply upsertUserRole_inv_ok in Hupsert as Hupserted.
  destruct Hupserted as (Hu4 & Hrole & _ & _).
  pose proof (updateAzureADWithRetry_local _ _ _ _ _ _ _ _ _ Hretry)
    as (Hu5 & _ & _).
  split; [by rewrite Hu5, Hu4, lookup_insert_eq|]. split; [done|].
  assert (run = changeUserRole_changes env request currentUser targetUser
                  targetAdId graphToken spId w2) as ->.
  { unfold run. rewrite changeUserRole_steps.
    erewrite bind_ok by exact Hlookups. cbv beta iota.
    by erewrite bind_ok by exact Hclear. }
  unfold changeUserRole_changes. rewrite HnewRole. fold userEmail.
  erewrite bind_ok by exact Hname.
  erewrite bind_ok by exact Hupsert.
  erewrite bind_ok by exact Hretry.
  destruct azureADResult.
  - (* SUCCESS *)
    destruct (fails env (history w5) (DbAuditCreate row)) eqn:Haudit.
    + by erewrite bind_throw by (by apply logAudit_rejected).
    + erewrite bind_ok by (by apply logAudit_accepted).
      destruct (fails env (history w5 ++ [DbAuditCreate row])
                  (PresenceOffline userEmail)) eqn:Hpresence.
      * erewrite bind_throw by (by apply setUserOffline_rejected).
        eexists. split_and!; reflexivity.
      * erewrite bind_ok by (by apply setUserOffline_accepted).
        eexists. reflexivity.
  - (* FAILED *)
    destruct (fails env (history w5) (DbAuditCreate row)) eqn:Haudit.
    + by erewrite bind_throw by (by apply logAudit_rejected).
    + erewrite bind_ok by (by apply logAudit_accepted).
      destruct (fails env (history w5 ++ [DbAuditCreate row])
                  (PresenceOffline userEmail)) eqn:Hpresence.
      * erewrite bind_throw by (by apply setUserOffline_rejected).
        eexists. split_and!; reflexivity.
      * erewrite bind_ok by (by apply setUserOffline_accepted).
        eexists. reflexivity.
  - (* MAX_RETRIES_EXCEEDED *)
    destruct (fails env (history w5) compensation) eqn:Hcomp.
    + destruct targetUser as [t|]; cbn in Hcomp.
      * erewrite bind_throw; [reflexivity|].
        by erewrite bind_throw by (by apply upsertUserRole_rejected).
      * by erewrite bind_throw by (by apply deleteUserByEmail_rejected).
    + destruct targetUser as [t|]; cbn in Hcomp.
      * erewrite bind_ok; cycle 1.
        { by erewrite bind_ok by (by apply upsertUserRole_accepted). }
        eexists. reflexivity.
      * erewrite bind_ok by (by apply deleteUserByEmail_accepted).
        eexists. reflexivity.
Qed.

(** The directory and the local table took the new role, the audit table
    rejected the row: the caller gets the rejection, thrown, and no
    result. *)
Lemma audit_failure_is_thrown :
  let run :=
    changeUserRole Scenario.env_audit_rejected 5
      (Scenario.request "d@x.com" (Some Admin)) Scenario.root Scenario.w0 in
  run.1 = Throw rejected
  ∧ User.role <$> users run.2 !! "d@x.com" = Some Admin
  ∧ filter (fun a => Assignment.principalId a = Some "ad-dana")
           (assignments run.2)
    = [Assignment.mk (Some "new-11") (Some "ad-dana") (Some "role-admin")]
  ∧ auditLog run.2 = [].
Proof. cbv zeta. split_and!; vm_compute; reflexivity. Qed.

Lemma failures_after_local_update_witness :
  (changeUserRole Scenario.env_audit_rejected 5
     (Scenario.request "d@x.com" (Some Admin)) Scenario.root Scenario.w0).1
  = Throw rejected.
Proof.
  pose (env := Scenario.env_audit_rejected).
  pose (request := Scenario.request "d@x.com" (Some Admin)).
  pose (w1 := (changeUserRole_lookups env request Scenario.root Scenario.w0).2).
  pose (w2 := (removeAllAppRolesFromPrincipalOnSp env 5 "token" "sp-1"
                 "ad-dana" w1).2).
  pose (w3 := (getUserDisplayName env "ad-dana" "token" w2).2).
  pose (w4 := (upsertUserRole env "d@x.com" "ad-dana" "Name" Admin w3).2).
  pose (w5 := (updateAzureADWithRetry env "token" "sp-1" "ad-dana" Admin 2
                 w4).2).
  pose proof (failures_after_local_update env 5 request Scenario.root
                Scenario.w0 Admin (Some Scenario.dana) "ad-dana" "token" "sp-1"
                w1 2 w2 "Name" w3
                (User.mk "u3" "ad-dana" "d@x.com" "Dana" Admin 0) w4
                AzureADRetryStatus.SUCCESS w5
                eq_refl
                ltac:(vm_compute; reflexivity)
                ltac:(vm_compute; reflexivity)
                ltac:(vm_compute; reflexivity)
                ltac:(vm_compute; reflexivity)
                ltac:(vm_compute; reflexivity)) as (_ & _ & Hrun).
  cbv beta iota zeta in Hrun.
  lazymatch type of Hrun with
  | (if _ then ?thrown else _) => assert thrown as Hthrown by exact Hrun
  end.
  unfold env, request in Hthrown. by rewrite Hthrown.
Defined.

(** ** The order of the rules *)





(** ** Self-change *)

(** X28.  A request on exactly the caller's email is denied before any
    call is made: the world, its history included, is as it was. *)
Lemma self_change_denied_without_calls env fuel request currentUser w :
  User.email currentUser = ChangeUserRoleRequest.userEmail request →
  changeUserRole env fuel request currentUser w
  = (Throw (ExpectedError ChangeUserRoleMessages.CANNOT_CHANGE_OWN_ROLE 400), w).
Proof.
  intros H. unfold changeUserRole,
    ChangeUserRoleValidationRules.validateNotSelfChange.
  by rewrite H, String.eqb_refl.
Qed.

(** C4, at the failing input.  The Admin [b@x.com] asks for the role
    Supervisor for [B@x.com], her own email in another case: the rule
    compares the two strings as they are and lets the request pass, the
    local table is read, and she has changed her own role. *)
Theorem self_change_in_other_case_is_not_denied :
  same_email (User.email Scenario.alice) "B@x.com"
  ∧ ChangeUserRoleValidationRules.validateNotSelfChange Scenario.alice "B@x.com"
    = None
  ∧ let run :=
      changeUserRole Scenario.env_fine 5
        (Scenario.request "B@x.com" (Some Supervisor)) Scenario.alice
        Scenario.w0 in
    run.1 = Ok (ChangeUserRoleResult.mk
                  ChangeUserRoleMessages.ROLE_CHANGED_SUCCESSFULLY SUCCESS
                  "B@x.com" (Some Admin) (Some Supervisor) true false)
    ∧ head (history run.2) = Some (DbFindUser "B@x.com")
    ∧ User.role <$> users run.2 !! "b@x.com" = Some Supervisor.
Proof. cbv zeta. split_and!; vm_compute; reflexivity. Qed.

(** ** The scope of a Supervisor *)

(** The Supervisor [s@x.com] demotes the Admin [b@x.com] to Employee. *)
Lemma supervisor_demotes_admin :
  let run :=
    changeUserRole Scenario.env_fine 5
      (Scenario.request "b@x.com" (Some Employee)) Scenario.sam Scenario.w0 in
  run.1 = Ok (ChangeUserRoleResult.mk
                ChangeUserRoleMessages.ROLE_CHANGED_SUCCESSFULLY SUCCESS
                "b@x.com" (Some Admin) (Some Employee) true false)
  ∧ User.role <$> users run.2 !! "b@x.com" = Some Employee.
Proof. cbv zeta. split_and!; vm_compute; reflexivity. Qed.

(** ** Audit entries *)

Lemma deleteUserByEmail_inv_ok env email w w' :
  deleteUserByEmail env email w = (Ok tt, w') →
  w' = set_users (delete (toLowerCase email) (users w))
                 (record_call (DbDeleteUser email) w).
Proof.
  intros H. destruct (fails env (history w) (DbDeleteUser email)) eqn:Hf.
  - rewrite deleteUserByEmail_rejected in H by done. discriminate.
  - rewrite deleteUserByEmail_accepted in H by done. by simplify_eq.
Qed.

Lemma logAudit_inv_ok env entry w w' :
  logAudit env entry w = (Ok tt, w') →
  w' = set_auditLog (auditLog w ++ [audit_row entry])
                    (record_call (DbAuditCreate (audit_row entry)) w).
Proof.
  intros H.
  destruct (fails env (history w) (DbAuditCreate (audit_row entry))) eqn:Hf.
  - rewrite logAudit_rejected in H by done. discriminate.
  - rewrite logAudit_accepted in H by done. by simplify_eq.
Qed.

Lemma setUserOffline_inv_ok env email w w' :
  setUserOffline env email w = (Ok tt, w') →
  w' = set_offline (email :: offline w) (record_call (PresenceOffline email) w).
Proof.
  intros H. destruct (fails env (history w) (PresenceOffline email)) eqn:Hf.
  - rewrite setUserOffline_rejected in H by done. discriminate.
  - rewrite setUserOffline_accepted in H by done. by simplify_eq.
Qed.

(** The root SuperAdmin removes [new@x.com], who has a directory account
    and no local row: the removal succeeds, and no audit row is
    written. *)
Lemma removal_of_absent_user_is_not_audited :
  let run :=
    changeUserRole Scenario.env_fine 5 (Scenario.request "new@x.com" None)
      Scenario.root Scenario.w0 in
  users Scenario.w0 !! toLowerCase "new@x.com" = None
  ∧ run.1 = Ok (ChangeUserRoleResult.mk
                  ChangeUserRoleMessages.USER_DELETED_SUCCESSFULLY SUCCESS
                  "new@x.com" None None true false)
  ∧ auditLog run.2 = auditLog Scenario.w0.
Proof. cbv zeta. split_and!; vm_compute; reflexivity. Qed.

(** C5, as the code has it.  A role change that returns SUCCESS has
    written exactly one audit row: ROLE_CHANGE, with the updated row of
    the target as [dataAfter] and, as [dataBefore], the row the target had
    before, or JSON null when it had none.  A removal of a target that had
    a local row has written exactly one audit row: DELETE, with that row
    as [dataBefore] and [dataAfter] left out, hence SQL NULL.  A removal
    of a target without a local row has written none. *)
Theorem audit_rows_of_success env fuel request currentUser w result w' :
  let userEmail := ChangeUserRoleRequest.userEmail request in
  let newRole := ChangeUserRoleRequest.newRole request in
  let previous := users w !! toLowerCase userEmail in
  changeUserRole env fuel request currentUser w = (Ok result, w') →
  ChangeUserRoleResult.status result = SUCCESS →
  match newRole, previous with
  | Some _, _ =>
    ∃ updatedUser,
      users w' !! toLowerCase userEmail = Some updatedUser
      ∧ auditLog w' =
          (auditLog w ++
             [AuditLog.mk USER (User.id updatedUser) ROLE_CHANGE
                (User.id currentUser)
                (match previous with Some t => Json t | None => JsonNull end)
                (Json updatedUser)])%list
  | None, Some t =>
    users w' !! toLowerCase userEmail = None
    ∧ auditLog w' =
        (auditLog w ++
           [AuditLog.mk USER (User.id t) DELETE (User.id currentUser)
              (Json t) Omitted])%list
  | None, None => auditLog w' = auditLog w
  end.
Proof.
  intros userEmail newRole previous Hrun Hstatus.
  rewrite changeUserRole_steps in Hrun.
  apply bind_inv_ok in Hrun as ([[[targetUser adId] token] spId] & w1 & Hlookups & Hrun).
  apply bind_inv_ok in Hrun as (removed & w2 & Hclear & Hrun).
  pose proof (changeUserRole_lookups_inv _ _ _ _ _ _ _ _ _ Hlookups)
    as (Htarget & _ & _ & _ & (Hu1 & Ha1 & _) & _).
  fold userEmail previous in Htarget.
  pose proof (removeAllAppRolesFromPrincipalOnSp_local _ _ _ _ _ _ _ _ Hclear)
    as (Hu2 & Ha2 & _).
  unfold changeUserRole_changes in Hrun. fold userEmail newRole in Hrun.
  destruct newRole as [role|].
  - (* a role change *)
    apply bind_inv_ok in Hrun as (displayName & w3 & Hname & Hrun).
    apply bind_inv_ok in Hrun as (updatedUser & w4 & Hupsert & Hrun).
    apply bind_inv_ok in Hrun as (azureADResult & w5 & Hretry & Hrun).
    pose proof (getUserDisplayName_local _ _ _ _ _ _ Hname) as (Hu3 & Ha3 & _).
    apply upsertUserRole_inv_ok in Hupsert as (Hu4 & _ & Ha4 & _).
    pose proof (updateAzureADWithRetry_local _ _ _ _ _ _ _ _ _ Hretry)
      as (Hu5 & Ha5 & _).
    assert (∀ w6,
      (logAudit env
         (AuditEntry.mk USER (User.id updatedUser) ROLE_CHANGE
            (User.id currentUser) (of_nullable targetUser) (Val updatedUser));;
       setUserOffline env userEmail;;
       mret (ChangeUserRoleResult.mk
               ChangeUserRoleMessages.ROLE_CHANGED_SUCCESSFULLY SUCCESS
               userEmail (User.role <$> targetUser) (Some role) true false))
        w5 = (Ok result, w6) →
      users w6 = users w5 ∧
      auditLog w6 =
        (auditLog w5 ++
           [AuditLog.mk USER (User.id updatedUser) ROLE_CHANGE
              (User.id currentUser)
              (match targetUser with Some t => Json t | None => JsonNull end)
              (Json updatedUser)])%list) as Hcommit.
    { intros w6 H.
      apply bind_inv_ok in H as ([] & w_a & Haudit & H).
      apply bind_inv_ok in H as ([] & w_b & Hoff & H).
      apply logAudit_inv_ok in Haudit as ->.
      apply setUserOffline_inv_ok in Hoff as ->.
      cbv [mret M_ret] in H. injection H as _ <-. split; [done|].
      cbn. by destruct targetUser. }
    exists updatedUser.
    destruct azureADResult.
    + apply Hcommit in Hrun as [Hu6 Ha6].
      rewrite Hu6, Hu5, Hu4, lookup_insert_eq, Ha6, Htarget. split; [done|].
      unfold previous. f_equal. congruence.
    + apply Hcommit in Hrun as [Hu6 Ha6].
      rewrite Hu6, Hu5, Hu4, lookup_insert_eq, Ha6, Htarget. split; [done|].
      unfold previous. f_equal. congruence.
    + apply bind_inv_ok in Hrun as ([] & w6 & _ & Hrun).
      cbv [mret M_ret] in Hrun. by simplify_eq.
  - (* a removal *)
    apply bind_inv_ok in Hrun as ([] & w3 & Hdelete & Hrun).
    cbv [mret M_ret] in Hrun. injection Hrun as _ <-.
    unfold previous in Htarget. cbv zeta.
    rewrite <- Htarget. destruct targetUser as [t|].
    + apply bind_inv_ok in Hdelete as ([] & w_a & Hdelete & Haudit).
      apply deleteUserByEmail_inv_ok in Hdelete as ->.
      apply logAudit_inv_ok in Haudit as ->.
      cbn. rewrite lookup_delete_eq. split; [done|].
      rewrite Ha2, Ha1. reflexivity.
    + cbv [mret M_ret] in Hdelete. simplify_eq. congruence.
Qed.

Lemma audit_rows_of_success_witness :
  let run :=
    changeUserRole Scenario.env_fine 5 (Scenario.request "d@x.com" None)
      Scenario.root Scenario.w0 in
  users run.2 !! toLowerCase "d@x.com" = None
  ∧ auditLog run.2 =
      (auditLog Scenario.w0 ++
         [AuditLog.mk USER "u3" DELETE "u0" (Json Scenario.dana) Omitted])%list.
Proof.
  cbv zeta.
  apply (audit_rows_of_success Scenario.env_fine 5
           (Scenario.request "d@x.com" None) Scenario.root Scenario.w0
           (ChangeUserRoleResult.mk
              ChangeUserRoleMessages.USER_DELETED_SUCCESSFULLY SUCCESS
              "d@x.com" (Some Employee) None true false)).
  - vm_compute. reflexivity.
  - reflexivity.
Defined.

(** ** A failure while clearing the directory *)

(** The directory accepts the DELETE of the first assignment of
    [ad-dana] and rejects the DELETE of the second: the operation throws,
    the local table is as it was, and the directory has lost the first
    assignment. *)
Lemma clear_failure_leaves_directory_partly_cleared :
  let run :=
    changeUserRole Scenario.env_delete_rejected 5
      (Scenario.request "d@x.com" (Some Admin)) Scenario.root Scenario.w0 in
  run.1 = Throw (Error "Failed to delete appRoleAssignedTo a2")
  ∧ users run.2 = users Scenario.w0
  ∧ assignments Scenario.w0
    = [Scenario.grant "a0" "ad-root" "role-super-admin";
       Scenario.grant "a1" "ad-dana" "role-employee";
       Scenario.grant "a2" "ad-dana" "role-contact-manager";
       Scenario.grant "a3" "ad-alice" "role-admin"]
  ∧ assignments run.2
    = [Scenario.grant "a0" "ad-root" "role-super-admin";
       Scenario.grant "a2" "ad-dana" "role-contact-manager";
       Scenario.grant "a3" "ad-alice" "role-admin"].
Proof. cbv zeta. split_and!; vm_compute; reflexivity. Qed.

(** C6, as the code has it.  The directory's assignments are cleared
    before any write to the local user table.  When the clearing throws,
    [changeUserRole] throws the same error; no write to the local user
    table has been attempted, and the local database is as it was.  The
    directory has gained no assignment, and may have lost those deleted
    before the failure. *)
Theorem clear_failure_aborts_before_local_write
    env fuel request currentUser w
    targetUser targetAdId graphToken spId w1 e w2 :
  changeUserRole_lookups env request currentUser w
    = (Ok (targetUser, targetAdId, graphToken, spId), w1) →
  removeAllAppRolesFromPrincipalOnSp env fuel graphToken spId targetAdId w1
    = (Throw e, w2) →
  changeUserRole env fuel request currentUser w = (Throw e, w2)
  ∧ calls_since (fun c => negb (is_user_write c)) w w2
  ∧ same_local w w2
  ∧ only_lost w w2.
Proof.
  intros Hlookups Hclear.
  assert (∀ c, is_user_write c = false → is_assignment_post c = false →
               negb (is_user_write c) = true) as Hok by (by intros c ->).
  split_and!.
  - rewrite changeUserRole_steps.
    erewrite bind_ok by exact Hlookups. cbv beta iota.
    by erewrite bind_throw by exact Hclear.
  - etrans.
    + by eapply (changeUserRole_lookups_calls _ Hok).
    + by eapply (removeAllAppRolesFromPrincipalOnSp_calls _ Hok).
  - etrans.
    + by eapply changeUserRole_lookups_local.
    + by eapply removeAllAppRolesFromPrincipalOnSp_local.
  - pose proof (changeUserRole_lookups_directory _ _ _ _ _ _ Hlookups) as Hd.
    pose proof (removeAllAppRolesFromPrincipalOnSp_only_lost _ _ _ _ _ _ _ _
                  Hclear) as Hlost.
    unfold only_lost, same_directory in *. by rewrite <- Hd.
Qed.

Lemma clear_failure_aborts_before_local_write_witness :
  let run :=
    changeUserRole Scenario.env_delete_rejected 5
      (Scenario.request "d@x.com" (Some Admin)) Scenario.root Scenario.w0 in
  run.1 = Throw (Error "Failed to delete appRoleAssignedTo a2")
  ∧ calls_since (fun c => negb (is_user_write c)) Scenario.w0 run.2
  ∧ same_local Scenario.w0 run.2
  ∧ only_lost Scenario.w0 run.2.
Proof.
  pose (env := Scenario.env_delete_rejected).
  pose (request := Scenario.request "d@x.com" (Some Admin)).
  pose (w1 := (changeUserRole_lookups env request Scenario.root Scenario.w0).2).
  pose (w2 := (removeAllAppRolesFromPrincipalOnSp env 5 "token" "sp-1"
                 "ad-dana" w1).2).
  destruct (clear_failure_aborts_before_local_write env 5 request
              Scenario.root Scenario.w0 (Some Scenario.dana) "ad-dana" "token"
              "sp-1" w1 (Error "Failed to delete appRoleAssignedTo a2") w2
              ltac:(vm_compute; reflexivity) ltac:(vm_compute; reflexivity))
    as (Hrun & Hcalls & Hlocal & Hlost).
  cbv zeta. fold env request. rewrite Hrun. done.
Defined.

(** ** The role SuperAdmin has no directory scope *)

Lemma roleIdMap_SuperAdmin env :
  mjoin (roleIdMap env !! roleName SuperAdmin) = None.
Proof.
  unfold roleIdMap. cbn [roleName].
  rewrite !lookup_insert_ne by done. by rewrite lookup_empty.
Qed.

Lemma gained_same w w' :
  assignments w' = assignments w → gained_without_role w w'.
Proof. intros H a Ha. left. by rewrite <- H. Qed.

Lemma gained_drop id w : gained_without_role w (drop_assignment id w).
Proof.
  intros a Ha. left. cbn in Ha. by apply list_elem_of_filter in Ha as [_ ?].
Qed.

Lemma gained_add env p w : gained_without_role w (add_assignment env p None w).
Proof.
  intros a Ha. cbn in Ha. apply elem_of_app in Ha as [?|Ha]; [by left|].
  apply list_elem_of_singleton in Ha as ->. by right.
Qed.

(** Closes the goals that the primitives leave for [gained_without_role]
    and for [calls_since post_without_role]. *)
Ltac side_without_role :=
  first [ by apply gained_same
        | apply gained_drop
        | apply gained_add
        | by apply calls_since_record
        | by apply calls_since_same ].

Lemma removeAllAppRolesFromPrincipalOnSp_gained env fuel token sp p :
  preserves gained_without_role
    (removeAllAppRolesFromPrincipalOnSp env fuel token sp p).
Proof.
  assert (∀ page removed,
    preserves gained_without_role
      (removeAllAppRolesFromPrincipalOnSp_page env
         ("https://graph.microsoft.com/v1.0/servicePrincipals/" +:+ sp
            +:+ "/appRoleAssignedTo") p page removed)) as Hpage.
  { induction page as [|a page IH]; intros removed;
      cbn [removeAllAppRolesFromPrincipalOnSp_page]; unfold axios_delete;
      preserves_auto; side_without_role. }
  unfold removeAllAppRolesFromPrincipalOnSp. cbv zeta.
  generalize 0 as removed.
  generalize (("https://graph.microsoft.com/v1.0/servicePrincipals/" +:+ sp
                 +:+ "/appRoleAssignedTo") +:+ "?$top=100") as url.
  induction fuel as [|fuel IH]; intros url removed;
    cbn [removeAllAppRolesFromPrincipalOnSp_loop]; preserves_auto;
    side_without_role.
Qed.

Lemma updateAzureADWithRetry_without_role env token sp p maxRetries :
  ∀ fuel attempt,
    preserves gained_without_role
      (updateAzureADWithRetry_loop env fuel token sp p None maxRetries attempt)
    ∧ preserves (calls_since post_without_role)
        (updateAzureADWithRetry_loop env fuel token sp p None maxRetries attempt).
Proof.
  induction fuel as [|fuel IH]; intros attempt; split;
    cbn [updateAzureADWithRetry_loop]; unfold assignAppRoleToPrincipal;
    preserves_auto; try side_without_role; apply IH.
Qed.

(** C10.  [roleIdMap] has the four keys Supervisor, Admin, Employee and
    ContactManager, so that the lookup of SuperAdmin gives [undefined].
    The rules let a SuperAdmin ask for the role SuperAdmin for a target
    that is not a SuperAdmin.  In a run of [changeUserRole] for the role
    SuperAdmin, every POST of an assignment carries [undefined] as its
    [appRoleId], and every assignment the directory gains has none: no
    assignment of a SuperAdmin scope is made. *)
Theorem superadmin_scope_is_never_assigned env fuel request currentUser w :
  ChangeUserRoleRequest.newRole request = Some SuperAdmin →
  let run := changeUserRole env fuel request currentUser w in
  dom (roleIdMap env)
    = {[roleName Supervisor; roleName Admin; roleName Employee;
        roleName ContactManager]}
  ∧ mjoin (roleIdMap env !! roleName SuperAdmin) = None
  ∧ (∀ targetUser,
       User.role currentUser = SuperAdmin →
       User.role targetUser ≠ SuperAdmin →
       ChangeUserRoleValidationRules.validateSupervisorRoleAssignment
         (User.role currentUser) (Some SuperAdmin) = None
       ∧ ChangeUserRoleValidationRules.validateNotSuperAdminChange targetUser
         = None
       ∧ ChangeUserRoleValidationRules.validateCallerPermissions
           (User.role currentUser) (User.role targetUser) (Some SuperAdmin)
         = None
       ∧ ChangeUserRoleValidationRules.validateRoleChange
           (User.role targetUser) (Some SuperAdmin) = None)
  ∧ calls_since post_without_role w run.2
  ∧ gained_without_role w run.2.
Proof.
  intros HnewRole run.
  assert (∀ c, is_user_write c = false → is_assignment_post c = false →
               post_without_role c = true) as Hok by (by intros []).
  split_and!.
  - unfold roleIdMap. rewrite !dom_insert_L, dom_empty_L. set_solver.
  - apply roleIdMap_SuperAdmin.
  - intros targetUser Hcaller Htarget. rewrite Hcaller.
    unfold ChangeUserRoleValidationRules.validateNotSuperAdminChange,
      ChangeUserRoleValidationRules.validateRoleChange, role_eqb, orole_eqb.
    rewrite !bool_decide_eq_false_2; [done | congruence | done].
  - destruct (changeUserRole env fuel request currentUser w) as [r w'] eqn:Hrun.
    subst run. cbn [snd]. revert Hrun. generalize w r w'.
    change (preserves (calls_since post_without_role)
              (changeUserRole env fuel request currentUser)).
    pose proof (removeAllAppRolesFromPrincipalOnSp_calls _ Hok env) as Hclear.
    pose proof (fun t s p m f a =>
                  proj2 (updateAzureADWithRetry_without_role env t s p m f a))
      as Hretry.
    unfold changeUserRole. rewrite HnewRole.
    unfold updateAzureADWithRetry. rewrite roleIdMap_SuperAdmin.
    unfold getUserByEmail, validateUserExists, getGraphToken,
      getServicePrincipalObjectId, getUserDisplayName, upsertUserRole,
      deleteUserByEmail, logAudit, setUserOffline.
    preserves_auto; side_without_role.
  - destruct (changeUserRole env fuel request currentUser w) as [r w'] eqn:Hrun.
    subst run. cbn [snd]. revert Hrun. generalize w r w'.
    change (preserves gained_without_role
              (changeUserRole env fuel request currentUser)).
    pose proof (removeAllAppRolesFromPrincipalOnSp_gained env) as Hclear.
    pose proof (fun t s p m f a =>
                  proj1 (updateAzureADWithRetry_without_role env t s p m f a))
      as Hretry.
    unfold changeUserRole. rewrite HnewRole.
    unfold updateAzureADWithRetry. rewrite roleIdMap_SuperAdmin.
    unfold getUserByEmail, validateUserExists, getGraphToken,
      getServicePrincipalObjectId, getUserDisplayName, upsertUserRole,
      deleteUserByEmail, logAudit, setUserOffline.
    preserves_auto; side_without_role.
Qed.

Lemma superadmin_scope_is_never_assigned_witness :
  let run :=
    changeUserRole Scenario.env_posts_rejected 5
      (Scenario.request "d@x.com" (Some SuperAdmin)) Scenario.root
      Scenario.w0 in
  calls_since post_without_role Scenario.w0 run.2
  ∧ gained_without_role Scenario.w0 run.2.
Proof.
  cbv zeta.
  apply (superadmin_scope_is_never_assigned Scenario.env_posts_rejected 5
           (Scenario.request "d@x.com" (Some SuperAdmin)) Scenario.root
           Scenario.w0 eq_refl).
Defined.

(** The root SuperAdmin promotes the Employee [d@x.com] to SuperAdmin: the
    two POSTs carry no [appRoleId]; the directory rejecting them, the local
    role is rolled back. *)
Lemma superadmin_promotion_posts_no_scope :
  let run :=
    changeUserRole Scenario.env_posts_rejected 5
      (Scenario.request "d@x.com" (Some SuperAdmin)) Scenario.root
      Scenario.w0 in
  run.1 = Ok (ChangeUserRoleResult.mk
                ChangeUserRoleMessages.AZURE_AD_UPDATE_FAILED ROLLBACK_REQUIRED
                "d@x.com" (Some Employee) (Some SuperAdmin) false true)
  ∧ filter (fun c => is_assignment_post c = true) (history run.2)
    = [GraphPostAssignment "sp-1" "ad-dana" None;
       GraphPostAssignment "sp-1" "ad-dana" None]
  ∧ User.role <$> users run.2 !! "d@x.com" = Some Employee.
Proof. cbv zeta. split_and!; vm_compute; reflexivity. Qed.

(** ** Listings in several pages *)

(** C9, at the failing input.  The assignments of [ad-dana] are listed in
    two pages.  [removeAllAppRolesFromUser] makes one GET, deletes the
    assignment of the first page and returns: the assignment of the second
    page stays.  On the same listing [removeAllAppRolesFromPrincipalOnSp]
    follows [@odata.nextLink] and deletes both, and
    [fetchAppRoleMemberIds] finds the member that the second page
    shows. *)
Theorem removeAllAppRolesFromUser_reads_one_page :
  pages_from Scenario.env_two_pages Scenario.dana_assignments_url
    [ListResponse.mk 200
       (Some [Scenario.grant "a1" "ad-dana" "role-employee"]) (Some "next");
     ListResponse.mk 200
       (Some [Scenario.grant "a2" "ad-dana" "role-contact-manager"]) None]
  ∧ (let run :=
       removeAllAppRolesFromUser Scenario.env_two_pages "token" "sp-1"
         "ad-dana" Scenario.w0 in
     run.1 = Ok tt
     ∧ history run.2
       = [GraphGet Scenario.dana_assignments_url;
          GraphDeleteAssignment
            "https://graph.microsoft.com/v1.0/users/ad-dana/appRoleAssignments"
            "a1"]
     ∧ filter (fun a => Assignment.principalId a = Some "ad-dana")
              (assignments run.2)
       = [Scenario.grant "a2" "ad-dana" "role-contact-manager"])
  ∧ (let run :=
       removeAllAppRolesFromPrincipalOnSp Scenario.env_two_pages 5 "token"
         "sp-1" "ad-dana" Scenario.w0 in
     run.1 = Ok 2
     ∧ filter (fun c => match c with GraphGet _ => true | _ => false end = true)
              (history run.2)
       = [GraphGet ("https://graph.microsoft.com/v1.0/servicePrincipals/sp-1"
                      +:+ "/appRoleAssignedTo?$top=100");
          GraphGet "next"]
     ∧ filter (fun a => Assignment.principalId a = Some "ad-dana")
              (assignments run.2)
       = [])
  ∧ (fetchAppRoleMemberIds Scenario.env_two_pages 5 "token" "sp-1"
       "role-contact-manager" Scenario.w0).1
    = Ok {[ "ad-dana" ]}.
Proof.
  cbv zeta. split_and!; try (vm_compute; reflexivity).
  apply (pages_next Scenario.env_two_pages Scenario.dana_assignments_url);
    [reflexivity|].
  apply (pages_next Scenario.env_two_pages "next"); [reflexivity|].
  apply pages_end.
Qed.

(** On a finite chain of pages, each answered with status 200, and with
    enough fuel for its length, [removeAllAppRolesFromPrincipalOnSp]
    returns: it has gone through every page and deleted every listed
    assignment of the principal. *)
Lemma removeAllAppRolesFromPrincipalOnSp_page_run env base p :
  (∀ h c, is_list_or_delete c = true → fails env h c = false) →
  ∀ page removed w,
    ∃ w',
      removeAllAppRolesFromPrincipalOnSp_page env base p page removed w
      = (Ok (removed + N.of_nat (length (to_clear p page))), w')
      ∧ assignments w' = without (to_clear p page) (assignments w).
Proof.
  intros Hfine. induction page as [|a page IH]; intros removed w.
  - exists w. cbn. by rewrite N.add_0_r.
  - cbn [removeAllAppRolesFromPrincipalOnSp_page]. unfold to_clear.
    rewrite filter_cons. fold (to_clear p page).
    destruct (otruthy (Assignment.id a)) eqn:Hid; cbn [negb].
    + case_bool_decide as Hp; cbn [negb].
      * rewrite decide_True by done. cbn [length without foldl].
        destruct (Assignment.id a) as [aid|] eqn:Eid; [|done].
        cbn [default from_option Datatypes.id].
        erewrite bind_ok; cycle 1.
        { apply try_catch_ok. unfold axios_delete.
          erewrite bind_ok by (apply call_accepted; by apply Hfine).
          reflexivity. }
        destruct (IH (removed + 1)
                     (drop_assignment aid
                        (record_call (GraphDeleteAssignment base aid) w)))
          as (w' & Hrun & Hw').
        exists w'. rewrite Hrun. split; [f_equal; f_equal; lia|].
        rewrite Hw'. reflexivity.
      * rewrite decide_False by (by intros [_ ?]). apply IH.
    + rewrite decide_False by (intros [? _]; congruence). apply IH.
Qed.

Lemma removeAllAppRolesFromPrincipalOnSp_follows_links env base p pages :
  (∀ h c, is_list_or_delete c = true → fails env h c = false) →
  Forall (fun page => ListResponse.status page = 200) pages →
  ∀ url fuel removed w,
    pages_from env url pages →
    (length pages ≤ fuel)%nat →
    ∃ w',
      removeAllAppRolesFromPrincipalOnSp_loop env fuel base p url removed w
      = (Ok (removed + N.of_nat (length (to_clear p (listed pages)))), w')
      ∧ assignments w' = without (to_clear p (listed pages)) (assignments w).
Proof.
  intros Hfine. induction 1 as [|page pages Hpage _ IH];
    intros url fuel removed w Hchain Hfuel.
  - inversion Hchain; subst. exists w.
    destruct fuel; cbn; by rewrite N.add_0_r.
  - inversion Hchain as [|url' rest Hurl Hrest]; subst.
    destruct fuel as [|fuel]; [cbn in Hfuel; lia|].
    cbn [removeAllAppRolesFromPrincipalOnSp_loop]. rewrite Hurl. cbn [negb].
    erewrite bind_ok by (apply call_accepted; by apply Hfine).
    rewrite Hpage, N.eqb_refl. cbn [negb].
    destruct (removeAllAppRolesFromPrincipalOnSp_page_run env base p Hfine
                (default [] (ListResponse.value (listing env url))) removed
                (record_call (GraphGet url) w)) as (w1 & Hrun1 & Hw1).
    erewrite bind_ok by exact Hrun1.
    destruct (IH _ fuel
                (removed + N.of_nat (length (to_clear p
                   (default [] (ListResponse.value (listing env url))))))
                w1 Hrest ltac:(cbn in Hfuel; lia)) as (w' & Hrun & Hw').
    exists w'. rewrite Hrun. unfold listed. cbn [map concat].
    unfold to_clear. rewrite filter_app, length_app. split.
    + f_equal. f_equal. lia.
    + rewrite Hw', Hw1. unfold without. by rewrite foldl_app.
Qed.

(** ** Clearing comes before any local write *)

Lemma updateAzureADWithRetry_makes_no_listing env token sp p newRole maxRetries :
  preserves (calls_since (fun c => negb (is_list_or_delete c)))
    (updateAzureADWithRetry env token sp p newRole maxRetries).
Proof.
  unfold updateAzureADWithRetry.
  generalize 1%nat as attempt. generalize maxRetries at 1 as fuel.
  induction fuel as [|fuel IH]; intros attempt;
    cbn [updateAzureADWithRetry_loop]; unfold assignAppRoleToPrincipal;
    preserves_auto;
    first [ by apply calls_since_record | by apply calls_since_same ].
Qed.

Lemma changeUserRole_changes_make_no_listing
    env request currentUser targetUser targetAdId graphToken spId :
  preserves (calls_since (fun c => negb (is_list_or_delete c)))
    (changeUserRole_changes env request currentUser targetUser targetAdId
       graphToken spId).
Proof.
  pose proof (updateAzureADWithRetry_makes_no_listing env) as Hretry.
  unfold changeUserRole_changes, getUserDisplayName, upsertUserRole,
    deleteUserByEmail, logAudit, setUserOffline.
  preserves_auto;
    first [ by apply calls_since_record | by apply calls_since_same ].
Qed.

(** X27.  In every run of [changeUserRole] the calls made split in two:
    first calls among which none writes to the local user table, then
    calls among which none lists or deletes an assignment. *)
Lemma clearing_precedes_local_writes env fuel request currentUser w :
  ∃ before after : list Call,
    history (changeUserRole env fuel request currentUser w).2
    = (history w ++ before ++ after)%list
    ∧ Forall (fun c => is_user_write c = false) before
    ∧ Forall (fun c => is_list_or_delete c = false) after.
Proof.
  assert (∀ c, is_user_write c = false → is_assignment_post c = false →
               negb (is_user_write c) = true) as Hok by (by intros c ->).
  assert (∀ P (l : list Call),
            Forall (fun c => negb (P c) = true) l →
            Forall (fun c => P c = false) l) as Hneg.
  { intros P l Hl. eapply Forall_impl; [exact Hl|]. cbn. intros c Hc.
    by apply negb_true_iff. }
  rewrite changeUserRole_steps. unfold mbind at 1, M_bind at 1.
  destruct (changeUserRole_lookups env request currentUser w)
    as [[[[[targetUser adId] token] spId]|e|] w1] eqn:Hlookups;
    apply (changeUserRole_lookups_calls _ Hok) in Hlookups
      as (l1 & Hh1 & Hl1); apply Hneg in Hl1.
  - unfold mbind at 1, M_bind at 1.
    destruct (removeAllAppRolesFromPrincipalOnSp env fuel token spId adId w1)
      as [[removed|e|] w2] eqn:Hclear;
      apply (removeAllAppRolesFromPrincipalOnSp_calls _ Hok) in Hclear
        as (l2 & Hh2 & Hl2); apply Hneg in Hl2.
    + destruct (changeUserRole_changes env request currentUser targetUser adId
                  token spId w2) as [r w3] eqn:Hchanges.
      apply changeUserRole_changes_make_no_listing in Hchanges
        as (l3 & Hh3 & Hl3). apply Hneg in Hl3.
      exists (l1 ++ l2)%list, l3. cbn [snd]. split_and!.
      * by rewrite Hh3, Hh2, Hh1, <- !app_assoc.
      * by apply Forall_app.
      * done.
    + exists (l1 ++ l2)%list, []. cbn [snd]. split_and!.
      * by rewrite Hh2, Hh1, app_nil_r, <- !app_assoc.
      * by apply Forall_app.
      * done.
    + exists (l1 ++ l2)%list, []. cbn [snd]. split_and!.
      * by rewrite Hh2, Hh1, app_nil_r, <- !app_assoc.
      * by apply Forall_app.
      * done.
  - exists l1, []. cbn [snd]. by rewrite app_nil_r.
  - exists l1, []. cbn [snd]. by rewrite app_nil_r.
Qed.

(** ** Enough fuel *)

Lemma terminates_ret {A} (a : A) : terminates (mret a).
Proof. by intros w. Qed.

Lemma terminates_throw {A} e : terminates (@throw A e).
Proof. by intros w. Qed.

Lemma terminates_guard c : terminates (guard c).
Proof. by destruct c. Qed.

Lemma terminates_get_world : terminates get_world.
Proof. by intros w. Qed.

Lemma terminates_modify f : terminates (modify f).
Proof. by intros w. Qed.

Lemma terminates_call env c : terminates (call env c).
Proof. intros w. unfold call. by destruct (fails _ _ _). Qed.

Lemma terminates_sleep ms : terminates (sleep ms).
Proof. by intros w. Qed.

Lemma terminates_bind {A B} (m : M A) (k : A → M B) :
  terminates m → (∀ a, terminates (k a)) → terminates (m ≫= k).
Proof.
  intros Hm Hk w. specialize (Hm w). unfold mbind, M_bind.
  destruct (m w) as [[a|e|] w1]; [apply Hk | done | done].
Qed.

Lemma terminates_try_catch {A} (m : M A) h :
  terminates m → (∀ e, terminates (h e)) → terminates (try_catch m h).
Proof.
  intros Hm Hh w. specialize (Hm w). unfold try_catch.
  destruct (m w) as [[a|e|] w1]; [done | apply Hh | done].
Qed.

Ltac terminates_step :=
  lazymatch goal with
  | |- terminates (mret _) => apply terminates_ret
  | |- terminates (throw _) => apply terminates_throw
  | |- terminates get_world => apply terminates_get_world
  | |- terminates (guard _) => apply terminates_guard
  | |- terminates (_ ≫= _) => apply terminates_bind; [|intros ?]
  | |- terminates (try_catch _ _) => apply terminates_try_catch; [|intros ?]
  | |- terminates (modify _) => apply terminates_modify
  | |- terminates (call _ _) => apply terminates_call
  | |- terminates (sleep _) => apply terminates_sleep
  | |- terminates (if ?b then _ else _) => destruct b
  | |- terminates (match ?x with _ => _ end) => destruct x
  | |- terminates (let _ := _ in _) => cbv zeta
  end.

Ltac terminates_auto := repeat first [ terminates_step | solve [auto] ].

Lemma removeAllAppRolesFromPrincipalOnSp_page_terminates env base p page :
  ∀ removed,
    terminates (removeAllAppRolesFromPrincipalOnSp_page env base p page removed).
Proof.
  induction page as [|a page IH]; intros removed;
    cbn [removeAllAppRolesFromPrincipalOnSp_page]; unfold axios_delete;
    terminates_auto.
Qed.

(** With fuel for the length of the chain of pages, the clearing returns
    or throws. *)
Lemma removeAllAppRolesFromPrincipalOnSp_loop_terminates env base p pages :
  ∀ url fuel removed,
    pages_from env url pages →
    (length pages ≤ fuel)%nat →
    terminates
      (removeAllAppRolesFromPrincipalOnSp_loop env fuel base p url removed).
Proof.
  induction pages as [|page pages IH]; intros url fuel removed Hchain Hfuel.
  - inversion Hchain; subst. by destruct fuel.
  - inversion Hchain as [|url' rest Hurl Hrest]; subst.
    destruct fuel as [|fuel]; [cbn in Hfuel; lia|].
    cbn [removeAllAppRolesFromPrincipalOnSp_loop]. rewrite Hurl. cbn [negb].
    pose proof (removeAllAppRolesFromPrincipalOnSp_page_terminates env base p)
      as Hpage.
    assert (∀ removed',
      terminates
        (removeAllAppRolesFromPrincipalOnSp_loop env fuel base p
           (default "" (ListResponse.nextLink (listing env url))) removed'))
      as Hnext by (intros; apply IH; [done | cbn in Hfuel; lia]).
    terminates_auto.
Qed.

Lemma updateAzureADWithRetry_terminates env token sp p newRole maxRetries :
  terminates (updateAzureADWithRetry env token sp p newRole maxRetries).
Proof.
  unfold updateAzureADWithRetry.
  generalize 1%nat as attempt. generalize maxRetries at 1 as fuel.
  induction fuel as [|fuel IH]; intros attempt;
    cbn [updateAzureADWithRetry_loop]; unfold assignAppRoleToPrincipal;
    terminates_auto.
Qed.

(** X29.  When every listing is a chain of at most [fuel] pages,
    [changeUserRole] returns or throws. *)
Lemma changeUserRole_terminates env fuel request currentUser :
  (∀ url, ∃ pages, pages_from env url pages ∧ (length pages ≤ fuel)%nat) →
  terminates (changeUserRole env fuel request currentUser).
Proof.
  intros Hchains.
  assert (∀ token sp p,
    terminates (removeAllAppRolesFromPrincipalOnSp env fuel token sp p))
    as Hclear.
  { intros token sp p. unfold removeAllAppRolesFromPrincipalOnSp. cbv zeta.
    destruct (Hchains (("https://graph.microsoft.com/v1.0/servicePrincipals/"
                          +:+ sp +:+ "/appRoleAssignedTo") +:+ "?$top=100"))
      as (pages & Hpages & Hfuel).
    by eapply removeAllAppRolesFromPrincipalOnSp_loop_terminates. }
  pose proof (updateAzureADWithRetry_terminates env) as Hretry.
  unfold changeUserRole, getUserByEmail, validateUserExists, getGraphToken,
    getServicePrincipalObjectId, getUserDisplayName, upsertUserRole,
    deleteUserByEmail, logAudit, setUserOffline.
  terminates_auto.
Qed.

(** * Further properties *)

(** ** What a computation throws *)

Lemma bind_inv_throw {A B} (m : M A) (k : A → M B) w e w' :
  (m ≫= k) w = (Throw e, w') →
  m w = (Throw e, w') ∨ ∃ a w1, m w = (Ok a, w1) ∧ k a w1 = (Throw e, w').
Proof.
  unfold mbind, M_bind. destruct (m w) as [[a|e1|] w1]; intros H;
    [right; eauto | left; by simplify_eq | discriminate].
Qed.

Lemma guard_inv_throw c w e w' :
  guard c w = (Throw e, w') → c = Some e ∧ w' = w.
Proof. destruct c; cbv; intros H; by simplify_eq. Qed.

Section ThrowsOnly.

Context (P : Exn → Prop).

Lemma throws_only_ret {A} (a : A) : throws_only P (mret a).
Proof. intros w e w' H. discriminate. Qed.

Lemma throws_only_throw {A} e : P e → throws_only P (@throw A e).
Proof. intros He w e' w' H. cbv in H. by simplify_eq. Qed.

Lemma throws_only_diverge {A} : throws_only P (@diverge A).
Proof. intros w e w' H. discriminate. Qed.

Lemma throws_only_get_world : throws_only P get_world.
Proof. intros w e w' H. discriminate. Qed.

Lemma throws_only_modify f : throws_only P (modify f).
Proof. intros w e w' H. discriminate. Qed.

Lemma throws_only_sleep ms : throws_only P (sleep ms).
Proof. intros w e w' H. discriminate. Qed.

Lemma throws_only_call env c : P rejected → throws_only P (call env c).
Proof.
  intros Hr w e w'. unfold call. destruct (fails _ _ _); intros H;
    by simplify_eq.
Qed.

Lemma throws_only_bind {A B} (m : M A) (k : A → M B) :
  throws_only P m → (∀ a, throws_only P (k a)) → throws_only P (m ≫= k).
Proof.
  intros Hm Hk w e w' H.
  apply bind_inv_throw in H as [H|(a & w1 & _ & H)]; [by eapply Hm|by eapply Hk].
Qed.

Lemma throws_only_try_catch {A} (m : M A) h :
  (∀ e, throws_only P (h e)) → throws_only P (try_catch m h).
Proof.
  intros Hh w e w'. unfold try_catch.
  destruct (m w) as [[a|e1|] w1]; intros H; [discriminate | | discriminate].
  by eapply Hh.
Qed.

End ThrowsOnly.

Ltac throws_step :=
  lazymatch goal with
  | |- throws_only _ (mret _) => apply throws_only_ret
  | |- throws_only _ (throw _) => apply throws_only_throw
  | |- throws_only _ diverge => apply throws_only_diverge
  | |- throws_only _ get_world => apply throws_only_get_world
  | |- throws_only _ (_ ≫= _) => apply throws_only_bind; [|intros ?]
  | |- throws_only _ (try_catch _ _) => apply throws_only_try_catch; intros ?
  | |- throws_only _ (modify _) => apply throws_only_modify
  | |- throws_only _ (call _ _) => apply throws_only_call
  | |- throws_only _ (sleep _) => apply throws_only_sleep
  | |- throws_only _ (if ?b then _ else _) => destruct b
  | |- throws_only _ (match ?x with _ => _ end) => destruct x
  | |- throws_only _ (let _ := _ in _) => cbv zeta
  end.

Ltac throws_auto := repeat first [ throws_step | solve [auto] ]; try exact I.

Lemma removeAllAppRolesFromPrincipalOnSp_throws_plain env fuel token sp p :
  throws_only is_plain_error
    (removeAllAppRolesFromPrincipalOnSp env fuel token sp p).
Proof.
  assert (∀ base page removed,
    throws_only is_plain_error
      (removeAllAppRolesFromPrincipalOnSp_page env base p page removed))
    as Hpage.
  { intros base. induction page as [|a page IH]; intros removed;
      cbn [removeAllAppRolesFromPrincipalOnSp_page]; throws_auto. }
  unfold removeAllAppRolesFromPrincipalOnSp. cbv zeta.
  generalize 0 as removed.
  generalize (("https://graph.microsoft.com/v1.0/servicePrincipals/" +:+ sp
                 +:+ "/appRoleAssignedTo") +:+ "?$top=100") as url.
  induction fuel as [|fuel IH]; intros url removed;
    cbn [removeAllAppRolesFromPrincipalOnSp_loop]; throws_auto.
Qed.

Lemma updateAzureADWithRetry_never_throws env token sp p newRole maxRetries :
  throws_only (fun _ => False)
    (updateAzureADWithRetry env token sp p newRole maxRetries).
Proof.
  unfold updateAzureADWithRetry.
  generalize 1%nat as attempt. generalize maxRetries at 1 as fuel.
  induction fuel as [|fuel IH]; intros attempt;
    cbn [updateAzureADWithRetry_loop]; throws_auto.
Qed.

Lemma changeUserRole_changes_throw_plain
    env request currentUser targetUser targetAdId graphToken spId :
  throws_only is_plain_error
    (changeUserRole_changes env request currentUser targetUser targetAdId
       graphToken spId).
Proof.
  assert (∀ t s p r m,
    throws_only is_plain_error (updateAzureADWithRetry env t s p r m))
    as Hretry.
  { intros t s p r m w e w' H.
    by apply updateAzureADWithRetry_never_throws in H. }
  unfold changeUserRole_changes, getUserDisplayName, upsertUserRole,
    deleteUserByEmail, logAudit, setUserOffline.
  throws_auto.
Qed.

Lemma validateUserExists_throws env userEmail :
  throws_only
    (fun e => e = Error ("User " +:+ userEmail +:+ " not found in Azure AD"))
    (validateUserExists env userEmail).
Proof. unfold validateUserExists. throws_auto. Qed.

Lemma getGraphToken_throws_plain env :
  throws_only is_plain_error (getGraphToken env).
Proof. unfold getGraphToken. throws_auto. Qed.

Lemma getServicePrincipalObjectId_throws env token clientId :
  throws_only (fun e => e = Error "Error fetching servicePrincipal")
    (getServicePrincipalObjectId env token clientId).
Proof. unfold getServicePrincipalObjectId. throws_auto. Qed.

(** ** Denials *)

Lemma changeUserRole_denial_inv env fuel request currentUser w msg code w' :
  changeUserRole env fuel request currentUser w
    = (Throw (ExpectedError msg code), w') →
  ExpectedError msg code ∈ denials
  ∧ (w' = w
     ∨ w' = record_call
              (DbFindUser (ChangeUserRoleRequest.userEmail request)) w).
Proof.
  intros H. rewrite changeUserRole_steps in H.
  apply bind_inv_throw in H
    as [H|([[[targetUser adId] token] spId] & w1 & _ & H)]; cycle 1.
  { exfalso. revert H.
    match goal with
    | |- ?m w1 = _ → _ =>
        assert (throws_only is_plain_error m) as Hplain
    end.
    { apply throws_only_bind;
        [apply removeAllAppRolesFromPrincipalOnSp_throws_plain|].
      intros _. apply changeUserRole_changes_throw_plain. }
    intros H. by apply Hplain in H. }
  unfold changeUserRole_lookups in H.
  unfold ChangeUserRoleValidationRules.validateNotSelfChange,
    ChangeUserRoleValidationRules.validateSupervisorRoleAssignment in H.
  apply bind_inv_throw in H as [H|([] & w_a & Hself & H)].
  { apply guard_inv_throw in H as [He ->]. split; [|by left].
    case_match; simplify_eq. set_solver. }
  apply guard_inv_ok in Hself as [_ ->].
  apply bind_inv_throw in H as [H|([] & w_b & Hsup & H)].
  { apply guard_inv_throw in H as [He ->]. split; [|by left].
    case_match; simplify_eq. set_solver. }
  apply guard_inv_ok in Hsup as [_ ->].
  apply bind_inv_throw in H as [H|(targetUser & w_c & Hfind & H)].
  { exfalso. unfold getUserByEmail in H.
    apply bind_inv_throw in H as [H|([] & w_x & _ & H)]; [|discriminate].
    unfold call in H. destruct (fails _ _ _); discriminate. }
  assert (w_c = record_call
                  (DbFindUser (ChangeUserRoleRequest.userEmail request)) w)
    as ->.
  { unfold getUserByEmail in Hfind.
    apply bind_inv_ok in Hfind as ([] & w_x & Hcall & Hfind).
    cbv [mbind M_bind get_world mret M_ret] in Hfind.
    unfold call in Hcall. destruct (fails _ _ _); by simplify_eq. }
  apply bind_inv_throw in H as [H|([] & w_d & _ & H)].
  { destruct targetUser as [t|]; [|discriminate].
    unfold ChangeUserRoleValidationRules.validateNotSuperAdminChange,
      ChangeUserRoleValidationRules.validateCallerPermissions,
      ChangeUserRoleValidationRules.validateRoleChange in H.
    apply bind_inv_throw in H as [H|([] & w_x & H1 & H)].
    { apply guard_inv_throw in H as [He ->]. split; [|by right].
      case_match; simplify_eq. set_solver. }
    apply guard_inv_ok in H1 as [H1 ->].
    apply bind_inv_throw in H as [H|([] & w_y & H2 & H)].
    { apply guard_inv_throw in H as [He ->]. split; [|by right].
      repeat case_match; simplify_eq; set_solver. }
    apply guard_inv_ok in H2 as [H2 ->].
    apply guard_inv_throw in H as [He ->]. split; [|by right].
    repeat case_match; simplify_eq; set_solver. }
  exfalso.
  apply bind_inv_throw in H as [H|(ad & w_e & _ & H)].
  { by apply validateUserExists_throws in H. }
  apply bind_inv_throw in H as [H|(tok & w_f & _ & H)].
  { by apply getGraphToken_throws_plain in H. }
  apply bind_inv_throw in H as [H|(sp & w_g & _ & H)].
  { by apply getServicePrincipalObjectId_throws in H. }
  discriminate.
Qed.

(** X1.  When [changeUserRole] throws an [ExpectedError], nothing has
    been written or sent: the world is as it was, but for the lookup of the
    target in the local table, which may have entered the history. *)
Theorem denial_leaves_world_untouched
    env fuel request currentUser w msg code w' :
  changeUserRole env fuel request currentUser w
    = (Throw (ExpectedError msg code), w') →
  w' = w
  ∨ w' = record_call (DbFindUser (ChangeUserRoleRequest.userEmail request)) w.
Proof. intros H. by apply changeUserRole_denial_inv in H as [_ ?]. Qed.

Lemma denial_leaves_world_untouched_witness :
  let w' :=
    (changeUserRole Scenario.env_fine 5
       (Scenario.request "d@x.com" (Some Employee)) Scenario.root
       Scenario.w0).2 in
  w' = Scenario.w0 ∨ w' = record_call (DbFindUser "d@x.com") Scenario.w0.
Proof.
  cbv zeta.
  apply (denial_leaves_world_untouched Scenario.env_fine 5
           (Scenario.request "d@x.com" (Some Employee)) Scenario.root
           Scenario.w0 "User already has this role" 400).
  vm_compute. reflexivity.
Defined.

(** X2.  An [ExpectedError] thrown by [changeUserRole] is one of five:
    own role (400), Supervisor scope (403), SuperAdmin target (400),
    insufficient permissions (403), same role (400).  The 403 that
    [validateCallerPermissions] has for an Admin caller and a SuperAdmin
    target is never the outcome: [validateNotSuperAdminChange] has thrown
    its 400 before. *)
Theorem denial_is_one_of_five env fuel request currentUser w msg code w' :
  changeUserRole env fuel request currentUser w
    = (Throw (ExpectedError msg code), w') →
  ExpectedError msg code ∈ denials
  ∧ ExpectedError msg code
    ≠ ExpectedError ChangeUserRoleMessages.CANNOT_CHANGE_SUPERADMIN 403.
Proof.
  intros H. apply changeUserRole_denial_inv in H as [H _]. split; [done|].
  intros E. rewrite E in H. unfold denials in H.
  repeat (apply elem_of_cons in H as [H|H]; [discriminate|]).
  by apply elem_of_nil in H.
Qed.

Lemma denial_is_one_of_five_witness :
  ExpectedError ChangeUserRoleMessages.CANNOT_CHANGE_SUPERADMIN 400 ∈ denials
  ∧ ExpectedError ChangeUserRoleMessages.CANNOT_CHANGE_SUPERADMIN 400
    ≠ ExpectedError ChangeUserRoleMessages.CANNOT_CHANGE_SUPERADMIN 403.
Proof.
  apply (denial_is_one_of_five Scenario.env_fine 5
           (Scenario.request "root@x.com" (Some Employee)) Scenario.alice
           Scenario.w0 _ _
           (record_call (DbFindUser "root@x.com") Scenario.w0)).
  vm_compute. reflexivity.
Defined.

(** ** The rules on the caller and on the target *)

(** X3.  For a target that has a local row, the three rules that follow
    its lookup all pass exactly when the target is not a SuperAdmin, the
    new role is not the one it has, and the caller is a SuperAdmin, an
    Admin, or a Supervisor asking for Employee.  An Admin may thus ask for
    the role SuperAdmin; a ContactManager or an Employee is never let
    through. *)
Theorem rules_on_existing_target callerRole targetUser newRole :
  (ChangeUserRoleValidationRules.validateNotSuperAdminChange targetUser = None
   ∧ ChangeUserRoleValidationRules.validateCallerPermissions
       callerRole (User.role targetUser) newRole = None
   ∧ ChangeUserRoleValidationRules.validateRoleChange
       (User.role targetUser) newRole = None)
  ↔ (User.role targetUser ≠ SuperAdmin
     ∧ newRole ≠ Some (User.role targetUser)
     ∧ (callerRole = SuperAdmin ∨ callerRole = Admin
        ∨ (callerRole = Supervisor ∧ newRole = Some Employee))).
Proof.
  unfold ChangeUserRoleValidationRules.validateNotSuperAdminChange,
    ChangeUserRoleValidationRules.validateCallerPermissions,
    ChangeUserRoleValidationRules.validateRoleChange, role_eqb, orole_eqb.
  destruct (User.role targetUser), callerRole, newRole as [[]|];
    cbn; intuition (first [congruence | discriminate]).
Qed.

(** X4.  The rules on the caller's permissions run only on a target that
    has a local row.  For a target without one, [changeUserRole] does the
    same whatever the role of the caller, the Supervisor rule apart: two
    callers with the same email and identifier, both let through by that
    rule, get the same result and leave the same world. *)
Theorem absent_target_ignores_caller_role
    env fuel request currentUser otherUser w :
  let userEmail := ChangeUserRoleRequest.userEmail request in
  let newRole := ChangeUserRoleRequest.newRole request in
  users w !! toLowerCase userEmail = None →
  User.email otherUser = User.email currentUser →
  User.id otherUser = User.id currentUser →
  ChangeUserRoleValidationRules.validateSupervisorRoleAssignment
    (User.role currentUser) newRole = None →
  ChangeUserRoleValidationRules.validateSupervisorRoleAssignment
    (User.role otherUser) newRole = None →
  changeUserRole env fuel request currentUser w
  = changeUserRole env fuel request otherUser w.
Proof.
  intros userEmail newRole Habsent Hemail Hid Hsup Hsup'.
  unfold changeUserRole. fold userEmail newRole.
  unfold ChangeUserRoleValidationRules.validateNotSelfChange.
  rewrite Hemail, Hsup, Hsup', Hid.
  destruct (String.eqb (User.email currentUser) userEmail); [done|].
  unfold getUserByEmail, mbind, M_bind. cbn [guard mret M_ret].
  unfold call, get_world.
  destruct (fails env (history w) (DbFindUser userEmail)); [done|].
  cbn [users record_call]. by rewrite Habsent.
Qed.

Lemma absent_target_ignores_caller_role_witness :
  changeUserRole Scenario.env_fine 5 (Scenario.request "new@x.com" (Some Admin))
    Scenario.eve Scenario.w0
  = changeUserRole Scenario.env_fine 5
      (Scenario.request "new@x.com" (Some Admin)) Scenario.eve_as_superadmin
      Scenario.w0.
Proof.
  apply (absent_target_ignores_caller_role Scenario.env_fine 5
           (Scenario.request "new@x.com" (Some Admin)) Scenario.eve
           Scenario.eve_as_superadmin Scenario.w0);
    vm_compute; reflexivity.
Defined.

(** The Employee [e@x.com] gives [new@x.com], who has no local row, the
    role Admin. *)
Lemma employee_creates_admin :
  let run :=
    changeUserRole Scenario.env_fine 5
      (Scenario.request "new@x.com" (Some Admin)) Scenario.eve Scenario.w0 in
  run.1 = Ok (ChangeUserRoleResult.mk
                ChangeUserRoleMessages.ROLE_CHANGED_SUCCESSFULLY SUCCESS
                "new@x.com" None (Some Admin) true false)
  ∧ User.role <$> users run.2 !! "new@x.com" = Some Admin.
Proof. cbv zeta. split_and!; vm_compute; reflexivity. Qed.

(** X5.  [validateImageData] never throws: its test asks for a string
    that is truthy and of length 0, and there is none. *)
Theorem validateImageData_never_throws imageBase64 :
  ContactManagerFormValidationRules.validateImageData imageBase64 = None.
Proof.
  unfold ContactManagerFormValidationRules.validateImageData.
  destruct imageBase64 as [[|c s]|]; reflexivity.
Qed.

(** ** Tokens and directory accounts *)

Lemma try_catch_inv_ok {A} (m : M A) h w (a : A) w' :
  try_catch m h w = (Ok a, w') →
  m w = (Ok a, w') ∨ ∃ e w1, m w = (Throw e, w1) ∧ h e w1 = (Ok a, w').
Proof.
  unfold try_catch. destruct (m w) as [[a1|e|] w1]; intros H;
    [by left | right; eauto | discriminate].
Qed.

(** When [getGraphToken] returns, the configuration is complete, one
    POST has been made, and the token is the [access_token] of the
    answer, which is not empty. *)
Lemma getGraphToken_inv_ok env w token w' :
  getGraphToken env w = (Ok token, w') →
  configured env = true
  ∧ accessToken env = Some token
  ∧ truthy token = true
  ∧ w' = record_call (TokenPost (default "" (azureTenantId env))) w.
Proof.
  unfold getGraphToken, configured. cbv zeta.
  destruct (otruthy (azureTenantId env)), (otruthy (azureClientId env)),
    (otruthy (azureClientSecret env)); cbn [negb orb andb];
    try (intros H; by discriminate).
  unfold try_catch, mbind, M_bind, call.
  destruct (fails _ _ _); [by intros H|].
  destruct (accessToken env) as [t|] eqn:Ht; cbn [otruthy negb];
    [|by intros H].
  destruct (truthy t) eqn:Htruthy; cbn [negb]; [|by intros H].
  cbn. intros [= <- <-]. done.
Qed.

Lemma getGraphToken_unconfigured env w :
  configured env = false →
  getGraphToken env w
  = (Throw (Error
       "Missing Azure AD config: azureTenantId, azureClientId, or azureClientSecret"),
     w).
Proof.
  unfold getGraphToken, configured. cbv zeta.
  by destruct (otruthy (azureTenantId env)), (otruthy (azureClientId env)),
    (otruthy (azureClientSecret env)).
Qed.

(** X6.  Without the tenant, the client identifier or the secret,
    [getGraphToken] throws before sending anything.  When it returns, the
    configuration is complete, one POST has been made, and the token is
    the [access_token] of the answer, which is not empty. *)
Theorem getGraphToken_returns_nonempty_token env w :
  let run := getGraphToken env w in
  (configured env = false →
   run = (Throw (Error
     "Missing Azure AD config: azureTenantId, azureClientId, or azureClientSecret"),
          w))
  ∧ (∀ token, run.1 = Ok token →
       configured env = true
       ∧ accessToken env = Some token
       ∧ truthy token = true
       ∧ run.2 = record_call (TokenPost (default "" (azureTenantId env))) w).
Proof.
  cbv zeta. split; [apply getGraphToken_unconfigured|].
  intros token Hrun.
  destruct (getGraphToken env w) as [r w'] eqn:Hget. cbn in Hrun. subst r.
  by apply getGraphToken_inv_ok in Hget.
Qed.

Lemma validateUserExists_inv_ok env userEmail w adId w' :
  validateUserExists env userEmail w = (Ok adId, w') →
  let before :=
    (history w ++ [TokenPost (default "" (azureTenantId env))])%list in
  (fails env before (GraphGetUser userEmail) = false
   ∧ adId = directoryUser env userEmail)
  ∨ (fails env before (GraphGetUser userEmail) = true
     ∧ ∃ rest, directorySearch env userEmail = Some (adId :: rest)).
Proof.
  intros Hrun. cbv zeta. unfold validateUserExists in Hrun.
  apply try_catch_inv_ok in Hrun as [Hin|(e & w1 & _ & Hin)];
    [|discriminate].
  apply bind_inv_ok in Hin as (token & w2 & Htoken & Hin).
  apply getGraphToken_inv_ok in Htoken as (_ & _ & _ & ->).
  unfold try_catch, mbind, M_bind, call in Hin.
  cbn [history record_call] in Hin.
  destruct (fails env _ (GraphGetUser userEmail)) eqn:Hdirect.
  - right. split; [done|].
    destruct (fails env _ (GraphSearchUser userEmail)); [discriminate|].
    destruct (directorySearch env userEmail) as [[|id rest]|];
      try discriminate.
    cbv [mret M_ret] in Hin. simplify_eq. eauto.
  - left. cbv [mret M_ret] in Hin. by simplify_eq.
Qed.

Lemma validateUserExists_resolves env userEmail w adId w' :
  validateUserExists env userEmail w = (Ok adId, w') →
  resolves_to env userEmail adId.
Proof.
  intros H. apply validateUserExists_inv_ok in H as [[_ ->]|[_ H]];
    [by left|by right].
Qed.

(** X7.  Whatever goes wrong in [validateUserExists] (configuration,
    token, lookup, search), the caller gets one error, which says that the
    user was not found in Azure AD; with an incomplete configuration it is
    thrown before anything is sent.  The identifier returned is the one of
    the direct lookup, or, when that request is rejected, the first one of
    the search by [mail].  Neither the local database nor the directory's
    assignments change. *)
Theorem validateUserExists_outcomes env userEmail w :
  let run := validateUserExists env userEmail w in
  let not_found :=
    Error ("User " +:+ userEmail +:+ " not found in Azure AD") in
  let before := (history w ++ [TokenPost (default "" (azureTenantId env))])%list in
  same_local w run.2 ∧ same_directory w run.2
  ∧ (configured env = false → run = (Throw not_found, w))
  ∧ match run.1 with
    | Ok adId =>
      (fails env before (GraphGetUser userEmail) = false
       ∧ adId = directoryUser env userEmail)
      ∨ (fails env before (GraphGetUser userEmail) = true
         ∧ ∃ rest, directorySearch env userEmail = Some (adId :: rest))
    | Throw e => e = not_found
    | Diverge => False
    end.
Proof.
  cbv zeta.
  destruct (validateUserExists env userEmail w) as [r w'] eqn:Hrun.
  cbn [fst snd]. split_and!.
  - by eapply validateUserExists_local.
  - by eapply validateUserExists_directory.
  - intros Hconf. revert Hrun. unfold validateUserExists.
    erewrite try_catch_throw
      by (erewrite bind_throw by (by apply getGraphToken_unconfigured);
          reflexivity).
    by intros <-.
  - destruct r as [adId|e|].
    + by apply validateUserExists_inv_ok in Hrun.
    + by apply validateUserExists_throws in Hrun.
    + revert Hrun. unfold validateUserExists, getGraphToken, try_catch, mbind,
        M_bind, call. cbv zeta.
      repeat (case_match; simplify_eq; try discriminate).
Qed.

(** ** What a clearing that returns has done *)

Lemma truthy_false s : truthy s = false → s = "".
Proof.
  unfold truthy. intros H. apply negb_false_iff in H.
  by apply String.eqb_eq in H.
Qed.

Lemma axios_delete_inv_ok env collection id w w' :
  axios_delete env collection id w = (Ok tt, w') →
  w' = drop_assignment id (record_call (GraphDeleteAssignment collection id) w).
Proof.
  unfold axios_delete, mbind, M_bind, call.
  destruct (fails _ _ _); [discriminate|]. cbv [modify]. by intros [= <-].
Qed.

Lemma removeAllAppRolesFromPrincipalOnSp_page_inv env base p page :
  ∀ removed w n w',
    removeAllAppRolesFromPrincipalOnSp_page env base p page removed w
      = (Ok n, w') →
    n = removed + N.of_nat (length (to_clear p page))
    ∧ assignments w' = without (to_clear p page) (assignments w).
Proof.
  induction page as [|a page IH]; intros removed w n w' Hrun.
  - cbv [removeAllAppRolesFromPrincipalOnSp_page mret M_ret] in Hrun.
    simplify_eq. cbn. split; [lia|done].
  - cbn [removeAllAppRolesFromPrincipalOnSp_page] in Hrun. unfold to_clear.
    rewrite filter_cons. fold (to_clear p page).
    destruct (otruthy (Assignment.id a)) eqn:Hid; cbn [negb] in Hrun.
    + case_bool_decide as Hp; cbn [negb] in Hrun.
      * rewrite decide_True by done. cbn [length without foldl].
        destruct (Assignment.id a) as [aid|] eqn:Eid; [|done].
        cbn [default from_option Datatypes.id] in Hrun.
        apply bind_inv_ok in Hrun as ([] & w1 & Hdel & Hrun).
        apply try_catch_inv_ok in Hdel as [Hdel|(e & w2 & _ & Hdel)];
          [|discriminate].
        apply axios_delete_inv_ok in Hdel as ->.
        apply IH in Hrun as [-> ->]. split; [lia|reflexivity].
      * rewrite decide_False by (by intros [_ ?]). by apply IH.
    + rewrite decide_False by (intros [? _]; congruence). by apply IH.
Qed.

Lemma removeAllAppRolesFromPrincipalOnSp_loop_inv env base p fuel :
  ∀ url removed w n w',
    removeAllAppRolesFromPrincipalOnSp_loop env fuel base p url removed w
      = (Ok n, w') →
    ∃ pages,
      pages_from env url pages
      ∧ Forall (fun page => ListResponse.status page = 200) pages
      ∧ (length pages ≤ fuel)%nat
      ∧ n = removed + N.of_nat (length (to_clear p (listed pages)))
      ∧ assignments w' = without (to_clear p (listed pages)) (assignments w).
Proof.
  induction fuel as [|fuel IH]; intros url removed w n w' Hrun.
  - cbn [removeAllAppRolesFromPrincipalOnSp_loop] in Hrun.
    destruct (truthy url) eqn:Hurl; cbn [negb] in Hrun; [discriminate|].
    cbv [mret M_ret] in Hrun. simplify_eq. apply truthy_false in Hurl as ->.
    exists []. split_and!; [constructor|constructor|done|cbn; lia|done].
  - cbn [removeAllAppRolesFromPrincipalOnSp_loop] in Hrun.
    destruct (truthy url) eqn:Hurl; cbn [negb] in Hrun.
    + apply bind_inv_ok in Hrun as ([] & w1 & Hget & Hrun).
      unfold call in Hget. destruct (fails _ _ _); [discriminate|].
      injection Hget as <-.
      destruct (ListResponse.status (listing env url) =? 200) eqn:Hst;
        cbn [negb] in Hrun; [|discriminate].
      apply N.eqb_eq in Hst.
      apply bind_inv_ok in Hrun as (n1 & w2 & Hpage & Hrun).
      apply removeAllAppRolesFromPrincipalOnSp_page_inv in Hpage as [-> Hw2].
      apply IH in Hrun as (pages & Hchain & Hall & Hlen & -> & Hw').
      exists (listing env url :: pages). split_and!.
      * by constructor.
      * by constructor.
      * cbn. lia.
      * unfold listed. cbn [map concat]. unfold to_clear.
        rewrite filter_app, length_app. fold (listed pages). lia.
      * rewrite Hw', Hw2. unfold listed. cbn [map concat]. unfold to_clear.
        rewrite filter_app. unfold without. by rewrite foldl_app.
    + cbv [mret M_ret] in Hrun. simplify_eq. apply truthy_false in Hurl as ->.
      exists []. split_and!; [constructor|constructor|cbn; lia|cbn; lia|done].
Qed.

Lemma removeAllAppRolesFromPrincipalOnSp_inv_ok env fuel token sp p w n w' :
  removeAllAppRolesFromPrincipalOnSp env fuel token sp p w = (Ok n, w') →
  ∃ pages,
    pages_from env (appRoleAssignedTo_url sp) pages
    ∧ Forall (fun page => ListResponse.status page = 200) pages
    ∧ (length pages ≤ fuel)%nat
    ∧ n = N.of_nat (length (to_clear p (listed pages)))
    ∧ assignments w' = without (to_clear p (listed pages)) (assignments w).
Proof.
  unfold removeAllAppRolesFromPrincipalOnSp. cbv zeta. intros Hrun.
  apply removeAllAppRolesFromPrincipalOnSp_loop_inv in Hrun
    as (pages & ? & ? & ? & -> & ?).
  exists pages. split_and!; try done.
Qed.

Lemma elem_of_without a gone l :
  a ∈ without gone l ↔
  a ∈ l ∧ ∀ g, g ∈ gone → Assignment.id a ≠ Assignment.id g.
Proof.
  unfold without. revert l. induction gone as [|g gone IH]; intros l.
  - cbn. split; [intros H; split; [done|]; intros g Hg; by inversion Hg|tauto].
  - cbn [foldl]. rewrite IH, list_elem_of_filter. split.
    + intros [[Hne Hin] Hgone]. split; [done|]. intros g' Hg'.
      apply elem_of_cons in Hg' as [->|Hg']; auto.
    + intros [Hin Hgone]. split_and!; [apply Hgone; left|done|].
      intros g' Hg'. apply Hgone. by right.
Qed.

Lemma filter_without (P : Assignment.t → Prop) `{!∀ a, Decision (P a)}
    gone l :
  (∀ g b, g ∈ gone → b ∈ l → P b → Assignment.id b ≠ Assignment.id g) →
  filter P (without gone l) = filter P l.
Proof.
  unfold without. revert l. induction gone as [|g gone IH]; intros l Hgone.
  - done.
  - cbn [foldl]. rewrite IH.
    + clear IH. induction l as [|b l IHl]; [done|].
      rewrite !filter_cons. destruct (decide (P b)) as [Hb|Hb].
      * rewrite decide_True
          by (eapply Hgone; [by left|by left|done]).
        rewrite filter_cons, decide_True by done. f_equal.
        apply IHl. intros g' b' Hg' Hb'. apply Hgone; [done|by right].
      * destruct (decide (Assignment.id b ≠ Assignment.id g)).
        -- rewrite filter_cons, decide_False by done.
           apply IHl. intros g' b' Hg' Hb'. apply Hgone; [done|by right].
        -- apply IHl. intros g' b' Hg' Hb'. apply Hgone; [done|by right].
    + intros g' b Hg' Hb. apply list_elem_of_filter in Hb as [_ Hb].
      apply Hgone; [by right|done].
Qed.

(** X8.  When [removeAllAppRolesFromPrincipalOnSp] returns, the listing
    has been read to its end, page after page along the links, every page
    with status 200; the number returned counts the assignments of the
    principal that the pages show with an identifier; and the directory
    holds what it held, less the assignments with those identifiers. *)
Theorem removeAllAppRolesFromPrincipalOnSp_returns
    env fuel token spObjectId principalId w removed w' :
  removeAllAppRolesFromPrincipalOnSp env fuel token spObjectId principalId w
    = (Ok removed, w') →
  ∃ pages,
    pages_from env (appRoleAssignedTo_url spObjectId) pages
    ∧ Forall (fun page => ListResponse.status page = 200) pages
    ∧ (length pages ≤ fuel)%nat
    ∧ removed = N.of_nat (length (to_clear principalId (listed pages)))
    ∧ assignments w'
      = without (to_clear principalId (listed pages)) (assignments w)
    ∧ same_local w w'.
Proof.
  intros Hrun.
  pose proof (removeAllAppRolesFromPrincipalOnSp_local env fuel token
                spObjectId principalId _ _ _ Hrun) as Hlocal.
  apply removeAllAppRolesFromPrincipalOnSp_inv_ok in Hrun
    as (pages & ? & ? & ? & ? & ?).
  exists pages. by split_and!.
Qed.

Lemma removeAllAppRolesFromPrincipalOnSp_returns_witness :
  ∃ pages,
    pages_from Scenario.env_two_pages (appRoleAssignedTo_url "sp-1") pages
    ∧ Forall (fun page => ListResponse.status page = 200) pages
    ∧ (length pages ≤ 5)%nat
    ∧ 2 = N.of_nat (length (to_clear "ad-dana" (listed pages)))
    ∧ assignments
        (removeAllAppRolesFromPrincipalOnSp Scenario.env_two_pages 5 "token"
           "sp-1" "ad-dana" Scenario.w0).2
      = without (to_clear "ad-dana" (listed pages))
          (assignments Scenario.w0)
    ∧ same_local Scenario.w0
        (removeAllAppRolesFromPrincipalOnSp Scenario.env_two_pages 5 "token"
           "sp-1" "ad-dana" Scenario.w0).2.
Proof.
  apply (removeAllAppRolesFromPrincipalOnSp_returns Scenario.env_two_pages 5
           "token" "sp-1" "ad-dana" Scenario.w0 2).
  vm_compute. reflexivity.
Defined.

Lemma pages_from_inj env url pages1 pages2 :
  pages_from env url pages1 → pages_from env url pages2 → pages1 = pages2.
Proof.
  intros H1. revert pages2.
  induction H1 as [|url rest Hurl _ IH]; intros pages2 H2.
  - inversion H2 as [|url' rest' Hurl']; [done|]. subst. discriminate.
  - inversion H2 as [Hempty|url' rest' Hurl' Hrest']; subst.
    + discriminate.
    + f_equal. by apply IH.
Qed.

Lemma without_shown principalId pages w :
  shows_all_of principalId pages w →
  assignments_of principalId
    (without (to_clear principalId (listed pages)) (assignments w)) = [].
Proof.
  intros Hshows. apply elem_of_nil_inv. intros a Ha.
  unfold assignments_of in Ha. apply list_elem_of_filter in Ha as [Hp Ha].
  apply elem_of_without in Ha as [Ha Hgone].
  destruct (Hshows a Ha Hp) as [Hid Hlisted].
  apply (Hgone a); [|done].
  unfold to_clear. apply list_elem_of_filter. done.
Qed.

Lemma without_others principalId pages w :
  identifiers_agree pages w →
  assignments_of_others principalId
    (without (to_clear principalId (listed pages)) (assignments w))
  = assignments_of_others principalId (assignments w).
Proof.
  intros Hagree. unfold assignments_of_others. apply filter_without.
  intros g b Hg Hb Hother Hid.
  unfold to_clear in Hg. apply list_elem_of_filter in Hg as [[_ Hp] Hg].
  apply Hother. rewrite <- Hp. by apply (Hagree g b).
Qed.

(** X9.  When the pages of the listing show every assignment the
    principal has, each with an identifier, a clearing that returns leaves
    the principal without any assignment. *)
Theorem cleared_principal_has_no_assignment
    env fuel token spObjectId principalId pages w removed w' :
  removeAllAppRolesFromPrincipalOnSp env fuel token spObjectId principalId w
    = (Ok removed, w') →
  pages_from env (appRoleAssignedTo_url spObjectId) pages →
  shows_all_of principalId pages w →
  assignments_of principalId (assignments w') = [].
Proof.
  intros Hrun Hpages Hshows.
  apply removeAllAppRolesFromPrincipalOnSp_inv_ok in Hrun
    as (pages' & Hchain & _ & _ & _ & Hw').
  rewrite (pages_from_inj _ _ _ _ Hchain Hpages) in Hw'.
  rewrite Hw'. by apply without_shown.
Qed.

Lemma cleared_principal_has_no_assignment_witness :
  assignments_of "ad-dana"
    (assignments
       (removeAllAppRolesFromPrincipalOnSp Scenario.env_fine 5 "token"
          "sp-1" "ad-dana" Scenario.w0).2) = [].
Proof.
  apply (cleared_principal_has_no_assignment Scenario.env_fine 5 "token"
           "sp-1" "ad-dana"
           [Scenario.one_page Scenario.granted (appRoleAssignedTo_url "sp-1")]
           Scenario.w0 2).
  - vm_compute. reflexivity.
  - apply (pages_next Scenario.env_fine (appRoleAssignedTo_url "sp-1") []);
      [reflexivity | apply pages_end].
  - intros a Ha _. split.
    + cbn in Ha. repeat (apply elem_of_cons in Ha as [->|Ha]; [reflexivity|]).
      by apply elem_of_nil in Ha.
    + unfold listed, Scenario.one_page.
      cbn [map concat ListResponse.value default from_option].
      rewrite app_nil_r. exact Ha.
Defined.

(** X10.  When the identifiers that the pages of the listing show are, in
    the directory, those of assignments of the same principal, a clearing
    that returns leaves the assignments of every other principal as they
    were. *)
Theorem clearing_spares_other_principals
    env fuel token spObjectId principalId pages w removed w' :
  removeAllAppRolesFromPrincipalOnSp env fuel token spObjectId principalId w
    = (Ok removed, w') →
  pages_from env (appRoleAssignedTo_url spObjectId) pages →
  identifiers_agree pages w →
  assignments_of_others principalId (assignments w')
  = assignments_of_others principalId (assignments w).
Proof.
  intros Hrun Hpages Hagree.
  apply removeAllAppRolesFromPrincipalOnSp_inv_ok in Hrun
    as (pages' & Hchain & _ & _ & _ & Hw').
  rewrite (pages_from_inj _ _ _ _ Hchain Hpages) in Hw'.
  rewrite Hw'. by apply without_others.
Qed.

Lemma clearing_spares_other_principals_witness :
  assignments_of_others "ad-dana"
    (assignments
       (removeAllAppRolesFromPrincipalOnSp Scenario.env_fine 5 "token"
          "sp-1" "ad-dana" Scenario.w0).2)
  = assignments_of_others "ad-dana" (assignments Scenario.w0).
Proof.
  apply (clearing_spares_other_principals Scenario.env_fine 5 "token"
           "sp-1" "ad-dana"
           [Scenario.one_page Scenario.granted (appRoleAssignedTo_url "sp-1")]
           Scenario.w0 2).
  - vm_compute. reflexivity.
  - apply (pages_next Scenario.env_fine (appRoleAssignedTo_url "sp-1") []);
      [reflexivity | apply pages_end].
  - intros a b Ha Hb Hid. unfold listed, Scenario.one_page in Ha.
    cbn [map concat ListResponse.value default from_option] in Ha.
    rewrite app_nil_r in Ha. cbn in Ha, Hb.
    repeat (apply elem_of_cons in Ha as [->|Ha]);
      try (by apply elem_of_nil in Ha);
      repeat (apply elem_of_cons in Hb as [->|Hb]);
      try (by apply elem_of_nil in Hb); try reflexivity; discriminate Hid.
Defined.


(** ** What the retries do to the directory *)

Lemma updateAzureADWithRetry_loop_effect env token sp p roleId maxRetries :
  ∀ fuel attempt w r w',
    updateAzureADWithRetry_loop env fuel token sp p roleId maxRetries attempt w
      = (r, w') →
    (r = Ok AzureADRetryStatus.SUCCESS
     ∧ ∃ new, created p roleId new
              ∧ assignments w' = (assignments w ++ new)%list)
    ∨ (r = Ok AzureADRetryStatus.MAX_RETRIES_EXCEEDED
       ∧ assignments w' = assignments w).
Proof.
  induction fuel as [|fuel IH]; intros attempt w r w' Hrun.
  - cbv [updateAzureADWithRetry_loop mret M_ret] in Hrun. simplify_eq.
    by right.
  - cbn [updateAzureADWithRetry_loop] in Hrun.
    destruct (attempt <=? maxRetries)%nat; cbn [negb] in Hrun;
      [|cbv [mret M_ret] in Hrun; simplify_eq; by right].
    destruct (fails env (history w) (GraphPostAssignment sp p roleId)) eqn:Hf.
    + erewrite try_catch_throw in Hrun; cycle 1.
      { erewrite bind_throw by (by apply assignAppRoleToPrincipal_rejected).
        reflexivity. }
      destruct (attempt =? maxRetries)%nat.
      * cbv [mret M_ret] in Hrun. simplify_eq. by right.
      * unfold mbind, M_bind in Hrun. cbn [sleep] in Hrun.
        apply IH in Hrun. exact Hrun.
    + erewrite try_catch_ok in Hrun; cycle 1.
      { erewrite bind_ok by (by apply assignAppRoleToPrincipal_accepted).
        reflexivity. }
      simplify_eq. left. split; [done|].
      eexists. split; [by eexists|]. reflexivity.
Qed.

(** X11.  [updateAzureADWithRetry] always returns, and never the status
    FAILED.  With SUCCESS the directory has gained exactly one assignment,
    of the principal, with the [appRoleId] that [roleIdMap] has for the
    role; with MAX_RETRIES_EXCEEDED the directory's assignments are as
    they were.  The local database is untouched either way. *)
Theorem updateAzureADWithRetry_adds_one_or_none
    env token sp p newRole maxRetries w :
  let roleId := mjoin (roleIdMap env !! roleName newRole) in
  let (r, w') := updateAzureADWithRetry env token sp p newRole maxRetries w in
  same_local w w'
  ∧ ((r = Ok AzureADRetryStatus.SUCCESS
      ∧ ∃ new, created p roleId new
               ∧ assignments w' = (assignments w ++ new)%list)
     ∨ (r = Ok AzureADRetryStatus.MAX_RETRIES_EXCEEDED
        ∧ assignments w' = assignments w)).
Proof.
  cbv zeta.
  destruct (updateAzureADWithRetry env token sp p newRole maxRetries w)
    as [r w'] eqn:Hrun.
  split; [by eapply updateAzureADWithRetry_local|].
  unfold updateAzureADWithRetry in Hrun.
  by apply updateAzureADWithRetry_loop_effect in Hrun.
Qed.


(** ** What [changeUserRole] leaves behind *)

Lemma preserves_weaken {A} (P Q : relation World) (m : M A) :
  (∀ w w', P w w' → Q w w') → preserves P m → preserves Q m.
Proof. intros HPQ Hm w r w' Hrun. apply HPQ. by eapply Hm. Qed.

#[global] Instance same_other_rows_preorder email :
  PreOrder (same_other_rows email).
Proof.
  split; [by intros w k _|].
  intros w1 w2 w3 H12 H23 k Hk. by rewrite H23, H12.
Qed.

Lemma same_local_other_rows email w w' :
  same_local w w' → same_other_rows email w w'.
Proof. intros (Hu & _) k _. by rewrite Hu. Qed.

Lemma upsertUserRole_other_rows env email adId fullName role :
  preserves (same_other_rows email)
    (upsertUserRole env email adId fullName role).
Proof.
  intros w r w' Hrun k Hk.
  destruct (fails env (history w) (DbUpsertUser email adId fullName role))
    eqn:Hf.
  - rewrite upsertUserRole_rejected in Hrun by done. by simplify_eq.
  - rewrite upsertUserRole_accepted in Hrun by done. simplify_eq. cbn.
    by rewrite lookup_insert_ne by done.
Qed.

Lemma changeUserRole_changes_other_rows
    env request currentUser targetUser targetAdId graphToken spId :
  preserves (same_other_rows (ChangeUserRoleRequest.userEmail request))
    (changeUserRole_changes env request currentUser targetUser targetAdId
       graphToken spId).
Proof.
  assert (∀ t s p r m,
    preserves (same_other_rows (ChangeUserRoleRequest.userEmail request))
      (updateAzureADWithRetry env t s p r m)) as Hretry.
  { intros. eapply preserves_weaken;
      [apply same_local_other_rows | apply updateAzureADWithRetry_local]. }
  pose proof (upsertUserRole_other_rows env
                (ChangeUserRoleRequest.userEmail request)) as Hupsert.
  unfold changeUserRole_changes, getUserDisplayName,
    deleteUserByEmail, logAudit, setUserOffline.
  preserves_auto; intros k Hk; cbn; try done;
    by rewrite ?lookup_delete_ne by done.
Qed.

Lemma changeUserRole_staged_other_rows env fuel request currentUser :
  preserves (same_other_rows (ChangeUserRoleRequest.userEmail request))
    ('(targetUser, targetAdId, graphToken, spId) ←
       changeUserRole_lookups env request currentUser;
     removeAllAppRolesFromPrincipalOnSp env fuel graphToken spId targetAdId;;
     changeUserRole_changes env request currentUser targetUser targetAdId
       graphToken spId).
Proof.
  apply (preserves_bind (same_other_rows _)).
  - eapply preserves_weaken;
      [apply same_local_other_rows | apply changeUserRole_lookups_local].
  - intros [[[targetUser targetAdId] graphToken] spId].
    apply (preserves_bind (same_other_rows _)).
    + eapply preserves_weaken;
        [apply same_local_other_rows
        |apply removeAllAppRolesFromPrincipalOnSp_local].
    + intros _. apply changeUserRole_changes_other_rows.
Qed.

(** X12.  Whatever a run of [changeUserRole] returns or throws, the rows
    of the local user table other than the one of the requested email are
    as they were. *)
Theorem changeUserRole_touches_one_row env fuel request currentUser w :
  same_other_rows (ChangeUserRoleRequest.userEmail request) w
    (changeUserRole env fuel request currentUser w).2.
Proof.
  destruct (changeUserRole env fuel request currentUser w) as [r w'] eqn:Hrun.
  rewrite changeUserRole_steps in Hrun.
  by eapply changeUserRole_staged_other_rows.
Qed.

Lemma getUserDisplayName_directory env adId token :
  preserves same_directory (getUserDisplayName env adId token).
Proof. unfold getUserDisplayName. preserves_auto; done. Qed.

Lemma upsertUserRole_directory env email adId fullName role :
  preserves same_directory (upsertUserRole env email adId fullName role).
Proof. unfold upsertUserRole. preserves_auto; done. Qed.

Lemma deleteUserByEmail_directory env email :
  preserves same_directory (deleteUserByEmail env email).
Proof. unfold deleteUserByEmail. preserves_auto; done. Qed.

Lemma logAudit_directory env entry :
  preserves same_directory (logAudit env entry).
Proof. unfold logAudit. preserves_auto; done. Qed.

Lemma setUserOffline_directory env email :
  preserves same_directory (setUserOffline env email).
Proof. unfold setUserOffline. preserves_auto; done. Qed.

Lemma logAudit_users env entry w r w' :
  logAudit env entry w = (r, w') → users w' = users w.
Proof.
  assert (preserves (fun w w' => users w' = users w) (logAudit env entry))
    as H; [|apply H].
  unfold logAudit.
  assert (PreOrder (fun w w' : World => users w' = users w)).
  { split; [done|]. intros w1 w2 w3 H12 H23. congruence. }
  preserves_auto; done.
Qed.

Lemma setUserOffline_users env email w r w' :
  setUserOffline env email w = (r, w') → users w' = users w.
Proof.
  assert (preserves (fun w w' => users w' = users w) (setUserOffline env email))
    as H; [|apply H].
  unfold setUserOffline.
  assert (PreOrder (fun w w' : World => users w' = users w)).
  { split; [done|]. intros w1 w2 w3 H12 H23. congruence. }
  preserves_auto; done.
Qed.

(** What the changes that follow the clearing have done when they
    return. *)
Lemma changeUserRole_changes_inv_ok
    env request currentUser targetUser targetAdId graphToken spId w2
    result w' :
  changeUserRole_changes env request currentUser targetUser targetAdId
    graphToken spId w2 = (Ok result, w') →
  let userEmail := ChangeUserRoleRequest.userEmail request in
  let key := toLowerCase userEmail in
  match ChangeUserRoleRequest.newRole request with
  | None =>
    result = ChangeUserRoleResult.mk
               ChangeUserRoleMessages.USER_DELETED_SUCCESSFULLY SUCCESS
               userEmail (User.role <$> targetUser) None true false
    ∧ users w' = match targetUser with
                 | Some _ => delete key (users w2)
                 | None => users w2
                 end
    ∧ assignments w' = assignments w2
  | Some r =>
    (result = ChangeUserRoleResult.mk
                ChangeUserRoleMessages.ROLE_CHANGED_SUCCESSFULLY SUCCESS
                userEmail (User.role <$> targetUser) (Some r) true false
     ∧ User.role <$> users w' !! key = Some r
     ∧ ∃ new, created targetAdId (mjoin (roleIdMap env !! roleName r)) new
              ∧ assignments w' = (assignments w2 ++ new)%list)
    ∨ (result = ChangeUserRoleResult.mk
                  ChangeUserRoleMessages.AZURE_AD_UPDATE_FAILED
                  ROLLBACK_REQUIRED
                  userEmail (User.role <$> targetUser) (Some r) false true
       ∧ User.role <$> users w' !! key = User.role <$> targetUser
       ∧ assignments w' = assignments w2)
  end.
Proof.
  intros Hrun userEmail key. unfold changeUserRole_changes in Hrun.
  fold userEmail in Hrun.
  destruct (ChangeUserRoleRequest.newRole request) as [r|].
  - apply bind_inv_ok in Hrun as (displayName & w3 & Hname & Hrun).
    apply bind_inv_ok in Hrun as (updatedUser & w4 & Hupsert & Hrun).
    apply bind_inv_ok in Hrun as (azureADResult & w5 & Hretry & Hrun).
    pose proof (getUserDisplayName_directory _ _ _ _ _ _ Hname) as Hd3.
    pose proof (upsertUserRole_directory _ _ _ _ _ _ _ _ Hupsert) as Hd4.
    apply upsertUserRole_inv_ok in Hupsert as (Hu4 & Hrole4 & _ & _).
    pose proof (updateAzureADWithRetry_local _ _ _ _ _ _ _ _ _ Hretry)
      as (Hu5 & _ & _).
    unfold updateAzureADWithRetry in Hretry.
    apply updateAzureADWithRetry_loop_effect in Hretry
      as [([= ->] & new & Hnew & Hd5)|([= ->] & Hd5)].
    + left.
      apply bind_inv_ok in Hrun as ([] & w6 & Haudit & Hrun).
      apply bind_inv_ok in Hrun as ([] & w7 & Hoff & Hrun).
      cbv [mret M_ret] in Hrun. injection Hrun as <- <-.
      pose proof (logAudit_directory _ _ _ _ _ Haudit) as Hd6.
      pose proof (setUserOffline_directory _ _ _ _ _ Hoff) as Hd7.
      apply logAudit_users in Haudit. apply setUserOffline_users in Hoff.
      unfold same_directory in *. split_and!.
      * done.
      * rewrite Hoff, Haudit, Hu5, Hu4. fold key.
        rewrite lookup_insert_eq. cbn. by rewrite Hrole4.
      * exists new. split; [done|]. congruence.
    + right.
      apply bind_inv_ok in Hrun as ([] & w6 & Hback & Hrun).
      cbv [mret M_ret] in Hrun. injection Hrun as <- <-.
      unfold same_directory in *.
      destruct targetUser as [t|].
      * apply bind_inv_ok in Hback as (u & w_a & Hback & Hret).
        cbv [mret M_ret] in Hret. injection Hret as <-.
        pose proof (upsertUserRole_directory _ _ _ _ _ _ _ _ Hback) as Hd6.
        apply upsertUserRole_inv_ok in Hback as (Hu6 & Hrole6 & _ & _).
        unfold same_directory in *. split_and!.
        -- done.
        -- rewrite Hu6. fold key. rewrite lookup_insert_eq. cbn.
           by rewrite Hrole6.
        -- congruence.
      * apply deleteUserByEmail_inv_ok in Hback as ->. split_and!.
        -- done.
        -- cbn. fold key. by rewrite lookup_delete_eq.
        -- cbn. congruence.
  - apply bind_inv_ok in Hrun as ([] & w3 & Hdelete & Hrun).
    cbv [mret M_ret] in Hrun. injection Hrun as <- <-.
    destruct targetUser as [t|].
    + apply bind_inv_ok in Hdelete as ([] & w_a & Hdelete & Haudit).
      apply deleteUserByEmail_inv_ok in Hdelete as ->.
      apply logAudit_inv_ok in Haudit as ->. by split_and!.
    + cbv [mret M_ret] in Hdelete. by simplify_eq.
Qed.

(** What a run of [changeUserRole] that returns has done: its lookups
    returned, it read the listing to its end, and its changes were made
    on the cleared directory. *)
Lemma changeUserRole_inv_ok env fuel request currentUser w result w' :
  changeUserRole env fuel request currentUser w = (Ok result, w') →
  let userEmail := ChangeUserRoleRequest.userEmail request in
  let key := toLowerCase userEmail in
  let previous := users w !! key in
  ∃ targetAdId graphToken spId w1 pages,
    changeUserRole_lookups env request currentUser w
      = (Ok (previous, targetAdId, graphToken, spId), w1)
    ∧ pages_from env (appRoleAssignedTo_url spId) pages
    ∧ let cleared :=
        without (to_clear targetAdId (listed pages)) (assignments w) in
      match ChangeUserRoleRequest.newRole request with
      | None =>
        result = ChangeUserRoleResult.mk
                   ChangeUserRoleMessages.USER_DELETED_SUCCESSFULLY SUCCESS
                   userEmail (User.role <$> previous) None true false
        ∧ users w' !! key = None
        ∧ assignments w' = cleared
      | Some r =>
        (result = ChangeUserRoleResult.mk
                    ChangeUserRoleMessages.ROLE_CHANGED_SUCCESSFULLY SUCCESS
                    userEmail (User.role <$> previous) (Some r) true false
         ∧ User.role <$> users w' !! key = Some r
         ∧ ∃ new, created targetAdId (mjoin (roleIdMap env !! roleName r)) new
                  ∧ assignments w' = (cleared ++ new)%list)
        ∨ (result = ChangeUserRoleResult.mk
                      ChangeUserRoleMessages.AZURE_AD_UPDATE_FAILED
                      ROLLBACK_REQUIRED
                      userEmail (User.role <$> previous) (Some r) false true
           ∧ User.role <$> users w' !! key = User.role <$> previous
           ∧ assignments w' = cleared)
      end.
Proof.
  intros Hrun userEmail key previous.
  rewrite changeUserRole_steps in Hrun.
  apply bind_inv_ok in Hrun
    as ([[[targetUser adId] token] spId] & w1 & Hlookups & Hrun).
  apply bind_inv_ok in Hrun as (removed & w2 & Hclear & Hrun).
  pose proof (changeUserRole_lookups_inv _ _ _ _ _ _ _ _ _ Hlookups)
    as (Htarget & _ & _ & _ & (Hu1 & _) & Hd1).
  fold userEmail key previous in Htarget. subst targetUser.
  pose proof (removeAllAppRolesFromPrincipalOnSp_local _ _ _ _ _ _ _ _ Hclear)
    as (Hu2 & _).
  apply removeAllAppRolesFromPrincipalOnSp_inv_ok in Hclear
    as (pages & Hpages & _ & _ & _ & Hd2).
  unfold same_directory in Hd1. rewrite Hd1 in Hd2.
  apply changeUserRole_changes_inv_ok in Hrun. cbv zeta in Hrun.
  fold userEmail key in Hrun.
  exists adId, token, spId, w1, pages. split_and!; [done|done|]. cbv zeta.
  destruct (ChangeUserRoleRequest.newRole request) as [r|].
  - by rewrite Hd2 in Hrun.
  - destruct Hrun as (-> & Hu & Hd). split_and!; [done| |congruence].
    rewrite Hu. destruct previous eqn:Hprev.
    + by rewrite lookup_delete_eq.
    + rewrite Hu2, Hu1. exact Hprev.
Qed.


(** X13.  A result that [changeUserRole] returns is one of three: the
    removal, the committed change, or the rollback, each with its
    message, the requested email and role, and the role of the row the
    target had.  The status FAILED is never returned, and
    [azureADUpdated] is true exactly when [rollbackRequired] is false. *)
Theorem changeUserRole_result_is_one_of_three
    env fuel request currentUser w result w' :
  changeUserRole env fuel request currentUser w = (Ok result, w') →
  let userEmail := ChangeUserRoleRequest.userEmail request in
  let newRole := ChangeUserRoleRequest.newRole request in
  let previousRole := User.role <$> users w !! toLowerCase userEmail in
  (newRole = None
   ∧ result = ChangeUserRoleResult.mk
                ChangeUserRoleMessages.USER_DELETED_SUCCESSFULLY SUCCESS
                userEmail previousRole None true false)
  ∨ (newRole ≠ None
     ∧ result = ChangeUserRoleResult.mk
                  ChangeUserRoleMessages.ROLE_CHANGED_SUCCESSFULLY SUCCESS
                  userEmail previousRole newRole true false)
  ∨ (newRole ≠ None
     ∧ result = ChangeUserRoleResult.mk
                  ChangeUserRoleMessages.AZURE_AD_UPDATE_FAILED
                  ROLLBACK_REQUIRED
                  userEmail previousRole newRole false true).
Proof.
  intros Hrun userEmail newRole previousRole.
  apply changeUserRole_inv_ok in Hrun
    as (adId & token & spId & w1 & pages & _ & _ & Hrun).
  cbv zeta in Hrun. fold userEmail newRole previousRole in Hrun.
  destruct newRole as [r|].
  - destruct Hrun as [(-> & _)|(-> & _)]; [right; left|right; right]; done.
  - destruct Hrun as (-> & _). by left.
Qed.

Lemma changeUserRole_result_is_one_of_three_witness :
  let result :=
    ChangeUserRoleResult.mk
      ChangeUserRoleMessages.AZURE_AD_UPDATE_FAILED ROLLBACK_REQUIRED
      "d@x.com" (Some Employee) (Some Admin) false true in
  (Some Admin = None
   ∧ result = ChangeUserRoleResult.mk
                ChangeUserRoleMessages.USER_DELETED_SUCCESSFULLY SUCCESS
                "d@x.com"
                (User.role <$> users Scenario.w0 !! toLowerCase "d@x.com")
                None true false)
  ∨ (Some Admin ≠ None
     ∧ result = ChangeUserRoleResult.mk
                  ChangeUserRoleMessages.ROLE_CHANGED_SUCCESSFULLY SUCCESS
                  "d@x.com"
                  (User.role <$> users Scenario.w0 !! toLowerCase "d@x.com")
                  (Some Admin) true false)
  ∨ (Some Admin ≠ None
     ∧ result = ChangeUserRoleResult.mk
                  ChangeUserRoleMessages.AZURE_AD_UPDATE_FAILED
                  ROLLBACK_REQUIRED
                  "d@x.com"
                  (User.role <$> users Scenario.w0 !! toLowerCase "d@x.com")
                  (Some Admin) false true).
Proof.
  cbv zeta.
  apply (changeUserRole_result_is_one_of_three Scenario.env_posts_rejected 5
           (Scenario.request "d@x.com" (Some Admin)) Scenario.root Scenario.w0
           _
           (changeUserRole Scenario.env_posts_rejected 5
              (Scenario.request "d@x.com" (Some Admin)) Scenario.root
              Scenario.w0).2).
  vm_compute. reflexivity.
Defined.

Lemma assignments_of_created principalId appRoleId new :
  created principalId appRoleId new →
  assignments_of principalId new = new
  ∧ assignments_of_others principalId new = [].
Proof.
  intros [id ->]. unfold assignments_of, assignments_of_others.
  rewrite !filter_cons, !filter_nil. cbn [Assignment.principalId].
  rewrite decide_True by done. by rewrite decide_False by (by intros H).
Qed.

(** X14.  A committed change converges: when the pages of the listing
    show every assignment the target's account has, then after a result
    with status SUCCESS for a role, the local row of the target has that
    role, and the account has exactly one assignment in the directory,
    with the [appRoleId] that [roleIdMap] has for the role. *)
Theorem commit_leaves_one_assignment
    env fuel request currentUser w result w' newRole
    targetUser targetAdId graphToken spId w1 pages :
  changeUserRole env fuel request currentUser w = (Ok result, w') →
  ChangeUserRoleRequest.newRole request = Some newRole →
  ChangeUserRoleResult.status result = SUCCESS →
  changeUserRole_lookups env request currentUser w
    = (Ok (targetUser, targetAdId, graphToken, spId), w1) →
  pages_from env (appRoleAssignedTo_url spId) pages →
  shows_all_of targetAdId pages w →
  User.role <$> users w'
                  !! toLowerCase (ChangeUserRoleRequest.userEmail request)
    = Some newRole
  ∧ created targetAdId (mjoin (roleIdMap env !! roleName newRole))
      (assignments_of targetAdId (assignments w')).
Proof.
  intros Hrun Hrole Hstatus Hlookups Hpages Hshows.
  apply changeUserRole_inv_ok in Hrun
    as (adId & token & sp & w1' & pages' & Hlookups' & Hpages' & Hrun).
  rewrite Hlookups in Hlookups'. simplify_eq.
  rewrite (pages_from_inj _ _ _ _ Hpages' Hpages) in Hrun.
  cbv zeta in Hrun. rewrite Hrole in Hrun.
  destruct Hrun as [(_ & Hu & new & Hnew & Hd)|(-> & _)]; [|discriminate].
  split; [done|]. rewrite Hd. unfold assignments_of. rewrite filter_app.
  fold (assignments_of adId (assignments w)). 
  change (filter _ (without ?g ?l)) with (assignments_of adId (without g l)).
  change (filter _ new) with (assignments_of adId new).
  rewrite without_shown by done.
  by rewrite (proj1 (assignments_of_created _ _ _ Hnew)).
Qed.

Lemma commit_leaves_one_assignment_witness :
  let w' := (changeUserRole Scenario.env_fine 5
               (Scenario.request "d@x.com" (Some Admin)) Scenario.root
               Scenario.w0).2 in
  User.role <$> users w' !! toLowerCase "d@x.com" = Some Admin
  ∧ created "ad-dana" (mjoin (roleIdMap Scenario.env_fine !! roleName Admin))
      (assignments_of "ad-dana" (assignments w')).
Proof.
  cbv zeta.
  apply (commit_leaves_one_assignment Scenario.env_fine 5
           (Scenario.request "d@x.com" (Some Admin)) Scenario.root Scenario.w0
           (ChangeUserRoleResult.mk
              ChangeUserRoleMessages.ROLE_CHANGED_SUCCESSFULLY SUCCESS
              "d@x.com" (Some Employee) (Some Admin) true false)
           _ Admin (Some Scenario.dana) "ad-dana" "token" "sp-1"
           (changeUserRole_lookups Scenario.env_fine
              (Scenario.request "d@x.com" (Some Admin)) Scenario.root
              Scenario.w0).2
           [Scenario.one_page Scenario.granted (appRoleAssignedTo_url "sp-1")]).
  - vm_compute. reflexivity.
  - reflexivity.
  - reflexivity.
  - vm_compute. reflexivity.
  - apply (pages_next Scenario.env_fine (appRoleAssignedTo_url "sp-1") []);
      [reflexivity | apply pages_end].
  - intros a Ha _. split.
    + cbn in Ha. repeat (apply elem_of_cons in Ha as [->|Ha]; [reflexivity|]).
      by apply elem_of_nil in Ha.
    + unfold listed, Scenario.one_page.
      cbn [map concat ListResponse.value default from_option].
      rewrite app_nil_r. exact Ha.
Defined.

(** X15.  A rollback does not restore the directory: when the pages of
    the listing show every assignment the target's account has, then
    after a result with status ROLLBACK_REQUIRED the local row of the
    target has the role it had, and the account has no assignment left in
    the directory. *)
Theorem rollback_leaves_directory_cleared
    env fuel request currentUser w result w'
    targetUser targetAdId graphToken spId w1 pages :
  changeUserRole env fuel request currentUser w = (Ok result, w') →
  ChangeUserRoleResult.status result = ROLLBACK_REQUIRED →
  changeUserRole_lookups env request currentUser w
    = (Ok (targetUser, targetAdId, graphToken, spId), w1) →
  pages_from env (appRoleAssignedTo_url spId) pages →
  shows_all_of targetAdId pages w →
  let key := toLowerCase (ChangeUserRoleRequest.userEmail request) in
  User.role <$> users w' !! key = User.role <$> users w !! key
  ∧ assignments_of targetAdId (assignments w') = [].
Proof.
  intros Hrun Hstatus Hlookups Hpages Hshows key.
  apply changeUserRole_inv_ok in Hrun
    as (adId & token & sp & w1' & pages' & Hlookups' & Hpages' & Hrun).
  rewrite Hlookups in Hlookups'. simplify_eq.
  rewrite (pages_from_inj _ _ _ _ Hpages' Hpages) in Hrun.
  cbv zeta in Hrun.
  destruct (ChangeUserRoleRequest.newRole request) as [r|].
  - destruct Hrun as [(-> & _)|(_ & Hu & Hd)]; [discriminate|].
    split; [done|]. rewrite Hd. by apply without_shown.
  - destruct Hrun as (-> & _). discriminate.
Qed.

Lemma rollback_leaves_directory_cleared_witness :
  let w' := (changeUserRole Scenario.env_posts_rejected 5
               (Scenario.request "d@x.com" (Some Admin)) Scenario.root
               Scenario.w0).2 in
  User.role <$> users w' !! toLowerCase "d@x.com"
    = User.role <$> users Scenario.w0 !! toLowerCase "d@x.com"
  ∧ assignments_of "ad-dana" (assignments w') = [].
Proof.
  cbv zeta.
  apply (rollback_leaves_directory_cleared Scenario.env_posts_rejected 5
           (Scenario.request "d@x.com" (Some Admin)) Scenario.root Scenario.w0
           (ChangeUserRoleResult.mk
              ChangeUserRoleMessages.AZURE_AD_UPDATE_FAILED ROLLBACK_REQUIRED
              "d@x.com" (Some Employee) (Some Admin) false true)
           _ (Some Scenario.dana) "ad-dana" "token" "sp-1"
           (changeUserRole_lookups Scenario.env_posts_rejected
              (Scenario.request "d@x.com" (Some Admin)) Scenario.root
              Scenario.w0).2
           [Scenario.one_page Scenario.granted (appRoleAssignedTo_url "sp-1")]).
  - vm_compute. reflexivity.
  - reflexivity.
  - vm_compute. reflexivity.
  - apply (pages_next Scenario.env_posts_rejected
             (appRoleAssignedTo_url "sp-1") []);
      [reflexivity | apply pages_end].
  - intros a Ha _. split.
    + cbn in Ha. repeat (apply elem_of_cons in Ha as [->|Ha]; [reflexivity|]).
      by apply elem_of_nil in Ha.
    + unfold listed, Scenario.one_page.
      cbn [map concat ListResponse.value default from_option].
      rewrite app_nil_r. exact Ha.
Defined.

(** X16.  A removal that returns leaves nothing of the target: no row in
    the local user table and, when the pages of the listing show every
    assignment its account has, no assignment in the directory. *)
Theorem removal_leaves_no_row_and_no_assignment
    env fuel request currentUser w result w'
    targetUser targetAdId graphToken spId w1 pages :
  changeUserRole env fuel request currentUser w = (Ok result, w') →
  ChangeUserRoleRequest.newRole request = None →
  changeUserRole_lookups env request currentUser w
    = (Ok (targetUser, targetAdId, graphToken, spId), w1) →
  pages_from env (appRoleAssignedTo_url spId) pages →
  shows_all_of targetAdId pages w →
  users w' !! toLowerCase (ChangeUserRoleRequest.userEmail request) = None
  ∧ assignments_of targetAdId (assignments w') = [].
Proof.
  intros Hrun Hrole Hlookups Hpages Hshows.
  apply changeUserRole_inv_ok in Hrun
    as (adId & token & sp & w1' & pages' & Hlookups' & Hpages' & Hrun).
  rewrite Hlookups in Hlookups'. simplify_eq.
  rewrite (pages_from_inj _ _ _ _ Hpages' Hpages) in Hrun.
  cbv zeta in Hrun. rewrite Hrole in Hrun.
  destruct Hrun as (_ & Hu & Hd). split; [done|].
  rewrite Hd. by apply without_shown.
Qed.

Lemma removal_leaves_no_row_and_no_assignment_witness :
  let w' := (changeUserRole Scenario.env_fine 5
               (Scenario.request "d@x.com" None) Scenario.root
               Scenario.w0).2 in
  users w' !! toLowerCase "d@x.com" = None
  ∧ assignments_of "ad-dana" (assignments w') = [].
Proof.
  cbv zeta.
  apply (removal_leaves_no_row_and_no_assignment Scenario.env_fine 5
           (Scenario.request "d@x.com" None) Scenario.root Scenario.w0
           (ChangeUserRoleResult.mk
              ChangeUserRoleMessages.USER_DELETED_SUCCESSFULLY SUCCESS
              "d@x.com" (Some Employee) None true false)
           _ (Some Scenario.dana) "ad-dana" "token" "sp-1"
           (changeUserRole_lookups Scenario.env_fine
              (Scenario.request "d@x.com" None) Scenario.root
              Scenario.w0).2
           [Scenario.one_page Scenario.granted (appRoleAssignedTo_url "sp-1")]).
  - vm_compute. reflexivity.
  - reflexivity.
  - vm_compute. reflexivity.
  - apply (pages_next Scenario.env_fine (appRoleAssignedTo_url "sp-1") []);
      [reflexivity | apply pages_end].
  - intros a Ha _. split.
    + cbn in Ha. repeat (apply elem_of_cons in Ha as [->|Ha]; [reflexivity|]).
      by apply elem_of_nil in Ha.
    + unfold listed, Scenario.one_page.
      cbn [map concat ListResponse.value default from_option].
      rewrite app_nil_r. exact Ha.
Defined.

(** X17.  When the identifiers that the pages of the listing show are,
    in the directory, those of assignments of the same account, a run of
    [changeUserRole] that returns leaves the assignments of every other
    account as they were. *)
Theorem changeUserRole_spares_other_accounts
    env fuel request currentUser w result w'
    targetUser targetAdId graphToken spId w1 pages :
  changeUserRole env fuel request currentUser w = (Ok result, w') →
  changeUserRole_lookups env request currentUser w
    = (Ok (targetUser, targetAdId, graphToken, spId), w1) →
  pages_from env (appRoleAssignedTo_url spId) pages →
  identifiers_agree pages w →
  assignments_of_others targetAdId (assignments w')
  = assignments_of_others targetAdId (assignments w).
Proof.
  intros Hrun Hlookups Hpages Hagree.
  apply changeUserRole_inv_ok in Hrun
    as (adId & token & sp & w1' & pages' & Hlookups' & Hpages' & Hrun).
  rewrite Hlookups in Hlookups'. simplify_eq.
  rewrite (pages_from_inj _ _ _ _ Hpages' Hpages) in Hrun.
  cbv zeta in Hrun.
  destruct (ChangeUserRoleRequest.newRole request) as [r|].
  - destruct Hrun as [(_ & _ & new & Hnew & ->)|(_ & _ & ->)].
    + unfold assignments_of_others. rewrite filter_app.
      change (filter _ (without ?g ?l))
        with (assignments_of_others adId (without g l)).
      change (filter _ new) with (assignments_of_others adId new).
      rewrite (proj2 (assignments_of_created _ _ _ Hnew)), app_nil_r.
      by apply without_others.
    + by apply without_others.
  - destruct Hrun as (_ & _ & ->). by apply without_others.
Qed.

Lemma changeUserRole_spares_other_accounts_witness :
  assignments_of_others "ad-dana"
    (assignments
       (changeUserRole Scenario.env_fine 5
          (Scenario.request "d@x.com" (Some Admin)) Scenario.root
          Scenario.w0).2)
  = assignments_of_others "ad-dana" (assignments Scenario.w0).
Proof.
  apply (changeUserRole_spares_other_accounts Scenario.env_fine 5
           (Scenario.request "d@x.com" (Some Admin)) Scenario.root Scenario.w0
           (ChangeUserRoleResult.mk
              ChangeUserRoleMessages.ROLE_CHANGED_SUCCESSFULLY SUCCESS
              "d@x.com" (Some Employee) (Some Admin) true false)
           _ (Some Scenario.dana) "ad-dana" "token" "sp-1"
           (changeUserRole_lookups Scenario.env_fine
              (Scenario.request "d@x.com" (Some Admin)) Scenario.root
              Scenario.w0).2
           [Scenario.one_page Scenario.granted (appRoleAssignedTo_url "sp-1")]).
  - vm_compute. reflexivity.
  - vm_compute. reflexivity.
  - apply (pages_next Scenario.env_fine (appRoleAssignedTo_url "sp-1") []);
      [reflexivity | apply pages_end].
  - intros a b Ha Hb Hid. unfold listed, Scenario.one_page in Ha.
    cbn [map concat ListResponse.value default from_option] in Ha.
    rewrite app_nil_r in Ha. cbn in Ha, Hb.
    repeat (apply elem_of_cons in Ha as [->|Ha]);
      try (by apply elem_of_nil in Ha);
      repeat (apply elem_of_cons in Hb as [->|Hb]);
      try (by apply elem_of_nil in Hb); try reflexivity; discriminate Hid.
Defined.


(** ** Without the directory's configuration *)

Lemma validateUserExists_unconfigured env userEmail w :
  configured env = false →
  validateUserExists env userEmail w
  = (Throw (Error ("User " +:+ userEmail +:+ " not found in Azure AD")), w).
Proof.
  intros Hconf. unfold validateUserExists.
  erewrite try_catch_throw
    by (erewrite bind_throw by (by apply getGraphToken_unconfigured);
        reflexivity).
  reflexivity.
Qed.

Lemma changeUserRole_lookups_terminates env request currentUser :
  terminates (changeUserRole_lookups env request currentUser).
Proof.
  unfold changeUserRole_lookups, getUserByEmail, validateUserExists,
    getGraphToken, getServicePrincipalObjectId.
  terminates_auto.
Qed.

Lemma changeUserRole_lookups_unconfigured env request currentUser w r w1 :
  configured env = false →
  changeUserRole_lookups env request currentUser w = (r, w1) →
  ∃ e, r = Throw e
       ∧ (e ∈ denials ∨ e = rejected
          ∨ e = Error ("User " +:+ ChangeUserRoleRequest.userEmail request
                         +:+ " not found in Azure AD")).
Proof.
  intros Hconf H. destruct r as [x|e|].
  - exfalso. unfold changeUserRole_lookups in H.
    apply bind_inv_ok in H as ([] & w_a & _ & H).
    apply bind_inv_ok in H as ([] & w_b & _ & H).
    apply bind_inv_ok in H as (t & w_c & _ & H).
    apply bind_inv_ok in H as ([] & w_d & _ & H).
    apply bind_inv_ok in H as (ad & w_e & Had & H).
    rewrite validateUserExists_unconfigured in Had by done. discriminate.
  - exists e. split; [done|]. unfold changeUserRole_lookups in H.
    unfold ChangeUserRoleValidationRules.validateNotSelfChange,
      ChangeUserRoleValidationRules.validateSupervisorRoleAssignment in H.
    apply bind_inv_throw in H as [H|([] & w_a & _ & H)].
    { apply guard_inv_throw in H as [He ->]. left.
      case_match; simplify_eq. set_solver. }
    apply bind_inv_throw in H as [H|([] & w_b & _ & H)].
    { apply guard_inv_throw in H as [He ->]. left.
      case_match; simplify_eq. set_solver. }
    apply bind_inv_throw in H as [H|(targetUser & w_c & _ & H)].
    { right; left. unfold getUserByEmail in H.
      apply bind_inv_throw in H as [H|([] & w_x & _ & H)]; [|discriminate].
      unfold call in H. destruct (fails _ _ _); by simplify_eq. }
    apply bind_inv_throw in H as [H|([] & w_d & _ & H)].
    { left. destruct targetUser as [t|]; [|discriminate].
      unfold ChangeUserRoleValidationRules.validateNotSuperAdminChange,
        ChangeUserRoleValidationRules.validateCallerPermissions,
        ChangeUserRoleValidationRules.validateRoleChange in H.
      apply bind_inv_throw in H as [H|([] & w_x & H1 & H)].
      { apply guard_inv_throw in H as [He ->].
        case_match; simplify_eq. set_solver. }
      apply guard_inv_ok in H1 as [H1 ->].
      apply bind_inv_throw in H as [H|([] & w_y & H2 & H)].
      { apply guard_inv_throw in H as [He ->].
        repeat case_match; simplify_eq; set_solver. }
      apply guard_inv_ok in H2 as [H2 ->].
      apply guard_inv_throw in H as [He ->].
      repeat case_match; simplify_eq; set_solver. }
    apply bind_inv_throw in H as [H|(ad & w_e & Had & H)].
    { right; right. by apply validateUserExists_throws in H. }
    rewrite validateUserExists_unconfigured in Had by done. discriminate.
  - exfalso.
    pose proof (changeUserRole_lookups_terminates env request currentUser w)
      as Hterm.
    by rewrite H in Hterm.
Qed.

(** X18.  Without the tenant, the client identifier or the secret in the
    configuration, no run of [changeUserRole] returns or changes anything,
    in the local database or in the directory.  What it throws is a
    denial of the rules, the failure of the local lookup, or the error
    that says that the user was not found in Azure AD (not one that
    names the configuration). *)
Theorem unconfigured_directory_blocks_every_change
    env fuel request currentUser w :
  configured env = false →
  let run := changeUserRole env fuel request currentUser w in
  same_local w run.2 ∧ same_directory w run.2
  ∧ ∃ e, run.1 = Throw e
         ∧ (e ∈ denials ∨ e = rejected
            ∨ e = Error ("User " +:+ ChangeUserRoleRequest.userEmail request
                           +:+ " not found in Azure AD")).
Proof.
  intros Hconf. cbv zeta. rewrite changeUserRole_steps.
  destruct (changeUserRole_lookups env request currentUser w) as [r w1]
    eqn:Hlookups.
  pose proof (changeUserRole_lookups_local _ _ _ _ _ _ Hlookups) as Hl.
  pose proof (changeUserRole_lookups_directory _ _ _ _ _ _ Hlookups) as Hd.
  destruct (changeUserRole_lookups_unconfigured _ _ _ _ _ _ Hconf Hlookups)
    as (e & -> & He).
  erewrite bind_throw by exact Hlookups. cbn [fst snd].
  split_and!; [done|done|]. by exists e.
Qed.

Lemma unconfigured_directory_blocks_every_change_witness :
  let run :=
    changeUserRole Scenario.env_unconfigured 5
      (Scenario.request "d@x.com" (Some Admin)) Scenario.root Scenario.w0 in
  same_local Scenario.w0 run.2 ∧ same_directory Scenario.w0 run.2
  ∧ ∃ e, run.1 = Throw e
         ∧ (e ∈ denials ∨ e = rejected
            ∨ e = Error ("User " +:+ "d@x.com" +:+ " not found in Azure AD")).
Proof.
  cbv zeta.
  apply (unconfigured_directory_blocks_every_change Scenario.env_unconfigured
           5 (Scenario.request "d@x.com" (Some Admin)) Scenario.root
           Scenario.w0).
  reflexivity.
Defined.


(** ** The role of a new administrator *)

Lemma getGraphToken_terminates env : terminates (getGraphToken env).
Proof. unfold getGraphToken. terminates_auto. Qed.

Lemma appRoleIdMap_other_roles config role :
  role ≠ SuperAdmin → role ≠ ContactManager →
  appRoleIdMap config !! roleName role = None.
Proof. intros H1 H2. by destruct role. Qed.

(** X19.  [assignAzureADRole] knows two roles, SuperAdmin and
    ContactManager.  For a role without an application role in [config]
    (any other role, or one of the two left unset) it never returns and
    never changes the directory's assignments or the local database: it
    asks for the token first, and once it has one it makes no further
    call and throws the error that names the role. *)
Theorem assignAzureADRole_refuses_unconfigured_role
    env config fuel user role w :
  otruthy (mjoin (appRoleIdMap config !! roleName role)) = false →
  let run := assignAzureADRole env config fuel user role w in
  same_local w run.2 ∧ same_directory w run.2
  ∧ (∃ e, run.1 = Throw e)
  ∧ (∀ token w1, getGraphToken env w = (Ok token, w1) →
       run = (Throw (Error ("No app role ID configured for role: "
                              +:+ roleName role)), w1)).
Proof.
  intros Hrole. cbv zeta. unfold assignAzureADRole. cbv zeta.
  rewrite Hrole. cbn [negb].
  destruct (getGraphToken env w) as [[token|e|] w1] eqn:Htoken.
  - erewrite bind_ok by exact Htoken. cbn [fst snd]. split_and!.
    + by eapply getGraphToken_local.
    + by eapply getGraphToken_directory.
    + by eexists.
    + by intros ? ? [= <- <-].
  - erewrite bind_throw by exact Htoken. cbn [fst snd]. split_and!.
    + by eapply getGraphToken_local.
    + by eapply getGraphToken_directory.
    + by eexists.
    + by intros ? ? [=].
  - exfalso. pose proof (getGraphToken_terminates env w) as Hterm.
    by rewrite Htoken in Hterm.
Qed.

Lemma assignAzureADRole_refuses_unconfigured_role_witness :
  let run :=
    assignAzureADRole Scenario.env_fine Scenario.app_roles 5 Scenario.dana
      Admin Scenario.w0 in
  same_local Scenario.w0 run.2 ∧ same_directory Scenario.w0 run.2
  ∧ (∃ e, run.1 = Throw e)
  ∧ (∀ token w1, getGraphToken Scenario.env_fine Scenario.w0 = (Ok token, w1) →
       run = (Throw (Error ("No app role ID configured for role: "
                              +:+ roleName Admin)), w1)).
Proof.
  cbv zeta.
  apply (assignAzureADRole_refuses_unconfigured_role Scenario.env_fine
           Scenario.app_roles 5 Scenario.dana Admin Scenario.w0).
  vm_compute. reflexivity.
Defined.

Lemma assignAppRoleToPrincipal_inv_ok env token sp p r w w' :
  assignAppRoleToPrincipal env token sp p r w = (Ok tt, w') →
  ∃ new, created p r new ∧ assignments w' = (assignments w ++ new)%list
         ∧ same_local w w'.
Proof.
  intros H.
  pose proof (assignAppRoleToPrincipal_local _ _ _ _ _ _ _ _ H) as Hl.
  destruct (fails env (history w) (GraphPostAssignment sp p r)) eqn:Hf.
  - rewrite assignAppRoleToPrincipal_rejected in H by done. discriminate.
  - rewrite assignAppRoleToPrincipal_accepted in H by done. simplify_eq.
    eexists. split; [by eexists|]. done.
Qed.

(** X20.  When [assignAzureADRole] returns, the role is SuperAdmin or
    ContactManager, and, the pages of the listing showing every assignment
    the user's account has, the account has exactly one assignment in the
    directory, with the application role that [config] has for the role.
    The local database is untouched. *)
Theorem assignAzureADRole_leaves_one_assignment
    env config fuel user role w w' pages :
  assignAzureADRole env config fuel user role w = (Ok tt, w') →
  pages_from env
    (appRoleAssignedTo_url
       (default "undefined" (AppRoleConfig.servicePrincipalObjectId config)))
    pages →
  shows_all_of (User.azureAdObjectId user) pages w →
  (role = SuperAdmin ∨ role = ContactManager)
  ∧ otruthy (mjoin (appRoleIdMap config !! roleName role)) = true
  ∧ created (User.azureAdObjectId user)
      (mjoin (appRoleIdMap config !! roleName role))
      (assignments_of (User.azureAdObjectId user) (assignments w'))
  ∧ same_local w w'.
Proof.
  intros Hrun Hpages Hshows. unfold assignAzureADRole in Hrun.
  cbv zeta in Hrun.
  apply bind_inv_ok in Hrun as (token & w1 & Htoken & Hrun).
  pose proof (getGraphToken_local _ _ _ _ Htoken) as Hl1.
  pose proof (getGraphToken_directory _ _ _ _ Htoken) as Hd1.
  destruct (otruthy (mjoin (appRoleIdMap config !! roleName role))) eqn:Hrole;
    cbn [negb] in Hrun; [|discriminate].
  apply bind_inv_ok in Hrun as (removed & w2 & Hclear & Hrun).
  pose proof (removeAllAppRolesFromPrincipalOnSp_local _ _ _ _ _ _ _ _ Hclear)
    as Hl2.
  apply removeAllAppRolesFromPrincipalOnSp_inv_ok in Hclear
    as (pages' & Hpages' & _ & _ & _ & Hd2).
  rewrite (pages_from_inj _ _ _ _ Hpages' Hpages) in Hd2.
  apply assignAppRoleToPrincipal_inv_ok in Hrun as (new & Hnew & Hd3 & Hl3).
  split_and!.
  - destruct role; try (by left); try (by right);
      by rewrite appRoleIdMap_other_roles in Hrole.
  - done.
  - rewrite Hd3, Hd2. unfold same_directory in Hd1. rewrite Hd1.
    unfold assignments_of. rewrite filter_app.
    change (filter _ (without ?g ?l))
      with (assignments_of (User.azureAdObjectId user) (without g l)).
    change (filter _ new) with (assignments_of (User.azureAdObjectId user) new).
    rewrite without_shown by done.
    by rewrite (proj1 (assignments_of_created _ _ _ Hnew)).
  - etrans; [exact Hl1|]. etrans; [exact Hl2|]. exact Hl3.
Qed.

Lemma assignAzureADRole_leaves_one_assignment_witness :
  let w' := (assignAzureADRole Scenario.env_fine Scenario.app_roles 5
               Scenario.dana ContactManager Scenario.w0).2 in
  (ContactManager = SuperAdmin ∨ ContactManager = ContactManager)
  ∧ otruthy (mjoin (appRoleIdMap Scenario.app_roles
                      !! roleName ContactManager)) = true
  ∧ created "ad-dana"
      (mjoin (appRoleIdMap Scenario.app_roles !! roleName ContactManager))
      (assignments_of "ad-dana" (assignments w'))
  ∧ same_local Scenario.w0 w'.
Proof.
  cbv zeta.
  apply (assignAzureADRole_leaves_one_assignment Scenario.env_fine
           Scenario.app_roles 5 Scenario.dana ContactManager Scenario.w0 _
           [Scenario.one_page Scenario.granted (appRoleAssignedTo_url "sp-1")]).
  - vm_compute. reflexivity.
  - apply (pages_next Scenario.env_fine (appRoleAssignedTo_url "sp-1") []);
      [reflexivity | apply pages_end].
  - intros a Ha _. split.
    + cbn in Ha. repeat (apply elem_of_cons in Ha as [->|Ha]; [reflexivity|]).
      by apply elem_of_nil in Ha.
    + unfold listed, Scenario.one_page.
      cbn [map concat ListResponse.value default from_option].
      rewrite app_nil_r. exact Ha.
Defined.


(** ** Bulk assignment *)

Lemma getUserAzureAdId_local env email token :
  preserves same_local (getUserAzureAdId env email token).
Proof. unfold getUserAzureAdId. preserves_auto; done. Qed.

Lemma getUserAzureAdId_directory env email token :
  preserves same_directory (getUserAzureAdId env email token).
Proof. unfold getUserAzureAdId. preserves_auto; done. Qed.

Lemma getUserAzureAdId_terminates env email token :
  terminates (getUserAzureAdId env email token).
Proof. unfold getUserAzureAdId. terminates_auto. Qed.

Lemma getUserAzureAdId_resolves env email token w adId w' :
  getUserAzureAdId env email token w = (Ok adId, w') →
  resolves_to env email adId.
Proof.
  unfold getUserAzureAdId, try_catch, mbind, M_bind, call.
  destruct (fails env _ (GraphGetUser email)).
  - destruct (fails env _ (GraphSearchUser email)); [discriminate|].
    destruct (directorySearch env email) as [[|id rest]|] eqn:Hsearch;
      try discriminate.
    cbv [mret M_ret]. intros [= <- <-]. right. eauto.
  - cbv [mret M_ret]. intros [= <- <-]. by left.
Qed.

Lemma assignRoleToUser_run env token spId userAdId roleId w :
  let c := GraphPostAssignment spId userAdId (Some roleId) in
  assignRoleToUser env token spId userAdId roleId w
  = if fails env (history w) c
    then (Throw rejected, record_call c w)
    else (Ok tt, add_assignment env userAdId (Some roleId) (record_call c w)).
Proof.
  cbv zeta. unfold assignRoleToUser, mbind, M_bind, call.
  by destruct (fails _ _ _).
Qed.

Lemma bulkAssignRole_each_effect env token spId roleId userEmails :
  ∀ successCount w,
    ∃ new w',
      bulkAssignRole_each env token spId roleId userEmails successCount w
      = (Ok (successCount + N.of_nat (length new)), w')
      ∧ (length new ≤ length userEmails)%nat
      ∧ assignments w' = (assignments w ++ new)%list
      ∧ Forall (assigned_to_one_of env userEmails roleId) new
      ∧ same_local w w'.
Proof.
  induction userEmails as [|email userEmails IH]; intros successCount w.
  - exists [], w. cbn. rewrite N.add_0_r, app_nil_r. by split_and!.
  - cbn [bulkAssignRole_each].
    assert (∃ (added : list Assignment.t) w1,
      try_catch
        (userAdId ← getUserAzureAdId env email token;
         assignRoleToUser env token spId userAdId roleId;;
         mret (successCount + 1))
        (fun _ => mret successCount) w
      = (Ok (successCount + N.of_nat (length added)), w1)
      ∧ (length added ≤ 1)%nat
      ∧ assignments w1 = (assignments w ++ added)%list
      ∧ Forall (assigned_to_one_of env [email] roleId) added
      ∧ same_local w w1) as (added & w1 & Hstep & Hlen & Hd & Hall & Hl).
    { destruct (getUserAzureAdId env email token w) as [[adId|e|] w0] eqn:Hid.
      - pose proof (getUserAzureAdId_local _ _ _ _ _ _ Hid) as Hl0.
        pose proof (getUserAzureAdId_directory _ _ _ _ _ _ Hid) as Hd0.
        pose proof (getUserAzureAdId_resolves _ _ _ _ _ _ Hid) as Hres.
        unfold same_directory in Hd0.
        destruct (fails env (history w0)
                    (GraphPostAssignment spId adId (Some roleId))) eqn:Hf.
        + exists [], (record_call (GraphPostAssignment spId adId (Some roleId)) w0).
          split_and!.
          * erewrite try_catch_throw; cycle 1.
            { erewrite bind_ok by exact Hid.
              erewrite bind_throw; [reflexivity|].
              rewrite assignRoleToUser_run. cbv zeta. by rewrite Hf. }
            cbn. by rewrite N.add_0_r.
          * cbn. lia.
          * cbn. by rewrite app_nil_r.
          * constructor.
          * exact Hl0.
        + eexists [_], _. split_and!.
          * erewrite try_catch_ok; [reflexivity|].
            erewrite bind_ok by exact Hid.
            erewrite bind_ok; [reflexivity|].
            rewrite assignRoleToUser_run. cbv zeta. by rewrite Hf.
          * cbn. lia.
          * cbn. by rewrite Hd0.
          * constructor; [|constructor]. split; [done|].
            exists email, adId. split_and!; [by left|done|done].
          * exact Hl0.
      - exists [], w0. split_and!.
        + erewrite try_catch_throw
            by (erewrite bind_throw by exact Hid; reflexivity).
          cbn. by rewrite N.add_0_r.
        + cbn. lia.
        + rewrite app_nil_r. by eapply getUserAzureAdId_directory.
        + constructor.
        + by eapply getUserAzureAdId_local.
      - exfalso. pose proof (getUserAzureAdId_terminates env email token w).
        by rewrite Hid in H. }
    destruct (IH (successCount + N.of_nat (length added)) w1)
      as (new & w' & Hrun & Hlen' & Hd' & Hall' & Hl').
    exists (added ++ new)%list, w'. split_and!.
    + erewrite bind_ok by exact Hstep. rewrite Hrun. f_equal. f_equal.
      rewrite length_app. lia.
    + rewrite length_app. cbn. lia.
    + rewrite Hd', Hd. by rewrite app_assoc.
    + apply Forall_app. split.
      * eapply Forall_impl; [exact Hall|].
        intros a (Hr & e & p & He & Hres & Hp). split; [done|].
        exists e, p. split_and!; [|done|done].
        apply list_elem_of_singleton in He as ->. by left.
      * eapply Forall_impl; [exact Hall'|].
        intros a (Hr & e & p & He & Hres & Hp). split; [done|].
        exists e, p. split_and!; [by right|done|done].
    + by etrans.
Qed.

Lemma getGraphToken_throws env :
  throws_only
    (fun e => e = Error
       "Missing Azure AD config: azureTenantId, azureClientId, or azureClientSecret"
     ∨ e = Error "Failed to acquire Graph token")
    (getGraphToken env).
Proof. unfold getGraphToken. throws_auto. Qed.

Lemma getServicePrincipalObjectId_terminates env token clientId :
  terminates (getServicePrincipalObjectId env token clientId).
Proof. unfold getServicePrincipalObjectId. terminates_auto. Qed.

(** X21.  [bulkAssignRole] returns the number of assignments it created:
    the directory has gained that many, no more than there are emails,
    each of the role to the account an email of the list resolves to, and
    none was lost; an email that cannot be resolved or whose POST is rejected
    is skipped.  It throws only when the token or the service principal
    cannot be had, and then the directory is as it was.  The local
    database is untouched. *)
Theorem bulkAssignRole_counts_what_it_created env userEmails roleId w :
  let (r, w') := bulkAssignRole env userEmails roleId w in
  same_local w w'
  ∧ match r with
    | Ok successCount =>
      ∃ new,
        assignments w' = (assignments w ++ new)%list
        ∧ successCount = N.of_nat (length new)
        ∧ (length new ≤ length userEmails)%nat
        ∧ Forall (assigned_to_one_of env userEmails roleId) new
    | Throw e => e ∈ lookup_errors ∧ assignments w' = assignments w
    | Diverge => False
    end.
Proof.
  destruct (bulkAssignRole env userEmails roleId w) as [r w'] eqn:Hrun.
  unfold bulkAssignRole in Hrun.
  destruct (getGraphToken env w) as [[token|e|] w1] eqn:Htoken; cycle 1.
  { erewrite bind_throw in Hrun by exact Htoken. simplify_eq.
    split; [by eapply getGraphToken_local|]. split.
    - apply getGraphToken_throws in Htoken as [->| ->]; set_solver.
    - by eapply getGraphToken_directory. }
  { exfalso. pose proof (getGraphToken_terminates env w) as H.
    by rewrite Htoken in H. }
  erewrite bind_ok in Hrun by exact Htoken. cbv zeta in Hrun.
  pose proof (getGraphToken_local _ _ _ _ Htoken) as Hl1.
  pose proof (getGraphToken_directory _ _ _ _ Htoken) as Hd1.
  destruct (getServicePrincipalObjectId env token
              (or_else (processEnv env !! "APP_CLIENT_ID")
                       (processEnv env !! "AZURE_CLIENT_ID")) w1)
    as [[spId|e|] w2] eqn:Hsp; cycle 1.
  { erewrite bind_throw in Hrun by exact Hsp. simplify_eq.
    split; [etrans; [exact Hl1|]; by eapply getServicePrincipalObjectId_local|].
    split.
    - apply getServicePrincipalObjectId_throws in Hsp as ->. set_solver.
    - etrans; [by eapply getServicePrincipalObjectId_directory|exact Hd1]. }
  { exfalso.
    pose proof (getServicePrincipalObjectId_terminates env token
                  (or_else (processEnv env !! "APP_CLIENT_ID")
                           (processEnv env !! "AZURE_CLIENT_ID")) w1) as H.
    by rewrite Hsp in H. }
  erewrite bind_ok in Hrun by exact Hsp.
  pose proof (getServicePrincipalObjectId_local _ _ _ _ _ _ Hsp) as Hl2.
  pose proof (getServicePrincipalObjectId_directory _ _ _ _ _ _ Hsp) as Hd2.
  destruct (bulkAssignRole_each_effect env token spId roleId userEmails 0 w2)
    as (new & w3 & Heach & Hlen & Hd3 & Hall & Hl3).
  rewrite Heach in Hrun. simplify_eq. split.
  - etrans; [exact Hl1|]. by etrans.
  - exists new. unfold same_directory in *. split_and!; try done.
    congruence.
Qed.


(** ** Clearing from the user's side *)

Lemma removeAllAppRolesFromUser_each_run env collection page :
  ∀ w,
    let ids :=
      map (fun a => default "undefined" (Assignment.id a)) page in
    let (r, w') := removeAllAppRolesFromUser_each env collection page w in
    same_local w w'
    ∧ match r with
      | Ok _ =>
        history w'
        = (history w ++ map (GraphDeleteAssignment collection) ids)%list
        ∧ assignments w'
          = foldl (fun l id => filter (fun a => Assignment.id a ≠ Some id) l)
                  (assignments w) ids
      | Throw e => e = rejected
      | Diverge => False
      end.
Proof.
  induction page as [|a l IH]; intros w; cbv zeta.
  - cbn. by rewrite app_nil_r.
  - cbn [removeAllAppRolesFromUser_each]. cbv zeta.
    set (id := default "undefined" (Assignment.id a)).
    destruct (fails env (history w) (GraphDeleteAssignment collection id))
      eqn:Hf.
    + erewrite bind_throw; cycle 1.
      { erewrite try_catch_throw; [reflexivity|].
        unfold axios_delete.
        erewrite bind_throw by (by apply call_rejected). reflexivity. }
      split; [done|]. done.
    + erewrite bind_ok; cycle 1.
      { apply try_catch_ok. unfold axios_delete.
        erewrite bind_ok by (by apply call_accepted). reflexivity. }
      specialize (IH (drop_assignment id
                        (record_call (GraphDeleteAssignment collection id) w))).
      cbv zeta in IH.
      destruct (removeAllAppRolesFromUser_each env collection l _)
        as [[[]|e|] w'].
      * destruct IH as (Hl & Hh & Hd). split; [exact Hl|]. split.
        -- rewrite Hh. cbn. by rewrite <- app_assoc.
        -- rewrite Hd. reflexivity.
      * destruct IH as (Hl & He). by split.
      * by destruct IH.
Qed.

(** X22.  [removeAllAppRolesFromUser] makes one GET, whatever link to a
    next page the answer carries, and then one DELETE for each entry of
    that answer, in order, an entry without identifier giving a DELETE of
    [undefined].  When it returns, those are all its calls, and the
    directory has lost the assignments with those identifiers.  A
    rejected call is thrown as it is.  The local database is
    untouched. *)
Theorem removeAllAppRolesFromUser_clears_one_page
    env token servicePrincipalObjectId userObjectId w :
  let baseUrl := "https://graph.microsoft.com/v1.0" in
  let collection := baseUrl +:+ "/users/" +:+ userObjectId
                      +:+ "/appRoleAssignments" in
  let listUrl := collection +:+ "?$filter=resourceId eq "
                   +:+ servicePrincipalObjectId in
  let ids :=
    map (fun a => default "undefined" (Assignment.id a))
        (default [] (ListResponse.value (listing env listUrl))) in
  let (r, w') :=
    removeAllAppRolesFromUser env token servicePrincipalObjectId
      userObjectId w in
  same_local w w'
  ∧ match r with
    | Ok _ =>
      history w'
      = (history w ++
           GraphGet listUrl :: map (GraphDeleteAssignment collection) ids)%list
      ∧ assignments w'
        = foldl (fun l id => filter (fun a => Assignment.id a ≠ Some id) l)
                (assignments w) ids
    | Throw e => e = rejected
    | Diverge => False
    end.
Proof.
  cbv zeta. unfold removeAllAppRolesFromUser. cbv zeta.
  set (collection := "https://graph.microsoft.com/v1.0" +:+ "/users/"
                       +:+ userObjectId +:+ "/appRoleAssignments").
  set (listUrl := collection +:+ "?$filter=resourceId eq "
                    +:+ servicePrincipalObjectId).
  destruct (fails env (history w) (GraphGet listUrl)) eqn:Hf.
  - erewrite bind_throw; cycle 1.
    { erewrite try_catch_throw; [reflexivity|].
      erewrite bind_throw by (by apply call_rejected). reflexivity. }
    by split.
  - erewrite bind_ok; cycle 1.
    { apply try_catch_ok.
      erewrite bind_ok by (by apply call_accepted). reflexivity. }
    pose proof (removeAllAppRolesFromUser_each_run env collection
                  (default [] (ListResponse.value (listing env listUrl)))
                  (record_call (GraphGet listUrl) w)) as Hrun.
    cbv zeta in Hrun.
    destruct (removeAllAppRolesFromUser_each env collection _ _)
      as [[[]|e|] w'].
    + destruct Hrun as (Hl & Hh & Hd). split; [exact Hl|]. split.
      * rewrite Hh. cbn. by rewrite <- app_assoc.
      * exact Hd.
    + destruct Hrun as (Hl & He). by split.
    + by destruct Hrun.
Qed.


(** ** Listings read to their end *)

Lemma fetchAppRoleMemberIds_page appRoleId page :
  ∀ (memberIds : gset string) p,
    p ∈ foldl (fun (ids : gset string) assignment =>
                 if bool_decide (Assignment.appRoleId assignment = Some appRoleId)
                    && otruthy (Assignment.principalId assignment)
                 then {[ default "" (Assignment.principalId assignment) ]} ∪ ids
                 else ids)
              memberIds page
    ↔ p ∈ memberIds
      ∨ (truthy p = true
         ∧ ∃ a, a ∈ page ∧ Assignment.appRoleId a = Some appRoleId
                ∧ Assignment.principalId a = Some p).
Proof.
  induction page as [|a page IH]; intros memberIds p.
  - cbn. split; [by left|]. intros [H|(_ & a & Ha & _)]; [done|].
    by apply elem_of_nil in Ha.
  - cbn [foldl]. rewrite IH. split.
    + intros [H|(Hp & b & Hb & Hrole & Hprincipal)].
      * case_bool_decide as Hrole; cbn [andb] in H; [|by left].
        destruct (Assignment.principalId a) as [q|] eqn:Hq;
          cbn [otruthy] in H; [|by left].
        destruct (truthy q) eqn:Htruthy; [|by left].
        cbn [default from_option Datatypes.id] in H.
        apply elem_of_union in H as [H|H]; [|by left].
        apply elem_of_singleton in H as ->. right. split; [done|].
        exists a. split_and!; [by left|done|done].
      * right. split; [done|]. exists b. split_and!; [by right|done|done].
    + intros [H|(Hp & b & Hb & Hrole & Hprincipal)].
      * left. destruct (_ && _); [|done]. apply elem_of_union. by right.
      * apply elem_of_cons in Hb as [->|Hb].
        -- left. rewrite bool_decide_eq_true_2 by done.
           rewrite Hprincipal. cbn [otruthy andb]. rewrite Hp.
           cbn [default from_option Datatypes.id].
           apply elem_of_union. left. by apply elem_of_singleton.
        -- right. split; [done|]. by exists b.
Qed.

Lemma fetchAppRoleMemberIds_loop_frame env appRoleId fuel :
  ∀ url memberIds,
    preserves (fun w w' => same_local w w' ∧ same_directory w w')
      (fetchAppRoleMemberIds_loop env fuel appRoleId url memberIds).
Proof.
  assert (PreOrder (fun w w' => same_local w w' ∧ same_directory w w')).
  { split; [by intros w|].
    intros w1 w2 w3 [? ?] [? ?]. split; by etrans. }
  induction fuel as [|fuel IH]; intros url memberIds;
    cbn [fetchAppRoleMemberIds_loop]; preserves_auto; done.
Qed.

Lemma fetchAppRoleMemberIds_loop_run env appRoleId fuel :
  ∀ url memberIds w,
    match (fetchAppRoleMemberIds_loop env fuel appRoleId url memberIds w).1 with
    | Ok ids =>
      ∃ pages,
        pages_from env url pages
        ∧ Forall (fun page => ListResponse.status page = 200) pages
        ∧ ∀ p, p ∈ ids ↔ p ∈ memberIds ∨ member_shown appRoleId pages p
    | Throw e => e ∈ member_errors
    | Diverge => True
    end.
Proof.
  induction fuel as [|fuel IH]; intros url memberIds w;
    cbn [fetchAppRoleMemberIds_loop].
  - destruct (truthy url) eqn:Hurl; cbn [negb]; [done|].
    apply truthy_false in Hurl as ->. exists []. split_and!; try constructor.
    + by left.
    + intros [H|(_ & a & Ha & _)]; [done|]. by apply elem_of_nil in Ha.
  - destruct (truthy url) eqn:Hurl; cbn [negb]; cycle 1.
    { apply truthy_false in Hurl as ->. exists [].
      split_and!; try constructor.
      + by left.
      + intros [H|(_ & a & Ha & _)]; [done|]. by apply elem_of_nil in Ha. }
    unfold mbind, M_bind, call. destruct (fails env _ _); [set_solver|].
    destruct (ListResponse.status (listing env url) =? 200) eqn:Hst;
      cbn [negb]; [|set_solver].
    apply N.eqb_eq in Hst.
    match goal with
    | |- context [fetchAppRoleMemberIds_loop env fuel appRoleId ?u ?m ?w1] =>
        specialize (IH u m w1);
        destruct (fetchAppRoleMemberIds_loop env fuel appRoleId u m w1)
          as [[ids|e|] w']
    end; cbn [fst] in *; [|done|done].
    destruct IH as (pages & Hpages & Hall & Hids).
    exists (listing env url :: pages). split_and!.
    + by constructor.
    + by constructor.
    + intros p. rewrite Hids, fetchAppRoleMemberIds_page.
      unfold member_shown, listed. cbn [map concat].
      setoid_rewrite elem_of_app. split.
      * intros [[H|(Hp & a & Ha & H)]|(Hp & a & Ha & H)];
          [by left|right..]; (split; [done|]); exists a; tauto.
      * intros [H|(Hp & a & [Ha|Ha] & H)];
          [by left; left|left; right|right]; (split; [done|]); by exists a.
Qed.

(** X23.  When [fetchAppRoleMemberIds] returns, it has read the listing
    to its end, page after page along the links, every page with status
    200, and its result holds exactly the principals, not empty, of the
    assignments of the application role that those pages show.  It
    changes neither the local database nor the directory. *)
Theorem fetchAppRoleMemberIds_collects_every_page
    env fuel token servicePrincipalId appRoleId w :
  let url := "https://graph.microsoft.com/v1.0/servicePrincipals/"
               +:+ servicePrincipalId +:+ "/appRoleAssignedTo?$top=100" in
  let (r, w') :=
    fetchAppRoleMemberIds env fuel token servicePrincipalId appRoleId w in
  same_local w w' ∧ same_directory w w'
  ∧ match r with
    | Ok ids =>
      truthy servicePrincipalId = true ∧ truthy appRoleId = true
      ∧ ∃ pages,
          pages_from env url pages
          ∧ Forall (fun page => ListResponse.status page = 200) pages
          ∧ ∀ p, p ∈ ids ↔ member_shown appRoleId pages p
    | Throw e => e ∈ member_errors
    | Diverge => True
    end.
Proof.
  cbv zeta.
  destruct (fetchAppRoleMemberIds env fuel token servicePrincipalId appRoleId w)
    as [r w'] eqn:Hrun.
  unfold fetchAppRoleMemberIds in Hrun.
  destruct (truthy servicePrincipalId); cbn [negb] in Hrun;
    [|cbv [throw] in Hrun; simplify_eq; split_and!; [done|done|set_solver]].
  destruct (truthy appRoleId); cbn [negb] in Hrun;
    [|cbv [throw] in Hrun; simplify_eq; split_and!; [done|done|set_solver]].
  pose proof (fetchAppRoleMemberIds_loop_frame _ _ _ _ _ _ _ _ Hrun)
    as [Hl Hd].
  split_and!; [done|done|].
  match type of Hrun with
  | fetchAppRoleMemberIds_loop env fuel appRoleId ?u ?m w = _ =>
      pose proof (fetchAppRoleMemberIds_loop_run env appRoleId fuel u m w)
        as Hloop
  end.
  rewrite Hrun in Hloop. cbn [fst] in Hloop.
  destruct r as [ids|e|]; [|done|done].
  destruct Hloop as (pages & Hpages & Hall & Hids).
  split_and!; [done|done|]. exists pages. split_and!; [done|done|].
  intros p. rewrite Hids. split; [|by right].
  intros [H|H]; [|done]. by apply elem_of_empty in H.
Qed.

Lemma fetchAllUsers_loop_frame env usersListing fuel :
  ∀ url users,
    preserves (fun w w' => same_local w w' ∧ same_directory w w')
      (fetchAllUsers_loop env usersListing fuel url users).
Proof.
  assert (PreOrder (fun w w' => same_local w w' ∧ same_directory w w')).
  { split; [by intros w|].
    intros w1 w2 w3 [? ?] [? ?]. split; by etrans. }
  induction fuel as [|fuel IH]; intros url users;
    cbn [fetchAllUsers_loop]; preserves_auto; done.
Qed.

Lemma fetchAllUsers_loop_run env usersListing fuel :
  ∀ url users w,
    match (fetchAllUsers_loop env usersListing fuel url users w).1 with
    | Ok all =>
      ∃ pages,
        user_pages_from usersListing url pages
        ∧ Forall (fun page => UsersResponse.status page = 200) pages
        ∧ all = (users ++
                   concat (map (fun page =>
                                  default [] (UsersResponse.value page))
                               pages))%list
    | Throw e => e = Error "Error fetching users"
    | Diverge => True
    end.
Proof.
  induction fuel as [|fuel IH]; intros url users w;
    cbn [fetchAllUsers_loop].
  - destruct (truthy url) eqn:Hurl; cbn [negb]; [done|].
    apply truthy_false in Hurl as ->. exists [].
    split_and!; try constructor. cbn. by rewrite app_nil_r.
  - destruct (truthy url) eqn:Hurl; cbn [negb]; cycle 1.
    { apply truthy_false in Hurl as ->. exists [].
      split_and!; try constructor. cbn. by rewrite app_nil_r. }
    unfold mbind, M_bind, try_catch, call.
    destruct (fails env _ _); [done|].
    destruct (UsersResponse.status (usersListing url) =? 200) eqn:Hst;
      cbn [negb]; [|done].
    apply N.eqb_eq in Hst. cbv [mret M_ret]. cbn [fst snd].
    match goal with
    | |- context [fetchAllUsers_loop env usersListing fuel ?u ?m ?w1] =>
        specialize (IH u m w1);
        destruct (fetchAllUsers_loop env usersListing fuel u m w1)
          as [[all|e|] w']
    end; cbn [fst] in *; [|done|done].
    destruct IH as (pages & Hpages & Hall & ->).
    exists (usersListing url :: pages). split_and!.
    + by constructor.
    + by constructor.
    + cbn [map concat]. by rewrite app_assoc.
Qed.

(** X24.  When [fetchAllUsers] returns, it has read the listing of
    [/users] to its end, page after page along the links, every page with
    status 200, and its result is the users of those pages, in the order
    of the pages.  Every failure, of a request or of a status, is thrown
    as an error of fetching users.  It changes neither the local database
    nor the directory. *)
Theorem fetchAllUsers_concatenates_every_page env usersListing fuel token w :
  let url := "https://graph.microsoft.com/v1.0/users?$select="
               +:+ "id,displayName,mail,userPrincipalName,accountEnabled&$top=100" in
  let (r, w') := fetchAllUsers env usersListing fuel token w in
  same_local w w' ∧ same_directory w w'
  ∧ match r with
    | Ok all =>
      ∃ pages,
        user_pages_from usersListing url pages
        ∧ Forall (fun page => UsersResponse.status page = 200) pages
        ∧ all = concat (map (fun page => default [] (UsersResponse.value page))
                            pages)
    | Throw e => e = Error "Error fetching users"
    | Diverge => True
    end.
Proof.
  cbv zeta.
  destruct (fetchAllUsers env usersListing fuel token w) as [r w'] eqn:Hrun.
  unfold fetchAllUsers in Hrun.
  pose proof (fetchAllUsers_loop_frame _ _ _ _ _ _ _ _ Hrun) as [Hl Hd].
  split_and!; [done|done|].
  match type of Hrun with
  | fetchAllUsers_loop env usersListing fuel ?u ?m w = _ =>
      pose proof (fetchAllUsers_loop_run env usersListing fuel u m w) as Hloop
  end.
  rewrite Hrun in Hloop. exact Hloop.
Qed.


(** ** Runs in which nothing is rejected *)

(** X25.  When the directory accepts every GET of a listing and every
    DELETE of an assignment, and the listing is a chain of at most
    [fuel] pages, each with status 200, then
    [removeAllAppRolesFromPrincipalOnSp] returns the number of
    assignments of the principal that the pages show with an identifier,
    having deleted the assignments with those identifiers; when the pages
    show all that the principal has, it has none left. *)
Theorem removeAllAppRolesFromPrincipalOnSp_clears_when_accepted
    env fuel token spObjectId principalId pages w :
  (∀ h c, is_list_or_delete c = true → fails env h c = false) →
  pages_from env (appRoleAssignedTo_url spObjectId) pages →
  Forall (fun page => ListResponse.status page = 200) pages →
  (length pages ≤ fuel)%nat →
  ∃ w',
    removeAllAppRolesFromPrincipalOnSp env fuel token spObjectId principalId w
    = (Ok (N.of_nat (length (to_clear principalId (listed pages)))), w')
    ∧ assignments w'
      = without (to_clear principalId (listed pages)) (assignments w)
    ∧ (shows_all_of principalId pages w →
       assignments_of principalId (assignments w') = []).
Proof.
  intros Hfine Hpages Hall Hfuel.
  unfold removeAllAppRolesFromPrincipalOnSp. cbv zeta.
  destruct (removeAllAppRolesFromPrincipalOnSp_follows_links env
              ("https://graph.microsoft.com/v1.0/servicePrincipals/"
                 +:+ spObjectId +:+ "/appRoleAssignedTo")
              principalId pages Hfine Hall _ fuel 0 w Hpages Hfuel)
    as (w' & Hrun & Hd).
  exists w'. rewrite N.add_0_l in Hrun. split_and!; [exact Hrun|exact Hd|].
  intros Hshows. rewrite Hd. by apply without_shown.
Qed.

Lemma removeAllAppRolesFromPrincipalOnSp_clears_when_accepted_witness :
  let pages :=
    [ListResponse.mk 200
       (Some [Scenario.grant "a1" "ad-dana" "role-employee"]) (Some "next");
     ListResponse.mk 200
       (Some [Scenario.grant "a2" "ad-dana" "role-contact-manager"]) None] in
  ∃ w',
    removeAllAppRolesFromPrincipalOnSp Scenario.env_two_pages 5 "token"
      "sp-1" "ad-dana" Scenario.w0
    = (Ok (N.of_nat (length (to_clear "ad-dana" (listed pages)))), w')
    ∧ assignments w'
      = without (to_clear "ad-dana" (listed pages)) (assignments Scenario.w0)
    ∧ (shows_all_of "ad-dana" pages Scenario.w0 →
       assignments_of "ad-dana" (assignments w') = []).
Proof.
  cbv zeta.
  apply (removeAllAppRolesFromPrincipalOnSp_clears_when_accepted
           Scenario.env_two_pages 5 "token" "sp-1" "ad-dana").
  - intros h c _. reflexivity.
  - apply (pages_next Scenario.env_two_pages (appRoleAssignedTo_url "sp-1"));
      [reflexivity|].
    apply (pages_next Scenario.env_two_pages "next"); [reflexivity|].
    apply pages_end.
  - repeat constructor.
  - cbn. lia.
Defined.

Lemma updateAzureADWithRetry_first_accepted env token sp p newRole w :
  (∀ h c, fails env h c = false) →
  ∃ w', updateAzureADWithRetry env token sp p newRole 2 w
        = (Ok AzureADRetryStatus.SUCCESS, w').
Proof.
  intros Hfine. unfold updateAzureADWithRetry. cbv zeta.
  cbn [updateAzureADWithRetry_loop Nat.leb negb].
  eexists. apply try_catch_ok.
  erewrite bind_ok by (by apply assignAppRoleToPrincipal_accepted).
  reflexivity.
Qed.

(** X26.  When the lookups of [changeUserRole] return, the clearing of
    the directory's assignments returns, and no call is rejected, the run
    returns with status SUCCESS: the committed change for a role, the
    removal for none. *)
Theorem changeUserRole_succeeds_when_accepted
    env fuel request currentUser w
    targetUser targetAdId graphToken spId w1 removed w2 :
  let userEmail := ChangeUserRoleRequest.userEmail request in
  let newRole := ChangeUserRoleRequest.newRole request in
  changeUserRole_lookups env request currentUser w
    = (Ok (targetUser, targetAdId, graphToken, spId), w1) →
  removeAllAppRolesFromPrincipalOnSp env fuel graphToken spId targetAdId w1
    = (Ok removed, w2) →
  (∀ h c, fails env h c = false) →
  ∃ w',
    changeUserRole env fuel request currentUser w
    = (Ok (ChangeUserRoleResult.mk
             (match newRole with
              | Some _ => ChangeUserRoleMessages.ROLE_CHANGED_SUCCESSFULLY
              | None => ChangeUserRoleMessages.USER_DELETED_SUCCESSFULLY
              end)
             SUCCESS userEmail (User.role <$> targetUser) newRole true false),
       w').
Proof.
  intros userEmail newRole Hlookups Hclear Hfine.
  rewrite changeUserRole_steps.
  erewrite bind_ok by exact Hlookups. cbv beta iota.
  erewrite bind_ok by exact Hclear.
  unfold changeUserRole_changes. fold userEmail newRole.
  destruct newRole as [r|].
  - destruct (getUserDisplayName_returns env targetAdId graphToken w2)
      as (name & Hname).
    erewrite bind_ok by exact Hname.
    erewrite bind_ok by (by apply upsertUserRole_accepted).
    match goal with
    | |- context [updateAzureADWithRetry env ?t ?s ?p ?r ?m] =>
        match goal with
        | |- context [mbind _ (updateAzureADWithRetry env t s p r m) ?w3] =>
            destruct (updateAzureADWithRetry_first_accepted env t s p r w3
                        Hfine) as (w4 & Hretry)
        end
    end.
    erewrite bind_ok by exact Hretry. cbv beta iota.
    erewrite bind_ok by (by apply logAudit_accepted).
    erewrite bind_ok by (by apply setUserOffline_accepted).
    eexists. reflexivity.
  - destruct targetUser as [t|].
    + erewrite bind_ok; cycle 1.
      { erewrite bind_ok by (by apply deleteUserByEmail_accepted).
        by apply logAudit_accepted. }
      eexists. reflexivity.
    + eexists. reflexivity.
Qed.

Lemma changeUserRole_succeeds_when_accepted_witness :
  ∃ w',
    changeUserRole Scenario.env_fine 5
      (Scenario.request "d@x.com" (Some Admin)) Scenario.root Scenario.w0
    = (Ok (ChangeUserRoleResult.mk
             ChangeUserRoleMessages.ROLE_CHANGED_SUCCESSFULLY SUCCESS
             "d@x.com" (Some Employee) (Some Admin) true false),
       w').
Proof.
  pose (w1 := (changeUserRole_lookups Scenario.env_fine
                 (Scenario.request "d@x.com" (Some Admin)) Scenario.root
                 Scenario.w0).2).
  pose (w2 := (removeAllAppRolesFromPrincipalOnSp Scenario.env_fine
                 5 "token" "sp-1" "ad-dana" w1).2).
  apply (changeUserRole_succeeds_when_accepted Scenario.env_fine 5
           (Scenario.request "d@x.com" (Some Admin)) Scenario.root Scenario.w0
           (Some Scenario.dana) "ad-dana" "token" "sp-1" w1 2 w2).
  - vm_compute. reflexivity.
  - vm_compute. reflexivity.
  - intros h c. reflexivity.
Defined.

Lemma self_change_denied_without_calls_witness :
  changeUserRole Scenario.env_fine 5 (Scenario.request "b@x.com" (Some Admin))
    Scenario.alice Scenario.w0
  = (Throw (ExpectedError ChangeUserRoleMessages.CANNOT_CHANGE_OWN_ROLE 400),
     Scenario.w0).
Proof.
  apply (self_change_denied_without_calls Scenario.env_fine 5
           (Scenario.request "b@x.com" (Some Admin)) Scenario.alice
           Scenario.w0).
  reflexivity.
Defined.

Lemma changeUserRole_terminates_witness :
  terminates
    (changeUserRole Scenario.env_fine 5
       (Scenario.request "d@x.com" (Some Admin)) Scenario.root).
Proof.
  apply (changeUserRole_terminates Scenario.env_fine 5
           (Scenario.request "d@x.com" (Some Admin)) Scenario.root).
  intros url. destruct (truthy url) eqn:Hurl.
  - exists [Scenario.one_page Scenario.granted url]. split; [|cbn; lia].
    apply (pages_next Scenario.env_fine url []); [exact Hurl|apply pages_end].
  - apply truthy_false in Hurl as ->. exists []. split; [apply pages_end|].
    cbn. lia.
Defined.

(** ** The scope of a Supervisor, from the rules to the result *)






